(** * The client key exchange of s2n (tls/s2n_client_key_exchange.c)

    A shallow embedding of the client key-exchange handlers: the RSA
    transport path with its random premaster secret, the KEM path with its
    aliasing contract, the hybrid combiner and the master-secret
    finalisation, followed by the properties established about them.

    C objects are modelled as the code has them: fixed-width integers are
    [Z] with the wrap-around written out, byte buffers are [list Z], blobs
    and stuffers are records holding pointers into an explicit store, and a
    handler is a state transformer that returns either success, an s2n
    error number, or a crash (an access C leaves undefined). *)

From stdpp Require Import base tactics option list numbers.
From Stdlib Require Import ZArith Lia.

Local Open Scope Z_scope.

(** ** Fixed-width integers *)

Definition UINT16_MAX : Z := 65535.
Definition UINT32_MAX : Z := 4294967295.

Definition uint8 (z : Z) : Z := z mod 256.
Definition uint16 (z : Z) : Z := z mod 65536.
Definition uint32 (z : Z) : Z := z mod 4294967296.

(** The length of a buffer, as the integer the C code compares it with. *)
Definition zlen {A} (l : list A) : Z := Z.of_nat (length l).

(** ** Constants of the library's headers *)

(** Modelled from the spec: the protocol version numbers of api/s2n.h (a
    version is ten times the major number plus the minor number) and the two
    widths of tls/s2n_tls_parameters.h; the headers are not part of the
    sources at hand. *)
Definition S2N_SSLv2 : Z := 20.
Definition S2N_SSLv3 : Z := 30.
Definition S2N_TLS10 : Z := 31.
Definition S2N_TLS11 : Z := 32.
Definition S2N_TLS12 : Z := 33.
Definition S2N_TLS13 : Z := 34.
Definition S2N_TLS_SECRET_LEN : Z := 48.
Definition S2N_TLS_PROTOCOL_VERSION_LEN : Z := 2.
Definition S2N_MIN_STUFFER_GROWTH_IN_BYTES : Z := 1024.

(** ** Error numbers and results *)

Inductive s2n_error : Set :=
  | S2N_ERR_NULL
  | S2N_ERR_SAFETY
  | S2N_ERR_BAD_MESSAGE
  | S2N_ERR_SIZE_MISMATCH
  | S2N_ERR_ASYNC_BLOCKED
  | S2N_ERR_ALLOC
  | S2N_ERR_FREE_STATIC_BLOB
  | S2N_ERR_INTEGER_OVERFLOW
  | S2N_ERR_STUFFER_OUT_OF_DATA
  | S2N_ERR_STUFFER_IS_FULL
  | S2N_ERR_RESIZE_TAINTED_STUFFER
  | S2N_ERR_RANDOM
  | S2N_ERR_DECRYPT
  | S2N_ERR_ENCRYPT
  | S2N_ERR_KEY_INIT
  | S2N_ERR_PRF
  | S2N_ERR_KEM
  | S2N_ERR_CACHE.

#[global] Instance s2n_error_eq_dec : EqDecision s2n_error.
Proof. solve_decision. Defined.

(** [Ok a]: the call returned 0 (or a non-null pointer) with value [a];
    [Err e]: it returned -1 (or NULL) with [s2n_errno = e];
    [Crash]: it performed an access that C leaves undefined. *)
Inductive result (A : Type) : Type :=
  | Ok (a : A)
  | Err (e : s2n_error)
  | Crash.
Arguments Ok {A} a.
Arguments Err {A} e.
Arguments Crash {A}.

(** ** Pointers, blobs and stuffers *)

(** A byte pointer names a region and an offset in it. The regions are the
    connection's own [rsa_premaster_secret] array and the cells of the
    allocator. *)
Inductive region : Set :=
  | R_rsa_premaster_secret
  | R_heap (a : nat).

Inductive pointer : Set :=
  | NULL
  | Ptr (r : region) (off : Z).

#[global] Instance region_eq_dec : EqDecision region.
Proof. solve_decision. Defined.
#[global] Instance pointer_eq_dec : EqDecision pointer.
Proof. solve_decision. Defined.

(** Pointer arithmetic [p + n]. *)
Definition ptr_add (p : pointer) (n : Z) : pointer :=
  match p with
  | NULL => NULL
  | Ptr r off => Ptr r (off + n)
  end.

(** A heap cell is live, or was released; a released cell keeps the bytes
    it held when it was released, which no access can reach any more. *)
Inductive cell : Type :=
  | Live (bytes : list Z)
  | Freed (bytes : list Z).

(** struct s2n_blob *)
Record s2n_blob : Type := mk_blob {
  data : pointer;
  size : Z;
  allocated : Z;
  growable : bool
}.

(** The blob [{0}]. *)
Definition blob_zero : s2n_blob :=
  {| data := NULL; size := 0; allocated := 0; growable := false |}.

(** struct s2n_stuffer *)
Record s2n_stuffer : Type := mk_stuffer {
  blob : s2n_blob;
  read_cursor : Z;
  write_cursor : Z;
  high_water_mark : Z;
  alloced : bool;
  stuffer_growable : bool;
  tainted : bool
}.

Definition stuffer_zero : s2n_stuffer :=
  {| blob := blob_zero; read_cursor := 0; write_cursor := 0;
     high_water_mark := 0; alloced := false; stuffer_growable := false;
     tainted := false |}.

(** Pointers to blob structures: the three blobs of [conn->secure.kem_params]
    and the blobs that live in a caller's frame. *)
Inductive blob_ptr : Set :=
  | B_NULL
  | B_kem_private_key
  | B_kem_public_key
  | B_kem_shared_secret
  | B_local (i : nat).

#[global] Instance blob_ptr_eq_dec : EqDecision blob_ptr.
Proof. solve_decision. Defined.

(** Pointers to stuffers: [&conn->handshake.io] and the stuffers of a frame. *)
Inductive stuffer_ptr : Set :=
  | S_handshake_io
  | S_local (i : nat).

(** Pointers to the two cursors of [conn->handshake.io]. *)
Inductive cursor_ptr : Set :=
  | C_io_read_cursor
  | C_io_write_cursor.

(** ** Key exchange descriptors *)

Inductive s2n_kex : Set :=
  | s2n_rsa
  | s2n_dhe
  | s2n_ecdhe
  | s2n_kem
  | s2n_hybrid_ecdhe_kem.

(** Modelled from the spec: the [hybrid] pair of a descriptor of
    tls/s2n_kex.c, the classical method first and the post-quantum method
    second; a descriptor that is not a hybrid has two null entries. *)
Definition hybrid (k : s2n_kex) : option s2n_kex * option s2n_kex :=
  match k with
  | s2n_hybrid_ecdhe_kem => (Some s2n_ecdhe, Some s2n_kem)
  | _ => (None, None)
  end.

Inductive s2n_async_state : Set :=
  | S2N_ASYNC_NOT_INVOKED
  | S2N_ASYNC_INVOKING_CALLBACK
  | S2N_ASYNC_INVOKED_WAITING
  | S2N_ASYNC_INVOKED_COMPLETE.

(** ** The connection *)

(** The fields of struct s2n_connection that the handlers touch. *)
Record s2n_connection : Type := mk_conn {
  actual_protocol_version : Z;
  client_protocol_version : Z;
  client_hello_version : Z;
  key_exchange_alg : s2n_kex;
  handshake_io : s2n_stuffer;
  handshake_rsa_failed : bool;
  handshake_async_state : s2n_async_state;
  rsa_premaster_secret : list Z;
  kem_private_key : s2n_blob;
  kem_public_key : s2n_blob;
  kem_shared_secret : s2n_blob;
  client_key_exchange_message : s2n_blob
}.

Definition set_handshake_io (s : s2n_stuffer) (c : s2n_connection) :=
  mk_conn (actual_protocol_version c) (client_protocol_version c)
    (client_hello_version c) (key_exchange_alg c) s (handshake_rsa_failed c)
    (handshake_async_state c) (rsa_premaster_secret c) (kem_private_key c)
    (kem_public_key c) (kem_shared_secret c) (client_key_exchange_message c).

Definition set_handshake_rsa_failed (b : bool) (c : s2n_connection) :=
  mk_conn (actual_protocol_version c) (client_protocol_version c)
    (client_hello_version c) (key_exchange_alg c) (handshake_io c) b
    (handshake_async_state c) (rsa_premaster_secret c) (kem_private_key c)
    (kem_public_key c) (kem_shared_secret c) (client_key_exchange_message c).

Definition set_handshake_async_state (a : s2n_async_state) (c : s2n_connection) :=
  mk_conn (actual_protocol_version c) (client_protocol_version c)
    (client_hello_version c) (key_exchange_alg c) (handshake_io c)
    (handshake_rsa_failed c) a (rsa_premaster_secret c) (kem_private_key c)
    (kem_public_key c) (kem_shared_secret c) (client_key_exchange_message c).

Definition set_rsa_premaster_secret (l : list Z) (c : s2n_connection) :=
  mk_conn (actual_protocol_version c) (client_protocol_version c)
    (client_hello_version c) (key_exchange_alg c) (handshake_io c)
    (handshake_rsa_failed c) (handshake_async_state c) l (kem_private_key c)
    (kem_public_key c) (kem_shared_secret c) (client_key_exchange_message c).

Definition set_kem_private_key (b : s2n_blob) (c : s2n_connection) :=
  mk_conn (actual_protocol_version c) (client_protocol_version c)
    (client_hello_version c) (key_exchange_alg c) (handshake_io c)
    (handshake_rsa_failed c) (handshake_async_state c) (rsa_premaster_secret c)
    b (kem_public_key c) (kem_shared_secret c) (client_key_exchange_message c).

Definition set_kem_public_key (b : s2n_blob) (c : s2n_connection) :=
  mk_conn (actual_protocol_version c) (client_protocol_version c)
    (client_hello_version c) (key_exchange_alg c) (handshake_io c)
    (handshake_rsa_failed c) (handshake_async_state c) (rsa_premaster_secret c)
    (kem_private_key c) b (kem_shared_secret c) (client_key_exchange_message c).

Definition set_kem_shared_secret (b : s2n_blob) (c : s2n_connection) :=
  mk_conn (actual_protocol_version c) (client_protocol_version c)
    (client_hello_version c) (key_exchange_alg c) (handshake_io c)
    (handshake_rsa_failed c) (handshake_async_state c) (rsa_premaster_secret c)
    (kem_private_key c) (kem_public_key c) b (client_key_exchange_message c).

Definition set_client_key_exchange_message (b : s2n_blob) (c : s2n_connection) :=
  mk_conn (actual_protocol_version c) (client_protocol_version c)
    (client_hello_version c) (key_exchange_alg c) (handshake_io c)
    (handshake_rsa_failed c) (handshake_async_state c) (rsa_premaster_secret c)
    (kem_private_key c) (kem_public_key c) (kem_shared_secret c) b.

(** #define get_client_hello_protocol_version(conn) *)
Definition get_client_hello_protocol_version (c : s2n_connection) : Z :=
  if decide (client_hello_version c = S2N_SSLv2)
  then client_protocol_version c
  else client_hello_version c.

(** ** Machine state and the handler monad *)

(** [W] stands for everything outside this file that the handlers reach
    through other modules: the random generator, the keys of the peer and of
    this endpoint, the derived secrets and the session cache. *)
Record state (W : Type) : Type := mk_state {
  conn : s2n_connection;
  heap : list cell;
  blobs : list s2n_blob;
  stuffers : list s2n_stuffer;
  world : W
}.
Arguments mk_state {W}.
Arguments conn {W}.
Arguments heap {W}.
Arguments blobs {W}.
Arguments stuffers {W}.
Arguments world {W}.

Definition set_conn {W} (f : s2n_connection -> s2n_connection) (st : state W) :=
  mk_state (f (conn st)) (heap st) (blobs st) (stuffers st) (world st).
Definition set_heap {W} (h : list cell) (st : state W) :=
  mk_state (conn st) h (blobs st) (stuffers st) (world st).
Definition set_blobs {W} (l : list s2n_blob) (st : state W) :=
  mk_state (conn st) (heap st) l (stuffers st) (world st).
Definition set_stuffers {W} (l : list s2n_stuffer) (st : state W) :=
  mk_state (conn st) (heap st) (blobs st) l (world st).
Definition set_world {W} (w : W) (st : state W) :=
  mk_state (conn st) (heap st) (blobs st) (stuffers st) w.

(** A handler runs on a state and leaves a state behind whatever it
    returns: what a failed call wrote before failing stays written. *)
Definition M (W A : Type) : Type := state W -> result A * state W.

Definition ret {W A} (a : A) : M W A := fun st => (Ok a, st).

Definition bind {W A B} (m : M W A) (k : A -> M W B) : M W B :=
  fun st =>
    match m st with
    | (Ok a, st') => k a st'
    | (Err e, st') => (Err e, st')
    | (Crash, st') => (Crash, st')
    end.

#[global] Instance M_ret {W} : MRet (M W) := @ret W.
#[global] Instance M_bind {W} : MBind (M W) := fun A B k m => bind m k.

(** S2N_ERROR(e): set s2n_errno and return -1. *)
Definition S2N_ERROR {W A} (e : s2n_error) : M W A := fun st => (Err e, st).
Definition crash {W A} : M W A := fun st => (Crash, st).

Definition gets {W A} (f : state W -> A) : M W A := fun st => (Ok (f st), st).
Definition modify {W} (f : state W -> state W) : M W unit := fun st => (Ok tt, f st).

(** Lift a partial access: [None] is an access outside every live object. *)
Definition access {W A} (o : option A) : M W A :=
  match o with
  | Some a => ret a
  | None => crash
  end.

(** S2N_ERROR_IF(cond, e) *)
Definition S2N_ERROR_IF {W} (cond : bool) (e : s2n_error) : M W unit :=
  if cond then S2N_ERROR e else ret tt.

(** Modelled from the spec: the checks of utils/s2n_safety.h, which fail
    with a null error on a null pointer and with a safety error on a broken
    comparison. *)
Definition notnull_check {W} (p : pointer) : M W unit :=
  S2N_ERROR_IF (bool_decide (p = NULL)) S2N_ERR_NULL.
Definition notnull_check_blob {W} (p : blob_ptr) : M W unit :=
  S2N_ERROR_IF (bool_decide (p = B_NULL)) S2N_ERR_NULL.
Definition notnull_check_fn {W A} (f : option A) : M W A :=
  match f with
  | Some g => ret g
  | None => S2N_ERROR S2N_ERR_NULL
  end.
(** gte_check(n, min) *)
Definition gte_check {W} (n min : Z) : M W unit :=
  S2N_ERROR_IF (n <? min) S2N_ERR_SAFETY.
(** gt_check(n, min) *)
Definition gt_check {W} (n min : Z) : M W unit :=
  S2N_ERROR_IF (n <=? min) S2N_ERR_SAFETY.

(** DEFER_CLEANUP(decl, cleanup): [cleanup] runs when the scope of the
    declaration is left, on every path, after the value to return has been
    computed. What [cleanup] returns is dropped, so a body that succeeded
    still returns success; but an error that [cleanup] sets is the last one
    written to s2n_errno, so it replaces the error of a body that failed. *)
Definition DEFER_CLEANUP {W A} (cleanup : M W unit) (body : M W A) : M W A :=
  fun st =>
    let '(r, st') := body st in
    match cleanup st' with
    | (Crash, st'') => (Crash, st'')
    | (Err e, st'') => (match r with Err _ => Err e | _ => r end, st'')
    | (Ok _, st'') => (r, st'')
    end.

(** ** The store *)

Section Store.
Context {W : Type}.

(** The bytes of a region, when it is live. *)
Definition region_bytes (st : state W) (r : region) : option (list Z) :=
  match r with
  | R_rsa_premaster_secret => Some (rsa_premaster_secret (conn st))
  | R_heap a =>
      match heap st !! a with
      | Some (Live bs) => Some bs
      | _ => None
      end
  end.

Definition set_region_bytes (r : region) (bs : list Z) (st : state W) : state W :=
  match r with
  | R_rsa_premaster_secret => set_conn (set_rsa_premaster_secret bs) st
  | R_heap a => set_heap (<[a := Live bs]> (heap st)) st
  end.

(** Overwrite [bs] from offset [off] with [new]. *)
Definition splice (bs : list Z) (off : nat) (new : list Z) : list Z :=
  take off bs ++ new ++ drop (off + length new)%nat bs.

(** Read [n] bytes at [p]. *)
Definition load (st : state W) (p : pointer) (n : Z) : option (list Z) :=
  match p with
  | NULL => None
  | Ptr r off =>
      match region_bytes st r with
      | Some bs =>
          if bool_decide (0 <= off /\ 0 <= n /\ off + n <= zlen bs)
          then Some (take (Z.to_nat n) (drop (Z.to_nat off) bs))
          else None
      | None => None
      end
  end.

(** Write the bytes [new] at [p]. *)
Definition store (st : state W) (p : pointer) (new : list Z) : option (state W) :=
  match p with
  | NULL => None
  | Ptr r off =>
      match region_bytes st r with
      | Some bs =>
          if bool_decide (0 <= off /\ off + zlen new <= zlen bs)
          then Some (set_region_bytes r (splice bs (Z.to_nat off) new) st)
          else None
      | None => None
      end
  end.

Definition mem_read (p : pointer) (n : Z) : M W (list Z) :=
  fun st => access (load st p n) st.

Definition mem_write (p : pointer) (new : list Z) : M W unit :=
  fun st =>
    match store st p new with
    | Some st' => (Ok tt, st')
    | None => (Crash, st)
    end.

(** Blob structures *)

Definition get_blob (st : state W) (p : blob_ptr) : option s2n_blob :=
  match p with
  | B_NULL => None
  | B_kem_private_key => Some (kem_private_key (conn st))
  | B_kem_public_key => Some (kem_public_key (conn st))
  | B_kem_shared_secret => Some (kem_shared_secret (conn st))
  | B_local i => blobs st !! i
  end.

Definition put_blob (p : blob_ptr) (b : s2n_blob) (st : state W) : option (state W) :=
  match p with
  | B_NULL => None
  | B_kem_private_key => Some (set_conn (set_kem_private_key b) st)
  | B_kem_public_key => Some (set_conn (set_kem_public_key b) st)
  | B_kem_shared_secret => Some (set_conn (set_kem_shared_secret b) st)
  | B_local i =>
      if bool_decide (i < length (blobs st))%nat
      then Some (set_blobs (<[i := b]> (blobs st)) st)
      else None
  end.

(** [*p] and [*p = b] *)
Definition deref (p : blob_ptr) : M W s2n_blob :=
  fun st => access (get_blob st p) st.

Definition assign (p : blob_ptr) (b : s2n_blob) : M W unit :=
  fun st =>
    match put_blob p b st with
    | Some st' => (Ok tt, st')
    | None => (Crash, st)
    end.

(** A blob declared in the running frame; its slot stays behind when the
    frame is left and is never handed out again. *)
Definition local_blob (b : s2n_blob) : M W blob_ptr :=
  fun st => (Ok (B_local (length (blobs st))), set_blobs (blobs st ++ [b]) st).

(** Stuffer structures *)

Definition get_stuffer (st : state W) (p : stuffer_ptr) : option s2n_stuffer :=
  match p with
  | S_handshake_io => Some (handshake_io (conn st))
  | S_local i => stuffers st !! i
  end.

Definition put_stuffer (p : stuffer_ptr) (s : s2n_stuffer) (st : state W) : option (state W) :=
  match p with
  | S_handshake_io => Some (set_conn (set_handshake_io s) st)
  | S_local i =>
      if bool_decide (i < length (stuffers st))%nat
      then Some (set_stuffers (<[i := s]> (stuffers st)) st)
      else None
  end.

Definition deref_stuffer (p : stuffer_ptr) : M W s2n_stuffer :=
  fun st => access (get_stuffer st p) st.

Definition assign_stuffer (p : stuffer_ptr) (s : s2n_stuffer) : M W unit :=
  fun st =>
    match put_stuffer p s st with
    | Some st' => (Ok tt, st')
    | None => (Crash, st)
    end.

Definition local_stuffer (s : s2n_stuffer) : M W stuffer_ptr :=
  fun st => (Ok (S_local (length (stuffers st))), set_stuffers (stuffers st ++ [s]) st).

(** [*cursor] *)
Definition deref_cursor (c : cursor_ptr) : M W Z :=
  gets (fun st =>
    match c with
    | C_io_read_cursor => read_cursor (handshake_io (conn st))
    | C_io_write_cursor => write_cursor (handshake_io (conn st))
    end).

End Store.

(** ** The utilities the handlers call

    utils/s2n_blob.c, utils/s2n_mem.c, utils/s2n_safety.h and
    stuffer/s2n_stuffer.c are not part of the sources at hand. *)

Section Utilities.
Context {W : Type}.

(** Whether the allocator can serve a request of the given size. *)
Variable s2n_mem_malloc : W -> Z -> bool.

Definition set_size (n : Z) (b : s2n_blob) : s2n_blob :=
  mk_blob (data b) n (allocated b) (growable b).
Definition set_data (p : pointer) (b : s2n_blob) : s2n_blob :=
  mk_blob p (size b) (allocated b) (growable b).

Definition set_blob (b : s2n_blob) (s : s2n_stuffer) : s2n_stuffer :=
  mk_stuffer b (read_cursor s) (write_cursor s) (high_water_mark s)
    (alloced s) (stuffer_growable s) (tainted s).
Definition set_read_cursor (n : Z) (s : s2n_stuffer) : s2n_stuffer :=
  mk_stuffer (blob s) n (write_cursor s) (high_water_mark s)
    (alloced s) (stuffer_growable s) (tainted s).
Definition set_write_cursor (n : Z) (s : s2n_stuffer) : s2n_stuffer :=
  mk_stuffer (blob s) (read_cursor s) n (Z.max n (high_water_mark s))
    (alloced s) (stuffer_growable s) (tainted s).
Definition set_tainted (t : bool) (s : s2n_stuffer) : s2n_stuffer :=
  mk_stuffer (blob s) (read_cursor s) (write_cursor s) (high_water_mark s)
    (alloced s) (stuffer_growable s) t.

(** Run a call and keep what it returned in a variable ([int rc = f(...)]). *)
Definition returned {A} (m : M W A) : M W (result A) :=
  fun st =>
    match m st with
    | (Crash, st') => (Crash, st')
    | (r, st') => (Ok r, st')
    end.

(** GUARD(rc) on a saved return value. *)
Definition GUARD {A} (r : result A) : M W A := fun st => (r, st).

(** GUARD_PTR(f(...)): a pointer-returning function returns NULL when the
    call fails. *)
Definition GUARD_PTR (m : M W unit) (k : M W pointer) : M W pointer :=
  fun st =>
    match m st with
    | (Ok _, st') => k st'
    | (Err _, st') => (Ok NULL, st')
    | (Crash, st') => (Crash, st')
    end.

(** Modelled from the spec: memcpy_check(d, s, n) of utils/s2n_safety.h,
    which copies nothing when [n] is 0 and otherwise fails with a null
    error on a null source or destination. *)
Definition memcpy_check (d s : pointer) (n : Z) : M W unit :=
  if bool_decide (n = 0) then ret tt
  else
    notnull_check d;;
    notnull_check s;;
    bytes ← mem_read s n;
    mem_write d bytes.

(** memcpy_check from an array of the running frame. *)
Definition memcpy_check_array (d : pointer) (s : list Z) (n : Z) : M W unit :=
  if bool_decide (n = 0) then ret tt
  else
    notnull_check d;;
    mem_write d (take (Z.to_nat n) s).

(** Modelled from the spec: s2n_blob_zero of utils/s2n_blob.c, which sets
    MAX(allocated, size) bytes at [data] to 0. *)
Definition s2n_blob_zero (b : blob_ptr) : M W unit :=
  blob ← deref b;
  let n := Z.max (allocated blob) (size blob) in
  if bool_decide (n = 0) then ret tt
  else
    notnull_check (data blob);;
    mem_write (data blob) (replicate (Z.to_nat n) 0).

Definition s2n_blob_is_growable (b : s2n_blob) : bool :=
  growable b
  || (bool_decide (data b = NULL) && bool_decide (size b = 0)
      && bool_decide (allocated b = 0)).

(** free(p): [p] is null or the start of a live cell. *)
Definition mem_free (p : pointer) : M W unit :=
  fun st =>
    match p with
    | NULL => (Ok tt, st)
    | Ptr (R_heap a) 0 =>
        match heap st !! a with
        | Some (Live bs) => (Ok tt, set_heap (<[a := Freed bs]> (heap st)) st)
        | _ => (Crash, st)
        end
    | Ptr _ _ => (Crash, st)
    end.

(** Modelled from the spec: s2n_free of utils/s2n_mem.c, which zeroes the
    blob, refuses a blob that is not growable, releases the storage and
    resets the blob to [{0}]. *)
Definition s2n_free (b : blob_ptr) : M W unit :=
  blob ← deref b;
  zero_rc ← returned (s2n_blob_zero b);
  S2N_ERROR_IF (negb (s2n_blob_is_growable blob)) S2N_ERR_FREE_STATIC_BLOB;;
  mem_free (data blob);;
  assign b blob_zero;;
  GUARD zero_rc.

(** malloc(n): a new live cell; C leaves its bytes indeterminate, the model
    sets them to 0. *)
Definition mem_malloc (n : Z) : M W pointer :=
  fun st =>
    if s2n_mem_malloc (world st) n
    then (Ok (Ptr (R_heap (length (heap st))) 0),
          set_heap (heap st ++ [Live (replicate (Z.to_nat n) 0)]) st)
    else (Err S2N_ERR_ALLOC, st).

(** Modelled from the spec: s2n_alloc of utils/s2n_mem.c, which resets the
    blob to [{0}] and gives it [size] bytes of new storage (none at all when
    [size] is 0); the allocator is the one that reserves exactly the
    requested number of bytes. *)
Definition s2n_alloc (b : blob_ptr) (n : Z) : M W unit :=
  notnull_check_blob b;;
  assign b blob_zero;;
  if bool_decide (n = 0) then s2n_free b
  else
    p ← mem_malloc n;
    assign b {| data := p; size := n; allocated := n; growable := true |}.

(** Modelled from the spec: the stuffer operations of stuffer/s2n_stuffer.c.
    A stuffer is a blob with a read cursor and a write cursor; reading
    fails when fewer bytes are available than asked for, writing fails
    when the space is used up and the stuffer cannot grow. *)

Definition s2n_stuffer_init (s : stuffer_ptr) (b : blob_ptr) : M W unit :=
  blob ← deref b;
  assign_stuffer s
    {| blob := blob; read_cursor := 0; write_cursor := 0; high_water_mark := 0;
       alloced := false; stuffer_growable := false; tainted := false |}.

Definition data_available (s : s2n_stuffer) : Z :=
  uint32 (write_cursor s - read_cursor s).
Definition space_remaining (s : s2n_stuffer) : Z :=
  uint32 (size (blob s) - write_cursor s).

Definition s2n_stuffer_data_available (p : stuffer_ptr) : M W Z :=
  s ← deref_stuffer p; ret (data_available s).

Definition s2n_stuffer_skip_read (p : stuffer_ptr) (n : Z) : M W unit :=
  s ← deref_stuffer p;
  S2N_ERROR_IF (data_available s <? n) S2N_ERR_STUFFER_OUT_OF_DATA;;
  assign_stuffer p (set_read_cursor (uint32 (read_cursor s + n)) s).

Definition s2n_stuffer_raw_read (p : stuffer_ptr) (data_len : Z) : M W pointer :=
  GUARD_PTR (s2n_stuffer_skip_read p data_len)
    (s ← deref_stuffer p;
     assign_stuffer p (set_tainted true s);;
     ret (ptr_add (data (blob s)) (read_cursor s - data_len))).

Definition s2n_stuffer_read_bytes (p : stuffer_ptr) (n : Z) : M W (list Z) :=
  s2n_stuffer_skip_read p n;;
  s ← deref_stuffer p;
  notnull_check (data (blob s));;
  mem_read (ptr_add (data (blob s)) (read_cursor s - n)) n.

Definition s2n_stuffer_read_uint16 (p : stuffer_ptr) : M W Z :=
  d ← s2n_stuffer_read_bytes p 2;
  match d with
  | [d0; d1] => ret (uint16 (Z.lor (Z.shiftl d0 8) d1))
  | _ => crash
  end.

(** Growing the storage of a stuffer; the cell is extended where it is. *)
Definition mem_extend (r : region) (old : list Z) (more : Z) : M W unit :=
  fun st =>
    if s2n_mem_malloc (world st) (zlen old + more)
    then (Ok tt, set_region_bytes r (old ++ replicate (Z.to_nat more) 0) st)
    else (Err S2N_ERR_ALLOC, st).

Definition s2n_stuffer_resize (p : stuffer_ptr) (n : Z) : M W unit :=
  s ← deref_stuffer p;
  S2N_ERROR_IF (tainted s) S2N_ERR_RESIZE_TAINTED_STUFFER;;
  match data (blob s) with
  | NULL =>
      d ← mem_malloc n;
      assign_stuffer p
        (set_blob {| data := d; size := n; allocated := n; growable := true |} s)
  | Ptr r off =>
      old ← mem_read (Ptr r off) (size (blob s));
      mem_extend r old (n - size (blob s));;
      assign_stuffer p
        (set_blob {| data := Ptr r off; size := n; allocated := n; growable := true |} s)
  end.

Definition s2n_stuffer_reserve_space (p : stuffer_ptr) (n : Z) : M W unit :=
  s ← deref_stuffer p;
  if space_remaining s <? n then
    S2N_ERROR_IF (negb (stuffer_growable s)) S2N_ERR_STUFFER_IS_FULL;;
    let growth := Z.max (uint32 (n - space_remaining s)) S2N_MIN_STUFFER_GROWTH_IN_BYTES in
    S2N_ERROR_IF (UINT32_MAX <? size (blob s) + growth) S2N_ERR_INTEGER_OVERFLOW;;
    s2n_stuffer_resize p (size (blob s) + growth)
  else ret tt.

Definition s2n_stuffer_skip_write (p : stuffer_ptr) (n : Z) : M W unit :=
  s2n_stuffer_reserve_space p n;;
  s ← deref_stuffer p;
  assign_stuffer p (set_write_cursor (uint32 (write_cursor s + n)) s).

Definition s2n_stuffer_raw_write (p : stuffer_ptr) (data_len : Z) : M W pointer :=
  GUARD_PTR (s2n_stuffer_skip_write p data_len)
    (s ← deref_stuffer p;
     assign_stuffer p (set_tainted true s);;
     ret (ptr_add (data (blob s)) (write_cursor s - data_len))).

Definition s2n_stuffer_write_bytes (p : stuffer_ptr) (d : pointer) (n : Z) : M W unit :=
  s2n_stuffer_skip_write p n;;
  s ← deref_stuffer p;
  let ptr := ptr_add (data (blob s)) (write_cursor s - n) in
  if bool_decide (ptr = d) then ret tt else memcpy_check ptr d n.

Definition s2n_stuffer_write (p : stuffer_ptr) (b : blob_ptr) : M W unit :=
  blob ← deref b;
  s2n_stuffer_write_bytes p (data blob) (size blob).

Definition s2n_stuffer_write_uint16 (p : stuffer_ptr) (u : Z) : M W unit :=
  s2n_stuffer_skip_write p 2;;
  s ← deref_stuffer p;
  memcpy_check_array (ptr_add (data (blob s)) (write_cursor s - 2))
    [uint8 (Z.shiftr u 8); uint8 u] 2.

(** Modelled from the spec: s2n_kem_free of tls/s2n_kem.c, which releases
    the three blobs of the KEM parameter block. *)
Definition s2n_kem_free : M W unit :=
  s2n_free B_kem_private_key;;
  s2n_free B_kem_public_key;;
  s2n_free B_kem_shared_secret.

(** Modelled from the spec: S2N_ASYNC_PKEY_GUARD of tls/s2n_async_pkey.h.
    It returns [true] when the handler goes on, and [false] when the handler
    returns success at once because the deferred operation has completed; a
    handler entered while the operation is pending fails as blocked. *)
Definition S2N_ASYNC_PKEY_GUARD : M W bool :=
  st ← gets (fun st => handshake_async_state (conn st));
  match st with
  | S2N_ASYNC_NOT_INVOKED => ret true
  | S2N_ASYNC_INVOKING_CALLBACK => S2N_ERROR S2N_ERR_ASYNC_BLOCKED
  | S2N_ASYNC_INVOKED_WAITING => S2N_ERROR S2N_ERR_ASYNC_BLOCKED
  | S2N_ASYNC_INVOKED_COMPLETE =>
      modify (set_conn (set_handshake_async_state S2N_ASYNC_NOT_INVOKED));;
      ret false
  end.

(** Modelled from the spec: s2n_constant_time_equals of utils/s2n_safety.c:
    whether the first [len] bytes of the two buffers agree. *)
Definition s2n_constant_time_equals (a b : list Z) (len : Z) : bool :=
  bool_decide (take (Z.to_nat len) a = take (Z.to_nat len) b).

End Utilities.

(** ** The handlers of tls/s2n_client_key_exchange.c *)

Section Handlers.
Context {W : Type}.

Variable s2n_mem_malloc : W -> Z -> bool.

(** A call into another module: it reads the state and changes only what
    lies outside this file. *)
Definition extern {A} (f : state W -> result A * W) : M W A :=
  fun st => let '(r, w) := f st in (r, set_world w st).

(** typedef int s2n_kex_client_key_method(const struct s2n_kex *kex,
      struct s2n_connection *conn, struct s2n_blob *shared_key); *)
Definition s2n_kex_client_key_method : Type := option s2n_kex -> blob_ptr -> M W unit.
(** typedef void *s2n_stuffer_action(struct s2n_stuffer *stuffer, uint32_t data_len); *)
Definition s2n_stuffer_action : Type := stuffer_ptr -> Z -> M W pointer.

(** *** s2n_hybrid_client_action *)

Definition s2n_hybrid_client_action (combined_shared_key : blob_ptr)
    (kex_method : option s2n_kex_client_key_method) (cursor : cursor_ptr)
    (stuffer_action : option s2n_stuffer_action) : M W unit :=
  kex_method ← notnull_check_fn kex_method;
  stuffer_action ← notnull_check_fn stuffer_action;
  let io := S_handshake_io in
  hybrid_kex_0 ← gets (fun st => fst (hybrid (key_exchange_alg (conn st))));
  hybrid_kex_1 ← gets (fun st => snd (hybrid (key_exchange_alg (conn st))));
  (* Keep a copy to the start of the entire hybrid client key exchange message *)
  d ← stuffer_action io 0;
  modify (set_conn (fun c =>
    set_client_key_exchange_message (set_data d (client_key_exchange_message c)) c));;
  notnull_check d;;
  start_cursor ← deref_cursor cursor;
  shared_key_0 ← local_blob blob_zero;
  DEFER_CLEANUP (s2n_free shared_key_0)
    (kex_method hybrid_kex_0 shared_key_0;;
     let shared_key_1 := B_kem_shared_secret in
     kex_method hybrid_kex_1 shared_key_1;;
     end_cursor ← deref_cursor cursor;
     gte_check end_cursor start_cursor;;
     modify (set_conn (fun c =>
       set_client_key_exchange_message
         (set_size (uint32 (end_cursor - start_cursor)) (client_key_exchange_message c)) c));;
     b0 ← deref shared_key_0;
     b1 ← deref shared_key_1;
     s2n_alloc s2n_mem_malloc combined_shared_key (uint32 (size b0 + size b1));;
     stuffer_combiner ← local_stuffer stuffer_zero;
     s2n_stuffer_init stuffer_combiner combined_shared_key;;
     s2n_stuffer_write s2n_mem_malloc stuffer_combiner shared_key_0;;
     s2n_stuffer_write s2n_mem_malloc stuffer_combiner shared_key_1;;
     s2n_kem_free;;
     ret tt).

(** *** s2n_calculate_keys *)

(** The pseudo-random function, the key expansion and the session cache:
    each reads the state it is given and returns what it changed outside
    this file. *)
Variable s2n_kex_tls_prf : s2n_kex -> blob_ptr -> state W -> result unit * W.
Variable s2n_prf_key_expansion : state W -> result unit * W.
Variable s2n_allowed_to_cache_connection : state W -> bool.
Variable s2n_store_to_cache : state W -> result unit * W.

Definition s2n_calculate_keys (shared_key : blob_ptr) : M W unit :=
  (* Turn the pre-master secret into a master secret *)
  kex ← gets (fun st => key_exchange_alg (conn st));
  extern (s2n_kex_tls_prf kex shared_key);;
  (* Erase the pre-master secret *)
  s2n_blob_zero shared_key;;
  blob ← deref shared_key;
  (if bool_decide (allocated blob ≠ 0) then s2n_free shared_key else ret tt);;
  (* Expand the keys *)
  extern s2n_prf_key_expansion;;
  (* Save the master secret in the cache *)
  allowed ← gets s2n_allowed_to_cache_connection;
  (if (allowed : bool) then extern s2n_store_to_cache else ret tt);;
  ret tt.

(** *** The RSA path, receiving side *)

(** The random generator: a successful call yields the bytes to fill the
    blob with, one for each index. *)
Variable private_random : state W -> result (nat -> Z) * W.

Definition s2n_get_private_random_data (b : blob_ptr) : M W unit :=
  blob ← deref b;
  f ← extern private_random;
  mem_write (data blob) ((fun i => uint8 (f i)) <$> seq 0 (Z.to_nat (size blob))).

(** The two bytes that put a protocol version on the wire. *)
Definition wire_version (legacy_client_hello_protocol_version : Z) : list Z :=
  [uint8 (legacy_client_hello_protocol_version / 10);
   uint8 (legacy_client_hello_protocol_version mod 10)].

Definition s2n_rsa_client_key_recv_complete (rsa_failed : bool) (decrypted : blob_ptr)
    : M W unit :=
  d ← deref decrypted;
  S2N_ERROR_IF (bool_decide (size d ≠ S2N_TLS_SECRET_LEN)) S2N_ERR_SIZE_MISMATCH;;
  (* Avoid copying the same buffer for the case where async pkey is not used *)
  (if bool_decide (Ptr R_rsa_premaster_secret 0 ≠ data d)
   then memcpy_check (Ptr R_rsa_premaster_secret 0) (data d) S2N_TLS_SECRET_LEN
   else ret tt);;
  (* Get client hello protocol version for comparison with decrypted data *)
  legacy_client_hello_protocol_version ←
    gets (fun st => uint8 (get_client_hello_protocol_version (conn st)));
  let client_hello_protocol_version := wire_version legacy_client_hello_protocol_version in
  modify (set_conn (set_handshake_rsa_failed rsa_failed));;
  (* Set rsa_failed to true, if it isn't already, if the protocol version
     isn't what we expect *)
  modify (set_conn (fun c =>
    set_handshake_rsa_failed
      (handshake_rsa_failed c
       || negb (s2n_constant_time_equals client_hello_protocol_version
                  (rsa_premaster_secret c) S2N_TLS_PROTOCOL_VERSION_LEN)) c));;
  ret tt.

(** The decrypt operation behind S2N_ASYNC_PKEY_DECRYPT: it is given the
    ciphertext, the blob to decrypt into and the completion handler. *)
Definition s2n_async_pkey_decrypt_fn : Type :=
  s2n_blob -> blob_ptr -> (bool -> blob_ptr -> M W unit) -> M W unit.
Variable s2n_async_pkey_decrypt : s2n_async_pkey_decrypt_fn.

(** The ciphertext length: implicit for SSLv3, a 16-bit prefix otherwise
    (the variable [length] is a uint16_t). *)
Definition read_length (in_ : stuffer_ptr) : M W Z :=
  v ← gets (fun st => actual_protocol_version (conn st));
  if bool_decide (v = S2N_SSLv3)
  then avail ← s2n_stuffer_data_available in_; ret (uint16 avail)
  else s2n_stuffer_read_uint16 in_.

Definition s2n_rsa_client_key_recv (shared_key : blob_ptr) : M W unit :=
  (* Set shared_key before async guard to pass the proper shared_key to the
     caller upon async completion *)
  notnull_check_blob shared_key;;
  b ← deref shared_key;
  assign shared_key (set_size S2N_TLS_SECRET_LEN (set_data (Ptr R_rsa_premaster_secret 0) b));;
  go_on ← S2N_ASYNC_PKEY_GUARD;
  if negb (go_on : bool) then ret tt
  else
    let in_ := S_handshake_io in
    length ← read_length in_;
    avail ← s2n_stuffer_data_available in_;
    S2N_ERROR_IF (avail <? length) S2N_ERR_BAD_MESSAGE;;
    (* Keep a copy of the client hello version in wire format *)
    legacy_client_hello_protocol_version ←
      gets (fun st => uint8 (get_client_hello_protocol_version (conn st)));
    let client_hello_protocol_version := wire_version legacy_client_hello_protocol_version in
    (* Decrypt the pre-master secret *)
    d ← s2n_stuffer_raw_read in_ length;
    let encrypted := {| data := d; size := length; allocated := 0; growable := false |} in
    notnull_check (data encrypted);;
    gt_check (size encrypted) 0;;
    (* First: use a random pre-master secret *)
    s2n_get_private_random_data shared_key;;
    modify (set_conn (fun c =>
      set_rsa_premaster_secret
        (<[0%nat := client_hello_protocol_version !!! 0%nat]> (rsa_premaster_secret c)) c));;
    modify (set_conn (fun c =>
      set_rsa_premaster_secret
        (<[1%nat := client_hello_protocol_version !!! 1%nat]> (rsa_premaster_secret c)) c));;
    s2n_async_pkey_decrypt encrypted shared_key s2n_rsa_client_key_recv_complete.

(** *** The Diffie-Hellman paths *)

Variable s2n_dh_compute_shared_secret_as_server : stuffer_ptr -> blob_ptr -> M W unit.
Variable s2n_dh_compute_shared_secret_as_client : stuffer_ptr -> blob_ptr -> M W unit.
Variable s2n_dh_params_free : M W unit.
Variable s2n_ecc_evp_compute_shared_secret_as_server : stuffer_ptr -> blob_ptr -> M W unit.
Variable s2n_ecc_evp_compute_shared_secret_as_client : stuffer_ptr -> blob_ptr -> M W unit.
Variable s2n_ecc_evp_params_free : M W unit.

Definition s2n_dhe_client_key_recv (shared_key : blob_ptr) : M W unit :=
  let in_ := S_handshake_io in
  s2n_dh_compute_shared_secret_as_server in_ shared_key;;
  s2n_dh_params_free;;
  ret tt.

Definition s2n_ecdhe_client_key_recv (shared_key : blob_ptr) : M W unit :=
  let in_ := S_handshake_io in
  s2n_ecc_evp_compute_shared_secret_as_server in_ shared_key;;
  s2n_ecc_evp_params_free;;
  ret tt.

Definition s2n_dhe_client_key_send (shared_key : blob_ptr) : M W unit :=
  let out := S_handshake_io in
  s2n_dh_compute_shared_secret_as_client out shared_key;;
  s2n_dh_params_free;;
  ret tt.

Definition s2n_ecdhe_client_key_send (shared_key : blob_ptr) : M W unit :=
  let out := S_handshake_io in
  s2n_ecc_evp_compute_shared_secret_as_client out shared_key;;
  s2n_ecc_evp_params_free;;
  ret tt.

(** *** The KEM path *)

(** The KEM primitives write the shared secret into [conn->secure.kem_params]. *)
Variable s2n_kem_recv_ciphertext : M W unit.
Variable s2n_kem_send_ciphertext : M W unit.

Definition s2n_kem_client_key_recv (shared_key : blob_ptr) : M W unit :=
  notnull_check_blob shared_key;;
  S2N_ERROR_IF (bool_decide (shared_key ≠ B_kem_shared_secret)) S2N_ERR_SAFETY;;
  s2n_kem_recv_ciphertext;;
  ret tt.

Definition s2n_kem_client_key_send (shared_key : blob_ptr) : M W unit :=
  notnull_check_blob shared_key;;
  S2N_ERROR_IF (bool_decide (shared_key ≠ B_kem_shared_secret)) S2N_ERR_SAFETY;;
  s2n_kem_send_ciphertext;;
  ret tt.

(** *** The RSA path, sending side *)

(** The public key of the peer: its size, the encryption under it (given
    the plaintext and the size of the output buffer) and its release. *)
Variable s2n_pkey_size : state W -> result Z * W.
Variable pkey_encrypt : list Z -> Z -> state W -> result (list Z) * W.
Variable s2n_pkey_free : state W -> result unit * W.

(** Modelled from the spec: s2n_pkey_encrypt of crypto/s2n_pkey.c, which
    encrypts the bytes of [in_] and fills the buffer [out] with the result. *)
Definition s2n_pkey_encrypt (in_ : blob_ptr) (out : s2n_blob) : M W unit :=
  b ← deref in_;
  plaintext ← mem_read (data b) (size b);
  ciphertext ← extern (pkey_encrypt plaintext (size out));
  S2N_ERROR_IF (bool_decide (zlen ciphertext ≠ size out)) S2N_ERR_SIZE_MISMATCH;;
  mem_write (data out) ciphertext.

Definition s2n_rsa_client_key_send (shared_key : blob_ptr) : M W unit :=
  legacy_client_hello_protocol_version ←
    gets (fun st => uint8 (get_client_hello_protocol_version (conn st)));
  let client_hello_protocol_version := wire_version legacy_client_hello_protocol_version in
  b ← deref shared_key;
  assign shared_key (set_size S2N_TLS_SECRET_LEN (set_data (Ptr R_rsa_premaster_secret 0) b));;
  s2n_get_private_random_data shared_key;;
  (* Over-write the first two bytes with the client hello version *)
  memcpy_check_array (Ptr R_rsa_premaster_secret 0) client_hello_protocol_version
    S2N_TLS_PROTOCOL_VERSION_LEN;;
  encrypted_size ← extern s2n_pkey_size;
  let encrypted_size := uint32 encrypted_size in
  S2N_ERROR_IF (65535 <? encrypted_size) S2N_ERR_SIZE_MISMATCH;;
  v ← gets (fun st => actual_protocol_version (conn st));
  (if S2N_SSLv3 <? v
   then s2n_stuffer_write_uint16 s2n_mem_malloc S_handshake_io (uint16 encrypted_size)
   else ret tt);;
  d ← s2n_stuffer_raw_write s2n_mem_malloc S_handshake_io encrypted_size;
  let encrypted := {| data := d; size := encrypted_size; allocated := 0; growable := false |} in
  notnull_check (data encrypted);;
  (* Encrypt the secret and send it on *)
  s2n_pkey_encrypt shared_key encrypted;;
  (* We don't need the key any more, so free it *)
  extern s2n_pkey_free;;
  ret tt.

(** *** Dispatch and the two entry points *)

(** s2n_kex_client_key_recv and s2n_kex_client_key_send of tls/s2n_kex.c
    call the handler of the descriptor they are given. *)
Variable s2n_kex_client_key_recv : s2n_kex_client_key_method.
Variable s2n_kex_client_key_send : s2n_kex_client_key_method.

Definition s2n_hybrid_client_key_recv (combined_shared_key : blob_ptr) : M W unit :=
  s2n_hybrid_client_action combined_shared_key (Some s2n_kex_client_key_recv)
    C_io_read_cursor (Some s2n_stuffer_raw_read).

Definition s2n_hybrid_client_key_send (combined_shared_key : blob_ptr) : M W unit :=
  s2n_hybrid_client_action combined_shared_key (Some s2n_kex_client_key_send)
    C_io_write_cursor (Some (s2n_stuffer_raw_write s2n_mem_malloc)).

Definition s2n_client_key_recv : M W unit :=
  key_exchange ← gets (fun st => key_exchange_alg (conn st));
  shared_key ← local_blob blob_zero;
  s2n_kex_client_key_recv (Some key_exchange) shared_key;;
  s2n_calculate_keys shared_key;;
  ret tt.

Definition s2n_client_key_send : M W unit :=
  key_exchange ← gets (fun st => key_exchange_alg (conn st));
  shared_key ← local_blob blob_zero;
  s2n_kex_client_key_send (Some key_exchange) shared_key;;
  s2n_calculate_keys shared_key;;
  ret tt.

End Handlers.

(** ** Well-formed objects *)

Section WellFormed.
Context {W : Type}.

(** The fields of the connection have the range of their C types: the
    versions are uint8_t and the premaster secret is an array of
    S2N_TLS_SECRET_LEN bytes. *)
Definition conn_typed (c : s2n_connection) : Prop :=
  zlen (rsa_premaster_secret c) = S2N_TLS_SECRET_LEN
  /\ 0 <= client_hello_version c <= 255
  /\ 0 <= client_protocol_version c <= 255.

#[global] Instance conn_typed_dec c : Decision (conn_typed c).
Proof. unfold conn_typed. apply _. Defined.

(** The cursors of a stuffer are uint32_t values in the order
    s2n_stuffer_is_valid asks for. *)
Definition stuffer_typed (s : s2n_stuffer) : Prop :=
  0 <= read_cursor s <= write_cursor s
  /\ write_cursor s <= size (blob s) <= UINT32_MAX.

#[global] Instance stuffer_typed_dec s : Decision (stuffer_typed s).
Proof. unfold stuffer_typed. apply _. Defined.

(** A blob is valid in a store (s2n_blob_is_valid): an empty blob, a view
    of [size] readable bytes that the blob does not own, or a growable blob
    that owns a whole live cell of [allocated] bytes. *)
Definition blob_valid (st : state W) (b : s2n_blob) : bool :=
  match data b with
  | NULL => bool_decide (size b = 0 /\ allocated b = 0)
  | Ptr r off =>
      if growable b
      then match r with
           | R_heap a =>
               match heap st !! a with
               | Some (Live bs) =>
                   bool_decide (off = 0 /\ allocated b = zlen bs
                                /\ 0 <= size b <= allocated b /\ 0 < allocated b)
               | _ => false
               end
           | R_rsa_premaster_secret => false
           end
      else bool_decide (allocated b = 0 /\ is_Some (load st (data b) (size b)))
  end.

(** The bytes a blob gives access to. *)
Definition blob_bytes (st : state W) (b : s2n_blob) : option (list Z) :=
  match data b with
  | NULL => if bool_decide (size b = 0) then Some [] else None
  | Ptr r off => load st (data b) (size b)
  end.

(** The heap cell that a blob owns, if it owns one. *)
Definition blob_cell (b : s2n_blob) : option nat :=
  match data b with
  | Ptr (R_heap a) _ => if growable b then Some a else None
  | _ => None
  end.

(** Which cells of a heap are live. *)
Definition is_live (c : cell) : bool :=
  match c with
  | Live _ => true
  | Freed _ => false
  end.

Definition live_cells (h : list cell) : list bool := is_live <$> h.

(** A blob that s2n_free accepts: valid, and growable or null. *)
Definition blob_owned_or_empty (st : state W) (b : s2n_blob) : bool :=
  blob_valid st b && (growable b || bool_decide (data b = NULL)).

(** Blobs that s2n_free accepts, no two of which own the same cell. *)
Definition blobs_owned (st : state W) (bs : list s2n_blob) : bool :=
  forallb (blob_owned_or_empty st) bs && bool_decide (NoDup (omap blob_cell bs)).

(** Releasing blobs one after the other. *)
Fixpoint release (ps : list blob_ptr) : M W unit :=
  match ps with
  | [] => ret tt
  | p :: ps => s2n_free p;; release ps
  end.

(** A handler leaves a part of the state as it was, whatever it returns. *)
Definition keeps {A X} (f : state W -> X) (m : M W A) : Prop :=
  forall st r st', m st = (r, st') -> f st' = f st.

(** The captured client key exchange message. *)
Definition captured_message (st : state W) : s2n_blob :=
  client_key_exchange_message (conn st).

(** The value behind a cursor pointer. *)
Definition cursor_of (c : cursor_ptr) (st : state W) : Z :=
  match c with
  | C_io_read_cursor => read_cursor (handshake_io (conn st))
  | C_io_write_cursor => write_cursor (handshake_io (conn st))
  end.

End WellFormed.

(** ** The receiving RSA handler up to its decrypt step *)

Section UntilDecrypt.
Context {W : Type}.
Variable private_random : state W -> result (nat -> Z) * W.

(** The statements of s2n_rsa_client_key_recv between the reading of the
    ciphertext length and S2N_ASYNC_PKEY_DECRYPT. *)
Definition rsa_recv_after_length (shared_key : blob_ptr) (length : Z)
    : M W (option s2n_blob) :=
  let in_ := S_handshake_io in
  avail ← s2n_stuffer_data_available in_;
  S2N_ERROR_IF (avail <? length) S2N_ERR_BAD_MESSAGE;;
  legacy_client_hello_protocol_version ←
    gets (fun st => uint8 (get_client_hello_protocol_version (conn st)));
  let client_hello_protocol_version := wire_version legacy_client_hello_protocol_version in
  d ← s2n_stuffer_raw_read in_ length;
  let encrypted := {| data := d; size := length; allocated := 0; growable := false |} in
  notnull_check (data encrypted);;
  gt_check (size encrypted) 0;;
  s2n_get_private_random_data private_random shared_key;;
  modify (set_conn (fun c =>
    set_rsa_premaster_secret
      (<[0%nat := client_hello_protocol_version !!! 0%nat]> (rsa_premaster_secret c)) c));;
  modify (set_conn (fun c =>
    set_rsa_premaster_secret
      (<[1%nat := client_hello_protocol_version !!! 1%nat]> (rsa_premaster_secret c)) c));;
  ret (Some encrypted).

(** The statements of s2n_rsa_client_key_recv that come before
    S2N_ASYNC_PKEY_DECRYPT: [Some encrypted] when the handler reaches that
    step with the ciphertext [encrypted], [None] when it returns success
    before it. *)
Definition rsa_recv_until_decrypt (shared_key : blob_ptr) : M W (option s2n_blob) :=
  notnull_check_blob shared_key;;
  b ← deref shared_key;
  assign shared_key (set_size S2N_TLS_SECRET_LEN (set_data (Ptr R_rsa_premaster_secret 0) b));;
  go_on ← S2N_ASYNC_PKEY_GUARD;
  if negb (go_on : bool) then ret None
  else
    length ← read_length S_handshake_io;
    rsa_recv_after_length shared_key length.

End UntilDecrypt.

(** ** The sending RSA handler in two parts *)

Section SendParts.
Context {W : Type}.
Variable s2n_mem_malloc : W -> Z -> bool.
Variable private_random : state W -> result (nat -> Z) * W.
Variable pkey_encrypt : list Z -> Z -> state W -> result (list Z) * W.
Variable s2n_pkey_free : state W -> result unit * W.

(** The statements of s2n_rsa_client_key_send that prepare the premaster
    secret, before the size of the public key is asked for. *)
Definition rsa_send_until_size (shared_key : blob_ptr) : M W unit :=
  legacy_client_hello_protocol_version ←
    gets (fun st => uint8 (get_client_hello_protocol_version (conn st)));
  let client_hello_protocol_version := wire_version legacy_client_hello_protocol_version in
  b ← deref shared_key;
  assign shared_key (set_size S2N_TLS_SECRET_LEN (set_data (Ptr R_rsa_premaster_secret 0) b));;
  s2n_get_private_random_data private_random shared_key;;
  memcpy_check_array (Ptr R_rsa_premaster_secret 0) client_hello_protocol_version
    S2N_TLS_PROTOCOL_VERSION_LEN.

(** The statements that follow the size check, for a public key of size
    [encrypted_size]. *)
Definition rsa_send_from_size (shared_key : blob_ptr) (encrypted_size : Z) : M W unit :=
  v ← gets (fun st => actual_protocol_version (conn st));
  (if S2N_SSLv3 <? v
   then s2n_stuffer_write_uint16 s2n_mem_malloc S_handshake_io (uint16 encrypted_size)
   else ret tt);;
  d ← s2n_stuffer_raw_write s2n_mem_malloc S_handshake_io encrypted_size;
  let encrypted := {| data := d; size := encrypted_size; allocated := 0; growable := false |} in
  notnull_check (data encrypted);;
  s2n_pkey_encrypt pkey_encrypt shared_key encrypted;;
  extern s2n_pkey_free;;
  ret tt.

End SendParts.

Section Transcript.
Context {W : Type}.

(** The storage of a stuffer and the part of it that has been written. *)
Definition stuffer_region (st : state W) (s : s2n_stuffer) : list Z :=
  match data (blob s) with
  | NULL => []
  | Ptr r _ => default [] (region_bytes st r)
  end.

Definition stuffer_content (st : state W) (s : s2n_stuffer) : list Z :=
  take (Z.to_nat (write_cursor s)) (stuffer_region st s).

(** A stuffer that owns its storage is valid in a store
    (s2n_stuffer_is_valid): it is empty, or its blob is a whole live cell. *)
Definition stuffer_valid (st : state W) (s : s2n_stuffer) : bool :=
  bool_decide (stuffer_typed s)
  && match data (blob s) with
     | NULL => bool_decide (size (blob s) = 0)
     | Ptr (R_heap a) off =>
         match heap st !! a with
         | Some (Live bs) => bool_decide (off = 0 /\ zlen bs = size (blob s))
         | _ => false
         end
     | Ptr R_rsa_premaster_secret _ => false
     end.

End Transcript.

(** ** The hybrid combiner in parts *)

Section HybridParts.
Context {W : Type}.
Variable s2n_mem_malloc : W -> Z -> bool.

(** The state in which the first sub-operation runs: the start of the
    message [d] is recorded and [shared_key_0] is declared. *)
Definition hybrid_enter (d : pointer) (st : state W) : state W :=
  set_blobs (blobs st ++ [blob_zero])
    (set_conn (fun c =>
       set_client_key_exchange_message (set_data d (client_key_exchange_message c)) c) st).

(** The statements of s2n_hybrid_client_action that build the combined
    secret and release the KEM parameters. *)
Definition hybrid_combine (combined_shared_key shared_key_0 shared_key_1 : blob_ptr)
    : M W unit :=
  b0 ← deref shared_key_0;
  b1 ← deref shared_key_1;
  s2n_alloc s2n_mem_malloc combined_shared_key (uint32 (size b0 + size b1));;
  stuffer_combiner ← local_stuffer stuffer_zero;
  s2n_stuffer_init stuffer_combiner combined_shared_key;;
  s2n_stuffer_write s2n_mem_malloc stuffer_combiner shared_key_0;;
  s2n_stuffer_write s2n_mem_malloc stuffer_combiner shared_key_1;;
  s2n_kem_free;;
  ret tt.

(** The statements of the combiner before the KEM parameters are released. *)
Definition hybrid_concat (combined_shared_key shared_key_0 shared_key_1 : blob_ptr)
    : M W unit :=
  b0 ← deref shared_key_0;
  b1 ← deref shared_key_1;
  s2n_alloc s2n_mem_malloc combined_shared_key (uint32 (size b0 + size b1));;
  stuffer_combiner ← local_stuffer stuffer_zero;
  s2n_stuffer_init stuffer_combiner combined_shared_key;;
  s2n_stuffer_write s2n_mem_malloc stuffer_combiner shared_key_0;;
  s2n_stuffer_write s2n_mem_malloc stuffer_combiner shared_key_1.

(** The statements that follow the two sub-operations. *)
Definition hybrid_after_kex (combined_shared_key shared_key_0 : blob_ptr)
    (cursor : cursor_ptr) (start_cursor : Z) : M W unit :=
  end_cursor ← deref_cursor cursor;
  gte_check end_cursor start_cursor;;
  modify (set_conn (fun c =>
    set_client_key_exchange_message
      (set_size (uint32 (end_cursor - start_cursor)) (client_key_exchange_message c)) c));;
  hybrid_combine combined_shared_key shared_key_0 B_kem_shared_secret.

(** The two directions of the exchange and what s2n_hybrid_client_key_recv
    and s2n_hybrid_client_key_send pass to s2n_hybrid_client_action. *)
Inductive direction : Set := Receive | Send.

Definition direction_cursor (dir : direction) : cursor_ptr :=
  match dir with
  | Receive => C_io_read_cursor
  | Send => C_io_write_cursor
  end.

Definition direction_stuffer_action (dir : direction) : s2n_stuffer_action (W := W) :=
  match dir with
  | Receive => s2n_stuffer_raw_read
  | Send => s2n_stuffer_raw_write s2n_mem_malloc
  end.

Definition s2n_hybrid_client_key (dir : direction)
    (s2n_kex_client_key_recv s2n_kex_client_key_send : s2n_kex_client_key_method (W := W))
    : blob_ptr -> M W unit :=
  match dir with
  | Receive => s2n_hybrid_client_key_recv s2n_mem_malloc s2n_kex_client_key_recv
  | Send => s2n_hybrid_client_key_send s2n_mem_malloc s2n_kex_client_key_send
  end.

Definition direction_kex_method (dir : direction)
    (s2n_kex_client_key_recv s2n_kex_client_key_send : s2n_kex_client_key_method (W := W))
    : s2n_kex_client_key_method (W := W) :=
  match dir with
  | Receive => s2n_kex_client_key_recv
  | Send => s2n_kex_client_key_send
  end.

End HybridParts.

(** ** Concrete connections *)

Module Examples.

(** The world of the examples is a counter that seeds the random generator. *)
Definition example_random : state nat -> result (nat -> Z) * nat :=
  fun st => (Ok (fun i => Z.of_nat (16 * world st + i)), S (world st)).

Definition example_malloc : nat -> Z -> bool := fun _ _ => true.

(** A decrypt operation that fails to decrypt and completes at once. *)
Definition example_decrypt : s2n_async_pkey_decrypt_fn (W := nat) :=
  fun encrypted init_decrypted on_complete => on_complete true init_decrypted.

(** A handshake buffer of capacity [cap] holding [bytes], none of them read. *)
Definition example_io (cap : Z) (bytes : list Z) : s2n_stuffer :=
  {| blob := {| data := Ptr (R_heap 0) 0; size := cap; allocated := cap; growable := true |};
     read_cursor := 0; write_cursor := zlen bytes; high_water_mark := zlen bytes;
     alloced := true; stuffer_growable := true; tainted := false |}.

Definition example_conn (version : Z) (kex : s2n_kex) (cap : Z) (bytes : list Z)
    : s2n_connection :=
  {| actual_protocol_version := version;
     client_protocol_version := version;
     client_hello_version := version;
     key_exchange_alg := kex;
     handshake_io := example_io cap bytes;
     handshake_rsa_failed := false;
     handshake_async_state := S2N_ASYNC_NOT_INVOKED;
     rsa_premaster_secret := replicate 48 7;
     kem_private_key := blob_zero;
     kem_public_key := blob_zero;
     kem_shared_secret := blob_zero;
     client_key_exchange_message := blob_zero |}.

(** A state whose handshake buffer holds [bytes] and whose caller has one
    blob [{0}] in its frame. *)
Definition example_state (version : Z) (kex : s2n_kex) (cap : Z) (bytes : list Z)
    : state nat :=
  {| conn := example_conn version kex cap bytes;
     heap := [Live (bytes ++ replicate (Z.to_nat cap - length bytes) 0)];
     blobs := [blob_zero];
     stuffers := [];
     world := 0%nat |}.

(** TLS 1.2, a client key exchange message with a 3-byte ciphertext. *)
Definition st_tls12 : state nat := example_state S2N_TLS12 s2n_rsa 8 [0; 3; 9; 8; 7].

(** The ciphertext of [st_tls12] and the state in which the handler
    submits it for decryption. *)
Definition st_tls12_encrypted : s2n_blob :=
  {| data := Ptr (R_heap 0) 2; size := 3; allocated := 0; growable := false |}.
Definition st_tls12_at_decrypt : state nat :=
  snd (rsa_recv_until_decrypt example_random (B_local 0) st_tls12).

(** A public key of size 3 whose encryption yields the byte 238 three times. *)
Definition example_pkey_size : state nat -> result Z * nat :=
  fun st => (Ok 3, world st).
Definition example_pkey_encrypt : list Z -> Z -> state nat -> result (list Z) * nat :=
  fun plaintext n st => (Ok (replicate (Z.to_nat n) 238), world st).
Definition example_pkey_free : state nat -> result unit * nat :=
  fun st => (Ok tt, world st).

(** A public key of size 65536. *)
Definition example_pkey_size_64k : state nat -> result Z * nat :=
  fun st => (Ok 65536, world st).

(** The state in which the sending handler asks for the size of the key,
    and the state it ends in. *)
Definition st_tls12_at_size : state nat :=
  snd (rsa_send_until_size example_random (B_local 0) st_tls12).
Definition st_tls12_sent : state nat :=
  snd (s2n_rsa_client_key_send example_malloc example_random example_pkey_size
         example_pkey_encrypt example_pkey_free (B_local 0) st_tls12).

(** A client that sent an SSLv2-format hello and supports TLS 1.2. *)
Definition st_sslv2_hello : state nat :=
  set_conn (fun c =>
    mk_conn (actual_protocol_version c) S2N_TLS12 S2N_SSLv2 (key_exchange_alg c)
      (handshake_io c) (handshake_rsa_failed c) (handshake_async_state c)
      (rsa_premaster_secret c) (kem_private_key c) (kem_public_key c)
      (kem_shared_secret c) (client_key_exchange_message c)) st_tls12.
Definition st_sslv2_hello_at_decrypt : state nat :=
  snd (rsa_recv_until_decrypt example_random (B_local 0) st_sslv2_hello).
Definition st_sslv2_hello_sent : state nat :=
  snd (s2n_rsa_client_key_send example_malloc example_random example_pkey_size
         example_pkey_encrypt example_pkey_free (B_local 0) st_sslv2_hello).

(** A pseudo-random function, a key expansion and a session cache that
    succeed and count their calls. *)
Definition example_prf : s2n_kex -> blob_ptr -> state nat -> result unit * nat :=
  fun kex shared_key st => (Ok tt, S (world st)).
Definition example_key_expansion : state nat -> result unit * nat :=
  fun st => (Ok tt, S (world st)).
Definition example_allowed_to_cache : state nat -> bool := fun st => true.
Definition example_store_to_cache : state nat -> result unit * nat :=
  fun st => (Ok tt, S (world st)).

(** A Diffie-Hellman shared secret of four bytes in a cell of its own. *)
Definition st_dhe_secret : state nat :=
  {| conn := example_conn S2N_TLS12 s2n_dhe 8 [];
     heap := [Live (replicate 8 0); Live [11; 12; 13; 14]];
     blobs := [{| data := Ptr (R_heap 1) 0; size := 4; allocated := 4; growable := true |}];
     stuffers := [];
     world := 0%nat |}.
Definition st_dhe_secret_done : state nat :=
  snd (s2n_calculate_keys example_prf example_key_expansion example_allowed_to_cache
         example_store_to_cache (B_local 0) st_dhe_secret).

(** Key exchange methods for a hybrid exchange: the classical method
    consumes one byte of the handshake buffer and yields a secret of 32
    bytes, the KEM consumes two bytes and yields a secret of 64 bytes. *)
Definition example_secret (p : stuffer_ptr -> Z -> M nat unit) (consumed : Z)
    (shared_key : blob_ptr) (bytes : list Z) : M nat unit :=
  p S_handshake_io consumed;;
  s2n_alloc example_malloc shared_key (zlen bytes);;
  b ← deref shared_key;
  mem_write (data b) bytes.

Definition example_kex_recv : s2n_kex_client_key_method (W := nat) :=
  fun kex shared_key =>
    match kex with
    | Some s2n_ecdhe => example_secret s2n_stuffer_skip_read 1 shared_key (replicate 32 21)
    | Some s2n_kem => example_secret s2n_stuffer_skip_read 2 shared_key (replicate 64 31)
    | _ => S2N_ERROR S2N_ERR_KEM
    end.

Definition example_kex_send : s2n_kex_client_key_method (W := nat) :=
  fun kex shared_key =>
    match kex with
    | Some s2n_ecdhe =>
        example_secret (s2n_stuffer_skip_write example_malloc) 1 shared_key (replicate 32 21)
    | Some s2n_kem =>
        example_secret (s2n_stuffer_skip_write example_malloc) 2 shared_key (replicate 64 31)
    | _ => S2N_ERROR S2N_ERR_KEM
    end.

(** A hybrid exchange on the receiving side: the state at entry, after the
    start of the message is taken, after each sub-operation and at the end. *)
Definition st_hybrid : state nat :=
  example_state S2N_TLS12 s2n_hybrid_ecdhe_kem 8 [1; 2; 3; 4; 5].
Definition st_hybrid_a : state nat :=
  snd (s2n_stuffer_raw_read S_handshake_io 0 st_hybrid).
Definition st_hybrid_b : state nat :=
  snd (example_kex_recv (Some s2n_ecdhe) (B_local 1)
         (hybrid_enter (Ptr (R_heap 0) 0) st_hybrid_a)).
Definition st_hybrid_c : state nat :=
  snd (example_kex_recv (Some s2n_kem) B_kem_shared_secret st_hybrid_b).
Definition st_hybrid_done : state nat :=
  snd (s2n_hybrid_client_key_recv example_malloc example_kex_recv (B_local 0) st_hybrid).

(** TLS 1.2, a message whose length prefix is 0. *)
Definition st_tls12_empty : state nat := example_state S2N_TLS12 s2n_rsa 8 [0; 0].

(** TLS 1.2, a message whose length prefix announces 9 bytes where 1 follows. *)
Definition st_tls12_short : state nat := example_state S2N_TLS12 s2n_rsa 8 [0; 9; 5].

(** TLS 1.2, a decrypted premaster secret of 48 bytes outside the
    connection, with the version bytes of TLS 1.2. *)
Definition st_decrypted : state nat :=
  set_blobs [{| data := Ptr (R_heap 0) 0; size := 48; allocated := 0; growable := false |}]
    (example_state S2N_TLS12 s2n_rsa 48 (3 :: 3 :: replicate 46 5)).

(** SSLv3, a message of 65536 bytes. *)
Definition st_sslv3_64k : state nat :=
  example_state S2N_SSLv3 s2n_rsa 65536 (replicate (Z.to_nat 65536) 1).

End Examples.

(** ** Further auxiliary definitions *)

Section Unread.
Context {W : Type}.
(** The bytes of a stuffer that have been written and not yet read. *)
Definition stuffer_unread (st : state W) (s : s2n_stuffer) : list Z :=
  drop (Z.to_nat (read_cursor s)) (stuffer_content st s).
End Unread.

Section EraseDef.
Context {W : Type}.
(** The statements of s2n_calculate_keys that erase the shared key. *)
Definition calculate_keys_erase (shared_key : blob_ptr) : M W unit :=
  s2n_blob_zero shared_key;;
  blob ← deref shared_key;
  if bool_decide (allocated blob ≠ 0) then s2n_free shared_key else ret tt.
End EraseDef.


Module MoreExamples.
(** A server whose handshake buffer holds the message that the client of
    [Examples.st_tls12] has sent, and the state in which it submits the
    ciphertext for decryption. *)
Definition st_server : state nat :=
  Examples.example_state S2N_TLS12 s2n_rsa 8 [0; 3; 238; 238; 238].
Definition st_server_at_decrypt : state nat :=
  snd (rsa_recv_until_decrypt Examples.example_random (B_local 0) st_server).

(** A method table for the sending side that knows the RSA handler. *)
Definition example_dispatch_send : s2n_kex_client_key_method (W := nat) :=
  fun kex shared_key =>
    match kex with
    | Some s2n_rsa =>
        s2n_rsa_client_key_send Examples.example_malloc Examples.example_random
          Examples.example_pkey_size Examples.example_pkey_encrypt
          Examples.example_pkey_free shared_key
    | _ => S2N_ERROR S2N_ERR_KEM
    end.

(** The client of [Examples.st_tls12] after the RSA handler has run on the
    shared key of s2n_client_key_send, and at the end of s2n_client_key_send. *)
Definition st_client_keyed : state nat :=
  snd (example_dispatch_send (Some s2n_rsa) (B_local 1)
         (set_blobs (blobs Examples.st_tls12 ++ [blob_zero]) Examples.st_tls12)).
Definition st_client_done : state nat :=
  snd (s2n_client_key_send Examples.example_prf Examples.example_key_expansion
         Examples.example_allowed_to_cache Examples.example_store_to_cache
         example_dispatch_send Examples.st_tls12).

(** A connection that negotiated the KEM method on its own, and method
    tables that know the two KEM handlers. *)
Definition st_bare_kem : state nat := Examples.example_state S2N_TLS12 s2n_kem 8 [].
Definition example_kem_primitive : M nat unit := modify (set_world 7%nat).
Definition example_dispatch_kem_recv : s2n_kex_client_key_method (W := nat) :=
  fun kex shared_key =>
    match kex with
    | Some s2n_kem => s2n_kem_client_key_recv example_kem_primitive shared_key
    | _ => S2N_ERROR S2N_ERR_KEM
    end.
Definition example_dispatch_kem_send : s2n_kex_client_key_method (W := nat) :=
  fun kex shared_key =>
    match kex with
    | Some s2n_kem => s2n_kem_client_key_send example_kem_primitive shared_key
    | _ => S2N_ERROR S2N_ERR_KEM
    end.

(** The receiving side entered again after the deferred decryption has
    completed. *)
Definition st_async_complete : state nat :=
  set_conn (set_handshake_async_state S2N_ASYNC_INVOKED_COMPLETE) Examples.st_tls12.

(** A hybrid exchange on the receiving side whose message ends after the
    classical part: the state at entry, after the start of the message is
    taken, after the classical sub-operation, and at the end. *)
Definition st_hybrid_short : state nat :=
  Examples.example_state S2N_TLS12 s2n_hybrid_ecdhe_kem 8 [1].
Definition st_hybrid_short_a : state nat :=
  snd (s2n_stuffer_raw_read S_handshake_io 0 st_hybrid_short).
Definition st_hybrid_short_b : state nat :=
  snd (Examples.example_kex_recv (Some s2n_ecdhe) (B_local 1)
         (hybrid_enter (Ptr (R_heap 0) 0) st_hybrid_short_a)).
Definition st_hybrid_short_f : state nat :=
  snd (Examples.example_kex_recv (Some s2n_kem) B_kem_shared_secret st_hybrid_short_b).

(** Method tables for a hybrid exchange that resolve the KEM descriptor to
    the KEM handlers of this file, over a primitive that consumes two bytes
    and yields a secret of 64 bytes. *)
Definition example_kem_recv_primitive : M nat unit :=
  Examples.example_secret s2n_stuffer_skip_read 2 B_kem_shared_secret (replicate 64 31).
Definition example_kem_send_primitive : M nat unit :=
  Examples.example_secret (s2n_stuffer_skip_write Examples.example_malloc) 2
    B_kem_shared_secret (replicate 64 31).
Definition example_hybrid_dispatch_recv : s2n_kex_client_key_method (W := nat) :=
  fun kex shared_key =>
    match kex with
    | Some s2n_kem => s2n_kem_client_key_recv example_kem_recv_primitive shared_key
    | _ => Examples.example_kex_recv kex shared_key
    end.
Definition example_hybrid_dispatch_send : s2n_kex_client_key_method (W := nat) :=
  fun kex shared_key =>
    match kex with
    | Some s2n_kem => s2n_kem_client_key_send example_kem_send_primitive shared_key
    | _ => Examples.example_kex_send kex shared_key
    end.

(** A connection whose handshake buffer has no storage yet. *)
Definition st_hybrid_no_storage : state nat :=
  {| conn :=
       set_handshake_io
         {| blob := blob_zero; read_cursor := 0; write_cursor := 0; high_water_mark := 0;
            alloced := false; stuffer_growable := true; tainted := false |}
         (Examples.example_conn S2N_TLS12 s2n_hybrid_ecdhe_kem 0 []);
     heap := []; blobs := [blob_zero]; stuffers := []; world := 0%nat |}.

(** An allocator that refuses requests of more than 64 bytes. *)
Definition example_malloc_64 : nat -> Z -> bool := fun _ n => n <=? 64.

(** A hybrid exchange on the sending side, into an empty handshake
    buffer: the state at entry, after the start of the message is taken,
    after each sub-operation and at the end. *)
Definition st_hybrid_send : state nat :=
  Examples.example_state S2N_TLS12 s2n_hybrid_ecdhe_kem 8 [].
Definition st_hybrid_send_a : state nat :=
  snd (s2n_stuffer_raw_write Examples.example_malloc S_handshake_io 0 st_hybrid_send).
Definition st_hybrid_send_b : state nat :=
  snd (Examples.example_kex_send (Some s2n_ecdhe) (B_local 1)
         (hybrid_enter (Ptr (R_heap 0) 0) st_hybrid_send_a)).
Definition st_hybrid_send_c : state nat :=
  snd (Examples.example_kex_send (Some s2n_kem) B_kem_shared_secret st_hybrid_send_b).
Definition st_hybrid_send_done : state nat :=
  snd (s2n_hybrid_client_key_send Examples.example_malloc Examples.example_kex_send
         (B_local 0) st_hybrid_send).
End MoreExamples.


(** * Properties *)

(** ** Running the monad *)

Section Run.
Context {W : Type}.

Lemma run_bind {A B} (m : M W A) (k : A -> M W B) st :
  (m ≫= k) st =
  match m st with
  | (Ok a, st') => k a st'
  | (Err e, st') => (Err e, st')
  | (Crash, st') => (Crash, st')
  end.
Proof. reflexivity. Qed.

Lemma run_bind_ok {A B} (m : M W A) (k : A -> M W B) st a st' :
  m st = (Ok a, st') -> (m ≫= k) st = k a st'.
Proof. intros H. rewrite run_bind, H. reflexivity. Qed.

Lemma run_bind_err {A B} (m : M W A) (k : A -> M W B) st e st' :
  m st = (Err e, st') -> (m ≫= k) st = (Err e, st').
Proof. intros H. rewrite run_bind, H. reflexivity. Qed.

Lemma run_bind_crash {A B} (m : M W A) (k : A -> M W B) st st' :
  m st = (Crash, st') -> (m ≫= k) st = (Crash, st').
Proof. intros H. rewrite run_bind, H. reflexivity. Qed.

Lemma run_unit (m : M W unit) st :
  (m ≫= fun _ => ret tt) st = m st.
Proof. rewrite run_bind. destruct (m st) as [[[]| |] st']; reflexivity. Qed.

Lemma bind_ok_inv {A B} (m : M W A) (k : A -> M W B) st b st' :
  (m ≫= k) st = (Ok b, st') ->
  exists a st1, m st = (Ok a, st1) /\ k a st1 = (Ok b, st').
Proof.
  rewrite run_bind. destruct (m st) as [[a| |] st1]; try discriminate. eauto.
Qed.

Lemma run_bind_assoc {A B C} (m : M W A) (k : A -> M W B) (k' : B -> M W C) st :
  ((m ≫= k) ≫= k') st = (m ≫= fun a => k a ≫= k') st.
Proof. rewrite !run_bind. destruct (m st) as [[a| |] st1]; reflexivity. Qed.

Lemma run_bind_ext {A B} (m : M W A) (k k' : A -> M W B) st :
  (forall a s, k a s = k' a s) -> (m ≫= k) st = (m ≫= k') st.
Proof. intros H. rewrite !run_bind. destruct (m st) as [[a| |] st1]; auto. Qed.

End Run.

(** Reduce the projections of updated records. *)
Ltac proj_simpl :=
  cbn [conn heap blobs stuffers world set_conn set_heap set_blobs set_stuffers set_world
       actual_protocol_version client_protocol_version client_hello_version
       key_exchange_alg handshake_io handshake_rsa_failed handshake_async_state
       rsa_premaster_secret kem_private_key kem_public_key kem_shared_secret
       client_key_exchange_message
       set_handshake_io set_handshake_rsa_failed set_handshake_async_state
       set_rsa_premaster_secret set_kem_private_key set_kem_public_key
       set_kem_shared_secret set_client_key_exchange_message
       data size allocated growable set_size set_data
       blob read_cursor write_cursor high_water_mark alloced stuffer_growable tainted
       set_blob set_read_cursor set_write_cursor set_tainted
       get_blob get_stuffer region_bytes set_region_bytes fst snd] in *.

(** Take a bound call apart by cases on what it returns. *)
Ltac case_run :=
  match goal with
  | |- context [(?m ≫= _) ?st] =>
      rewrite (run_bind m);
      let E := fresh "E" in
      destruct (m st) as [[?|?|] ?] eqn:E
  end.

(** ** The KEM path *)

Section KemPath.
Context {W : Type}.

Lemma kem_recv_cases (prim : M W unit) sk st :
  s2n_kem_client_key_recv prim sk st =
  match sk with
  | B_NULL => (Err S2N_ERR_NULL, st)
  | B_kem_shared_secret => prim st
  | _ => (Err S2N_ERR_SAFETY, st)
  end.
Proof.
  unfold s2n_kem_client_key_recv.
  destruct sk; try reflexivity.
  rewrite !run_bind. cbn. apply run_unit.
Qed.

End KemPath.

(** C4 (as amended): s2n_kem_client_key_recv and s2n_kem_client_key_send
    fail with a null error when [shared_key] is null, fail with a safety
    error when it is any other pointer than the address of the connection's
    own [kem_params.shared_secret], and only in the remaining case go on to
    the KEM primitive, whose outcome they return. A failed check leaves the
    state as it was. *)
Theorem kem_client_key_requires_alias {W} (recv_primitive send_primitive : M W unit) sk st :
  s2n_kem_client_key_recv recv_primitive sk st =
    match sk with
    | B_NULL => (Err S2N_ERR_NULL, st)
    | B_kem_shared_secret => recv_primitive st
    | _ => (Err S2N_ERR_SAFETY, st)
    end
  /\ s2n_kem_client_key_send send_primitive sk st =
    match sk with
    | B_NULL => (Err S2N_ERR_NULL, st)
    | B_kem_shared_secret => send_primitive st
    | _ => (Err S2N_ERR_SAFETY, st)
    end.
Proof.
  split.
  - apply kem_recv_cases.
  - unfold s2n_kem_client_key_send.
    destruct sk; try reflexivity.
    rewrite !run_bind. cbn. apply run_unit.
Qed.

(** C4 as stated fails on a null [shared_key]: it is not the address of the
    connection's [kem_params.shared_secret], and the error is the null
    error, not the safety error. *)
Lemma kem_client_key_null_is_not_safety :
  ~ (B_NULL <> B_kem_shared_secret ->
     fst (s2n_kem_client_key_recv (ret tt) B_NULL Examples.st_tls12) = Err S2N_ERR_SAFETY).
Proof. intros H. specialize (H ltac:(discriminate)). discriminate H. Qed.

(** ** The store *)

Section StoreLemmas.
Context {W : Type}.
Implicit Types st : state W.

Lemma load_length st p n bytes : load st p n = Some bytes -> zlen bytes = n.
Proof.
  unfold load. destruct p as [|r off]; [discriminate|].
  destruct (region_bytes st r) as [bs|]; [|discriminate].
  case_bool_decide as H; [|discriminate].
  intros [= <-]. unfold zlen in *. rewrite length_take, length_drop. lia.
Qed.

Lemma load_premaster st :
  load st (Ptr R_rsa_premaster_secret 0) (zlen (rsa_premaster_secret (conn st)))
  = Some (rsa_premaster_secret (conn st)).
Proof.
  unfold load. cbn [region_bytes].
  rewrite bool_decide_eq_true_2 by (unfold zlen; lia).
  unfold zlen. rewrite Nat2Z.id. cbn. by rewrite take_ge.
Qed.

Lemma splice_all (bs new : list Z) : length new = length bs -> splice bs 0 new = new.
Proof.
  intros H. unfold splice. cbn. rewrite H, drop_all. apply app_nil_r.
Qed.

Lemma store_premaster st new :
  zlen new = zlen (rsa_premaster_secret (conn st)) ->
  store st (Ptr R_rsa_premaster_secret 0) new
  = Some (set_conn (set_rsa_premaster_secret new) st).
Proof.
  intros H. unfold store. cbn [region_bytes].
  rewrite bool_decide_eq_true_2 by lia.
  cbn. rewrite splice_all; [done|]. unfold zlen in H. lia.
Qed.

Lemma load_ext st st' p n :
  heap st' = heap st ->
  rsa_premaster_secret (conn st') = rsa_premaster_secret (conn st) ->
  load st' p n = load st p n.
Proof.
  intros Hh Hp. unfold load, region_bytes. destruct p as [|[|a] off]; [done| |].
  - now rewrite Hp.
  - now rewrite Hh.
Qed.

Lemma load_whole_cell st a bs :
  heap st !! a = Some (Live bs) ->
  load st (Ptr (R_heap a) 0) (zlen bs) = Some bs.
Proof.
  intros H. unfold load. cbn [region_bytes]. rewrite H.
  rewrite bool_decide_eq_true_2 by (unfold zlen; lia).
  unfold zlen. rewrite Nat2Z.id. cbn. by rewrite take_ge.
Qed.

Lemma take_splice (l new : list Z) (off : nat) :
  (off <= length l)%nat ->
  take (off + length new) (splice l off new) = take off l ++ new.
Proof.
  intros H. unfold splice.
  rewrite take_app_ge by (rewrite length_take; lia).
  rewrite length_take, Nat.min_l by lia.
  replace (off + length new - off)%nat with (length new) by lia.
  now rewrite take_app_length.
Qed.

Lemma length_splice (l new : list Z) (off : nat) :
  (off + length new <= length l)%nat ->
  length (splice l off new) = length l.
Proof.
  intros H. unfold splice.
  rewrite !length_app, length_take, length_drop. lia.
Qed.

Lemma take_splice_before (l new : list Z) (off k : nat) :
  (k <= off)%nat -> (off <= length l)%nat ->
  take k (splice l off new) = take k l.
Proof.
  intros Hk H. unfold splice.
  rewrite take_app_le by (rewrite length_take; lia).
  rewrite take_take. f_equal. lia.
Qed.

End StoreLemmas.

(** ** The RSA path: completion *)

(** C2: given a decrypted buffer, s2n_rsa_client_key_recv_complete fails,
    with a size-mismatch error and without touching the state, exactly when
    the size of the buffer is not S2N_TLS_SECRET_LEN. For a buffer of that
    size it succeeds, the premaster secret holds the bytes of the buffer,
    and the one other change to the state is the flag [handshake.rsa_failed],
    which is set exactly when the decrypt operation reported a failure or
    the constant-time comparison finds the first two bytes different from
    the wire form of the advertised version. *)
Theorem rsa_client_key_recv_complete_spec {W} rsa_failed decrypted d bytes (st : state W) :
  get_blob st decrypted = Some d ->
  load st (data d) (size d) = Some bytes ->
  zlen (rsa_premaster_secret (conn st)) = S2N_TLS_SECRET_LEN ->
  s2n_rsa_client_key_recv_complete rsa_failed decrypted st =
  if bool_decide (size d = S2N_TLS_SECRET_LEN)
  then (Ok tt,
        set_conn (fun c =>
          set_handshake_rsa_failed
            (rsa_failed
             || negb (s2n_constant_time_equals
                        (wire_version (uint8 (get_client_hello_protocol_version c)))
                        bytes S2N_TLS_PROTOCOL_VERSION_LEN))
            (set_rsa_premaster_secret bytes c)) st)
  else (Err S2N_ERR_SIZE_MISMATCH, st).
Proof.
  intros Hp Hl Hlen.
  unfold s2n_rsa_client_key_recv_complete.
  rewrite (run_bind_ok _ _ st d st) by (unfold deref; now rewrite Hp).
  destruct (decide (size d = S2N_TLS_SECRET_LEN)) as [Hsz|Hsz].
  2:{ rewrite (bool_decide_eq_false_2 _ Hsz).
      erewrite run_bind_err; [reflexivity|].
      now rewrite (bool_decide_eq_true_2 _ Hsz). }
  rewrite (bool_decide_eq_true_2 _ Hsz).
  rewrite (run_bind_ok _ _ st tt st)
    by (rewrite bool_decide_eq_false_2; [reflexivity | intros H; exact (H Hsz)]).
  rewrite Hsz in Hl.
  destruct (decide (Ptr R_rsa_premaster_secret 0 = data d)) as [Hd|Hd].
  - rewrite (run_bind_ok _ _ st tt st)
      by (rewrite bool_decide_eq_false_2; [reflexivity | intros H; exact (H Hd)]).
    rewrite <- Hd, <- Hlen, load_premaster in Hl. injection Hl as <-.
    destruct st as [c h bl sl w]. destruct c. reflexivity.
  - pose proof (load_length _ _ _ _ Hl) as Hb.
    assert (Hnn : data d <> NULL).
    { intros E. rewrite E in Hl. discriminate Hl. }
    rewrite (run_bind_ok _ _ st tt (set_conn (set_rsa_premaster_secret bytes) st)).
    + destruct st as [c h bl sl w]. destruct c. reflexivity.
    + rewrite (bool_decide_eq_true_2 _ Hd).
      unfold memcpy_check. rewrite bool_decide_eq_false_2 by done.
      rewrite (run_bind_ok _ _ st tt st) by reflexivity.
      rewrite (run_bind_ok _ _ st tt st)
        by (unfold notnull_check; now rewrite bool_decide_eq_false_2).
      rewrite (run_bind_ok _ _ st bytes st) by (unfold mem_read; now rewrite Hl).
      unfold mem_write. rewrite store_premaster by lia. reflexivity.
Qed.

(** The completion handler on a 48-byte buffer outside the connection. *)
Lemma rsa_client_key_recv_complete_spec_witness :
  s2n_rsa_client_key_recv_complete false (B_local 0) Examples.st_decrypted
  = (Ok tt,
     set_conn (fun c =>
       set_handshake_rsa_failed false
         (set_rsa_premaster_secret (3 :: 3 :: replicate 46 5) c)) Examples.st_decrypted).
Proof.
  exact (rsa_client_key_recv_complete_spec false (B_local 0)
           {| data := Ptr (R_heap 0) 0; size := 48; allocated := 0; growable := false |}
           (3 :: 3 :: replicate 46 5) Examples.st_decrypted eq_refl eq_refl eq_refl).
Defined.

(** ** The RSA path: receiving *)

Ltac unfold_prims :=
  unfold read_length, s2n_stuffer_raw_read,
    s2n_stuffer_read_uint16, s2n_stuffer_read_bytes, s2n_stuffer_skip_read,
    s2n_stuffer_data_available, s2n_get_private_random_data,
    S2N_ASYNC_PKEY_GUARD, GUARD_PTR, notnull_check, notnull_check_blob,
    gt_check, S2N_ERROR_IF, S2N_ERROR, deref_stuffer, assign_stuffer, deref,
    assign, extern, gets, modify, mem_read, mem_write, access, crash,
    mbind, M_bind, bind, ret in *;
  cbn [get_stuffer put_stuffer] in *.

Ltac unfold_rsa_recv :=
  unfold rsa_recv_until_decrypt, rsa_recv_after_length in *; unfold_prims.

Section RsaRecv.
Context {W : Type}.
Implicit Types st : state W.

Lemma put_blob_frame p b st st' :
  put_blob p b st = Some st' ->
  heap st' = heap st /\ world st' = world st /\ stuffers st' = stuffers st
  /\ handshake_io (conn st') = handshake_io (conn st)
  /\ rsa_premaster_secret (conn st') = rsa_premaster_secret (conn st)
  /\ actual_protocol_version (conn st') = actual_protocol_version (conn st)
  /\ client_protocol_version (conn st') = client_protocol_version (conn st)
  /\ client_hello_version (conn st') = client_hello_version (conn st)
  /\ handshake_async_state (conn st') = handshake_async_state (conn st)
  /\ get_blob st' p = Some b.
Proof.
  destruct p; cbn; try discriminate; try (intros [= <-]; cbn; tauto).
  case_bool_decide as Hi; [|discriminate]. intros [= <-]. cbn.
  repeat split; try reflexivity. now apply list_lookup_insert_eq.
Qed.

Lemma get_blob_io_frame st s p :
  get_blob (set_conn (set_handshake_io s) st) p = get_blob st p.
Proof. destruct p; reflexivity. Qed.

Lemma get_blob_world_frame st w p :
  get_blob (set_world w st) p = get_blob st p.
Proof. destruct p; reflexivity. Qed.

Lemma get_client_hello_protocol_version_frame (c c' : s2n_connection) :
  client_protocol_version c' = client_protocol_version c ->
  client_hello_version c' = client_hello_version c ->
  get_client_hello_protocol_version c' = get_client_hello_protocol_version c.
Proof. unfold get_client_hello_protocol_version. intros -> ->. reflexivity. Qed.

(** The handler is its first part followed by the decrypt operation. *)
Lemma rsa_recv_decompose rnd decrypt sk st :
  s2n_rsa_client_key_recv rnd decrypt sk st =
  match rsa_recv_until_decrypt rnd sk st with
  | (Ok (Some encrypted), st1) =>
      decrypt encrypted sk s2n_rsa_client_key_recv_complete st1
  | (Ok None, st1) => (Ok tt, st1)
  | (Err e, st1) => (Err e, st1)
  | (Crash, st1) => (Crash, st1)
  end.
Proof.
  unfold s2n_rsa_client_key_recv, rsa_recv_until_decrypt, rsa_recv_after_length.
  repeat (rewrite ?run_bind;
          match goal with
          | |- context [if negb ?b then _ else _] => destruct b; cbn [negb]
          | |- context [match ?m st with _ => _ end] => destruct (m st) as [[?|?|] ?]
          | |- context [match ?m ?s with _ => _ end] => destruct (m s) as [[?|?|] ?]
          end; try reflexivity).
Qed.

Lemma get_blob_put_blob p b b' st :
  get_blob st p = Some b -> exists st', put_blob p b' st = Some st'.
Proof.
  destruct p; cbn; try discriminate; eauto.
  intros H. apply lookup_lt_Some in H.
  rewrite bool_decide_eq_true_2 by done. eauto.
Qed.

Lemma reaches_decrypt rnd sk st encrypted st1 :
  (forall decrypt,
     s2n_rsa_client_key_recv rnd decrypt sk st
     = decrypt encrypted sk s2n_rsa_client_key_recv_complete st1) ->
  exists encrypted', rsa_recv_until_decrypt rnd sk st = (Ok (Some encrypted'), st1).
Proof.
  intros H.
  pose proof (H (fun _ _ _ s => (Ok tt, s))) as Hok.
  pose proof (H (fun _ _ _ s => (Crash, s))) as Hcrash.
  rewrite rsa_recv_decompose in Hok, Hcrash.
  destruct (rsa_recv_until_decrypt rnd sk st) as [[[e'|]|e|] st']; simplify_eq.
  eauto.
Qed.

Lemma until_decrypt_inv rnd sk st enc st1 :
  zlen (rsa_premaster_secret (conn st)) = S2N_TLS_SECRET_LEN ->
  rsa_recv_until_decrypt rnd sk st = (Ok (Some enc), st1) ->
  exists b st_r f,
    get_blob st sk = Some b
    /\ handshake_async_state (conn st) = S2N_ASYNC_NOT_INVOKED
    /\ world st_r = world st
    /\ rnd st_r = (Ok f, world st1)
    /\ rsa_premaster_secret (conn st1)
       = <[1%nat := uint8 (uint8 (get_client_hello_protocol_version (conn st)) mod 10)]>
           (<[0%nat := uint8 (uint8 (get_client_hello_protocol_version (conn st)) / 10)]>
              ((fun i => uint8 (f i)) <$> seq 0 48))
    /\ 0 < size enc.
Proof.
  intros Ht H. unfold_rsa_recv.
  repeat (case_match; simplify_eq; cbn [negb] in * ).
  all: match goal with Hput : put_blob _ _ _ = Some _ |- _ =>
         pose proof (put_blob_frame _ _ _ _ Hput)
           as (Hh & Hw & Hs & Hio & Hpm & Hv & Hcp & Hch & Has & Hg) end.
  all: repeat match goal with Hget : get_blob _ _ = Some _ |- _ =>
         progress rewrite ?get_blob_io_frame, ?get_blob_world_frame in Hget end.
  all: simplify_eq.
  all: match goal with Hst : store _ _ _ = Some _ |- _ =>
         cbn [data set_size set_data size] in Hst end.
  all: match goal with Hst : store _ _ _ = Some _ |- _ =>
         rewrite store_premaster in Hst
           by (cbn; rewrite Hpm, Ht; unfold zlen; now rewrite length_fmap, length_seq);
         injection Hst as <- end.
  all: do 3 eexists; split; [eassumption|].
  all: split; [congruence|].
  all: split; [|split; [eassumption|]]; [cbn; congruence|].
  all: unfold get_client_hello_protocol_version.
  all: cbn [conn set_conn rsa_premaster_secret set_rsa_premaster_secret set_world
            client_hello_version client_protocol_version set_handshake_io size].
  all: rewrite Hcp, Hch.
  all: split; [reflexivity|].
  all: match goal with Hgt : (_ <=? 0) = false |- _ =>
         cbn [size] in Hgt; apply Z.leb_gt in Hgt; exact Hgt end.
Qed.

Lemma until_from_length rnd sk b st len st2 :
  get_blob st sk = Some b ->
  handshake_async_state (conn st) = S2N_ASYNC_NOT_INVOKED ->
  read_length S_handshake_io st = (Ok len, st2) ->
  exists st3,
    handshake_io (conn st3) = handshake_io (conn st2)
    /\ rsa_recv_until_decrypt rnd sk st = rsa_recv_after_length rnd sk len st3.
Proof.
  intros Hb Ha Hlen.
  destruct (get_blob_put_blob sk b
              (set_size S2N_TLS_SECRET_LEN (set_data (Ptr R_rsa_premaster_secret 0) b))
              st Hb) as [s6 Hput].
  pose proof (put_blob_frame _ _ _ _ Hput)
    as (Hh & Hw & Hs & Hio & Hpm & Hv & Hcp & Hch & Has & Hg).
  assert (sk <> B_NULL) as Hnn by (intros ->; discriminate Hb).
  unfold rsa_recv_until_decrypt. unfold_prims.
  rewrite (bool_decide_eq_false_2 _ Hnn), Hb, Hput, Has, Ha. cbn [negb].
  cbn [conn set_conn handshake_io set_handshake_io actual_protocol_version heap
       region_bytes load data blob size read_cursor write_cursor set_read_cursor
       set_tainted ptr_add].
  rewrite ?Hv, ?Hio, ?Hh.
  repeat (case_match; simplify_eq; cbn [negb] in * ).
  all: cbn [conn set_conn handshake_io set_handshake_io actual_protocol_version heap
       region_bytes load data blob size read_cursor write_cursor set_read_cursor
       set_tainted ptr_add] in *.
  all: rewrite ?Hv, ?Hio, ?Hh in *.
  all: match goal with Hput' : put_blob _ _ ?s = Some _ |- _ =>
         repeat match goal with
         | H : context [load ?s' ?p ?n] |- _ =>
             lazymatch s' with s => fail | _ => idtac end;
             rewrite (load_ext s s' p n) in H by (cbn; congruence)
         end
       end.
  all: simplify_eq.
  all: try congruence.
  all: eexists; split; [|reflexivity]; cbn; congruence.
Qed.

Lemma read_uint16_io_inv st len st2 :
  stuffer_typed (handshake_io (conn st)) ->
  s2n_stuffer_read_uint16 S_handshake_io st = (Ok len, st2) ->
  2 <= data_available (handshake_io (conn st))
  /\ st2 = set_conn (set_handshake_io
               (set_read_cursor (read_cursor (handshake_io (conn st)) + 2)
                  (handshake_io (conn st)))) st
  /\ exists d0 d1,
       load st (ptr_add (data (blob (handshake_io (conn st))))
                  (read_cursor (handshake_io (conn st)))) 2 = Some [d0; d1]
       /\ len = uint16 (Z.lor (Z.shiftl d0 8) d1).
Proof.
  intros ((Hrc0 & Hrw) & Hws & Hsz) Hrd. unfold UINT32_MAX in Hsz.
  destruct st as [c h bl sl w]. cbn [conn] in *.
  assert (data_available (handshake_io c)
          = write_cursor (handshake_io c) - read_cursor (handshake_io c))
    as Hav by (unfold data_available, uint32; apply Z.mod_small; lia).
  unfold_rsa_recv. cbn [conn] in *.
  repeat (case_match; simplify_eq).
  match goal with H : (_ <? 2) = false |- _ => apply Z.ltb_ge in H; rename H into Hge end.
  assert (uint32 (read_cursor (handshake_io c) + 2) = read_cursor (handshake_io c) + 2)
    as Hrc by (unfold uint32; apply Z.mod_small; lia).
  rewrite Hrc in *.
  split; [exact Hge|]. split; [reflexivity|].
  match goal with H : load _ _ _ = Some _ |- _ =>
    rewrite (load_ext (mk_state c h bl sl w)) in H by reflexivity;
    cbn [handshake_io conn set_conn set_handshake_io blob set_read_cursor read_cursor] in H;
    replace (read_cursor (handshake_io c) + 2 - 2)
      with (read_cursor (handshake_io c)) in H by lia
  end.
  eauto.
Qed.

Lemma wire_version_typed (c : s2n_connection) :
  conn_typed c ->
  let v := get_client_hello_protocol_version c in
  uint8 v = v /\ uint8 (v / 10) = v / 10 /\ uint8 (v mod 10) = v mod 10.
Proof.
  intros (_ & Hh & Hp). cbn zeta.
  assert (0 <= get_client_hello_protocol_version c <= 255) as Hv.
  { unfold get_client_hello_protocol_version. case_decide; lia. }
  unfold uint8.
  pose proof (Z.mod_pos_bound (get_client_hello_protocol_version c) 10 ltac:(lia)).
  assert (0 <= get_client_hello_protocol_version c / 10 < 256).
  { split; [apply Z.div_pos; lia | apply Z.div_lt_upper_bound; lia]. }
  rewrite !Z.mod_small by lia. done.
Qed.

End RsaRecv.

(** C1: whenever s2n_rsa_client_key_recv reaches its decrypt step (its
    outcome is that of the decrypt operation, whatever that operation is,
    run on a ciphertext [encrypted] in a state [st1]), the random generator
    has been run on the world of this invocation and has succeeded, and in
    [st1], before any decryption, [rsa_premaster_secret] holds the
    S2N_TLS_SECRET_LEN random bytes with byte 0 overwritten by version / 10
    and byte 1 by version % 10, for the version the client advertised. *)
Theorem rsa_client_key_recv_random_premaster {W}
    (rnd : state W -> result (nat -> Z) * W) sk st encrypted st1 :
  conn_typed (conn st) ->
  (forall decrypt,
     s2n_rsa_client_key_recv rnd decrypt sk st
     = decrypt encrypted sk s2n_rsa_client_key_recv_complete st1) ->
  exists st_r f,
    world st_r = world st
    /\ rnd st_r = (Ok f, world st1)
    /\ zlen ((fun i => uint8 (f i)) <$> seq 0 (Z.to_nat S2N_TLS_SECRET_LEN))
       = S2N_TLS_SECRET_LEN
    /\ zlen (rsa_premaster_secret (conn st1)) = S2N_TLS_SECRET_LEN
    /\ rsa_premaster_secret (conn st1)
       = <[1%nat := get_client_hello_protocol_version (conn st) mod 10]>
           (<[0%nat := get_client_hello_protocol_version (conn st) / 10]>
              ((fun i => uint8 (f i)) <$> seq 0 (Z.to_nat S2N_TLS_SECRET_LEN))).
Proof.
  intros Ht Hreach.
  destruct (reaches_decrypt _ _ _ _ _ Hreach) as [enc' Hu].
  destruct (until_decrypt_inv _ _ _ _ _ (proj1 Ht) Hu)
    as (b & st_r & f & _ & _ & Hw & Hr & Hpm & _).
  destruct (wire_version_typed _ Ht) as (E1 & E2 & E3).
  rewrite E1, E2, E3 in Hpm.
  exists st_r, f.
  split; [exact Hw|]. split; [exact Hr|].
  split; [unfold zlen; now rewrite length_fmap, length_seq|].
  split; [|exact Hpm].
  rewrite Hpm. unfold zlen. now rewrite !length_insert, length_fmap, length_seq.
Qed.

(** The handler on a TLS 1.2 message: the premaster secret at the decrypt
    step is the random value with the bytes 3, 3 in front. *)
Lemma rsa_client_key_recv_random_premaster_witness :
  exists st_r f,
    world st_r = world Examples.st_tls12
    /\ Examples.example_random st_r = (Ok f, world Examples.st_tls12_at_decrypt)
    /\ zlen ((fun i => uint8 (f i)) <$> seq 0 (Z.to_nat S2N_TLS_SECRET_LEN))
       = S2N_TLS_SECRET_LEN
    /\ zlen (rsa_premaster_secret (conn Examples.st_tls12_at_decrypt)) = S2N_TLS_SECRET_LEN
    /\ rsa_premaster_secret (conn Examples.st_tls12_at_decrypt)
       = <[1%nat := 3]> (<[0%nat := 3]>
           ((fun i => uint8 (f i)) <$> seq 0 (Z.to_nat S2N_TLS_SECRET_LEN))).
Proof.
  apply (rsa_client_key_recv_random_premaster Examples.example_random (B_local 0)
           Examples.st_tls12 Examples.st_tls12_encrypted Examples.st_tls12_at_decrypt).
  - refine (bool_decide_unpack _ _). vm_compute. exact I.
  - intros decrypt. reflexivity.
Defined.

(** C10: when the handler computes a ciphertext length of 0 (from a 16-bit
    prefix of 0, or from an SSLv3 message with nothing left to read), it
    fails with an error, and it does so without reaching the decrypt
    operation: the outcome is the same error in the same state whatever
    that operation is. *)
Theorem rsa_client_key_recv_rejects_empty {W}
    (rnd : state W -> result (nat -> Z) * W) sk b st st2 :
  get_blob st sk = Some b ->
  handshake_async_state (conn st) = S2N_ASYNC_NOT_INVOKED ->
  read_length S_handshake_io st = (Ok 0, st2) ->
  exists e st',
    forall decrypt, s2n_rsa_client_key_recv rnd decrypt sk st = (Err e, st').
Proof.
  intros Hb Ha Hlen.
  destruct (get_blob_put_blob sk b
              (set_size S2N_TLS_SECRET_LEN (set_data (Ptr R_rsa_premaster_secret 0) b))
              st Hb) as [s6 Hput].
  pose proof (put_blob_frame _ _ _ _ Hput)
    as (Hh & Hw & Hs & Hio & Hpm & Hv & Hcp & Hch & Has & Hg).
  assert (exists e st', rsa_recv_until_decrypt rnd sk st = (Err e, st')) as (e & st' & Hu).
  2:{ exists e, st'. intros decrypt. now rewrite rsa_recv_decompose, Hu. }
  assert (sk <> B_NULL) as Hnn by (intros ->; discriminate Hb).
  unfold_rsa_recv.
  rewrite (bool_decide_eq_false_2 _ Hnn), Hb, Hput, Has, Ha. cbn [negb].
  cbn [conn set_conn handshake_io set_handshake_io actual_protocol_version heap
       region_bytes load data blob size read_cursor write_cursor set_read_cursor
       set_tainted ptr_add].
  rewrite ?Hv, ?Hio, ?Hh.
  repeat (case_match; simplify_eq; cbn [negb] in * ); try (eexists _, _; reflexivity).
  all: exfalso.
  all: cbn [conn set_conn handshake_io set_handshake_io actual_protocol_version heap
       region_bytes load data blob size read_cursor write_cursor set_read_cursor
       set_tainted ptr_add] in *.
  all: rewrite ?Hv, ?Hio, ?Hh in *.
  all: simplify_eq.
  all: try match goal with
       | H1 : ?x = 0, H2 : (?x <=? 0) = false |- _ => rewrite H1 in H2; discriminate H2
       end.
  all: match goal with Hput' : put_blob _ _ ?s = Some _ |- _ =>
         repeat match goal with
         | H : context [load ?s' ?p ?n] |- _ =>
             lazymatch s' with s => fail | _ => idtac end;
             rewrite (load_ext s s' p n) in H by (cbn; congruence)
         end
       end.
  all: simplify_eq.
  all: try match goal with
       | H1 : ?x = 0, H2 : (?x <=? 0) = false |- _ => rewrite H1 in H2; discriminate H2
       end.
Qed.

(** A TLS 1.2 message with a length prefix of 0 is refused. *)
Lemma rsa_client_key_recv_rejects_empty_witness :
  exists e st',
    forall decrypt,
      s2n_rsa_client_key_recv Examples.example_random decrypt (B_local 0)
        Examples.st_tls12_empty = (Err e, st').
Proof.
  exact (rsa_client_key_recv_rejects_empty Examples.example_random (B_local 0) blob_zero
           Examples.st_tls12_empty
           (snd (read_length S_handshake_io Examples.st_tls12_empty))
           eq_refl eq_refl eq_refl).
Defined.

(** The ciphertext length that s2n_rsa_client_key_recv computes. For
    SSLv3 it is the number of bytes left in the handshake buffer as the
    uint16_t variable holds it, which is all the bytes left whenever
    fewer than 65536 are left, and nothing has been consumed; for every
    other version it is the 16-bit big-endian prefix at the read cursor,
    which is consumed, and if it exceeds the number of bytes left after
    the prefix the handler fails with a bad-message error without reaching
    the decrypt operation. *)
Lemma rsa_client_key_recv_length {W}
    (rnd : state W -> result (nat -> Z) * W) sk b st length st2 :
  get_blob st sk = Some b ->
  handshake_async_state (conn st) = S2N_ASYNC_NOT_INVOKED ->
  stuffer_typed (handshake_io (conn st)) ->
  read_length S_handshake_io st = (Ok length, st2) ->
  if bool_decide (actual_protocol_version (conn st) = S2N_SSLv3)
  then length = uint16 (data_available (handshake_io (conn st)))
       /\ st2 = st
       /\ (data_available (handshake_io (conn st)) <= UINT16_MAX ->
           length = data_available (handshake_io (conn st)))
  else s2n_stuffer_read_uint16 S_handshake_io st = (Ok length, st2)
       /\ (exists d0 d1,
             load st (ptr_add (data (blob (handshake_io (conn st))))
                        (read_cursor (handshake_io (conn st)))) 2 = Some [d0; d1]
             /\ length = uint16 (Z.lor (Z.shiftl d0 8) d1))
       /\ data_available (handshake_io (conn st2))
          = data_available (handshake_io (conn st)) - 2
       /\ (data_available (handshake_io (conn st2)) < length ->
           forall decrypt,
             fst (s2n_rsa_client_key_recv rnd decrypt sk st) = Err S2N_ERR_BAD_MESSAGE).
Proof.
  intros Hb Ha Hty Hlen.
  destruct (decide (actual_protocol_version (conn st) = S2N_SSLv3)) as [Hv3|Hv3].
  - rewrite (bool_decide_eq_true_2 _ Hv3).
    unfold read_length in Hlen. unfold_rsa_recv.
    rewrite (bool_decide_eq_true_2 _ Hv3) in Hlen. simplify_eq.
    split; [done|]. split; [done|].
    intros Hle. unfold uint16. apply Z.mod_small.
    unfold data_available, uint32 in *.
    pose proof (Z.mod_pos_bound
      (write_cursor (handshake_io (conn st2)) - read_cursor (handshake_io (conn st2)))
      4294967296 ltac:(lia)).
    unfold UINT16_MAX in Hle. lia.
  - rewrite (bool_decide_eq_false_2 _ Hv3).
    assert (s2n_stuffer_read_uint16 S_handshake_io st = (Ok length, st2)) as Hrd.
    { unfold read_length in Hlen. rewrite run_bind in Hlen. cbn in Hlen.
      now rewrite (bool_decide_eq_false_2 _ Hv3) in Hlen. }
    split; [exact Hrd|].
    destruct Hty as ((Hrc0 & Hrw) & Hws & Hsz). unfold UINT32_MAX in Hsz.
    assert (data_available (handshake_io (conn st))
            = write_cursor (handshake_io (conn st)) - read_cursor (handshake_io (conn st)))
      as Hav by (unfold data_available, uint32; apply Z.mod_small; lia).
    destruct (read_uint16_io_inv _ _ _ (conj (conj Hrc0 Hrw) (conj Hws Hsz)) Hrd)
      as (Hge & Hst2 & Hld).
    split; [exact Hld|].
    assert (data_available (handshake_io (conn st2))
            = data_available (handshake_io (conn st)) - 2) as Hav2.
    { rewrite Hst2, Hav. cbn. unfold data_available, uint32. cbn.
      rewrite Z.mod_small by lia. lia. }
    split; [exact Hav2|].
    intros Hbad decrypt.
    rewrite rsa_recv_decompose.
    destruct (until_from_length rnd _ _ _ _ _ Hb Ha Hlen) as (st3 & Hio3 & ->).
    unfold rsa_recv_after_length. unfold_prims. cbn [negb].
    rewrite Hio3. apply Z.ltb_lt in Hbad. rewrite Hbad. reflexivity.
Qed.

(** A TLS 1.2 message that announces 9 bytes and carries 1. *)
Lemma rsa_client_key_recv_length_witness :
  s2n_stuffer_read_uint16 S_handshake_io Examples.st_tls12_short
  = (Ok 9, snd (read_length S_handshake_io Examples.st_tls12_short))
  /\ (exists d0 d1,
        load Examples.st_tls12_short (Ptr (R_heap 0) 0) 2 = Some [d0; d1]
        /\ 9 = uint16 (Z.lor (Z.shiftl d0 8) d1))
  /\ 1 = 3 - 2
  /\ (1 < 9 ->
      forall decrypt,
        fst (s2n_rsa_client_key_recv Examples.example_random decrypt (B_local 0)
               Examples.st_tls12_short) = Err S2N_ERR_BAD_MESSAGE).
Proof.
  refine (rsa_client_key_recv_length Examples.example_random (B_local 0) blob_zero
            Examples.st_tls12_short 9
            (snd (read_length S_handshake_io Examples.st_tls12_short))
            eq_refl eq_refl _ eq_refl).
  refine (bool_decide_unpack _ _). vm_compute. exact I.
Defined.

(** C5: on an SSLv3 connection whose handshake buffer holds a message of
    65536 bytes, none of them read, the handler does not take all the
    bytes that remain as the ciphertext: the length it computes is 0, the
    low 16 bits of 65536, and it fails with the safety error of an empty
    ciphertext without reaching the decrypt operation. *)
Theorem rsa_client_key_recv_sslv3_65536_bytes :
  actual_protocol_version (conn Examples.st_sslv3_64k) = S2N_SSLv3
  /\ data_available (handshake_io (conn Examples.st_sslv3_64k)) = 65536
  /\ read_length S_handshake_io Examples.st_sslv3_64k = (Ok 0, Examples.st_sslv3_64k)
  /\ forall decrypt,
       fst (s2n_rsa_client_key_recv Examples.example_random decrypt (B_local 0)
              Examples.st_sslv3_64k) = Err S2N_ERR_SAFETY.
Proof.
  split; [reflexivity|]. split; [reflexivity|]. split; [reflexivity|].
  intros decrypt. rewrite rsa_recv_decompose.
  destruct (rsa_recv_until_decrypt Examples.example_random (B_local 0)
              Examples.st_sslv3_64k) as [r s] eqn:E.
  apply (f_equal fst) in E. vm_compute in E. now subst r.
Qed.

(** ** The RSA path: sending *)

Ltac unfold_write_prims :=
  unfold s2n_stuffer_write_uint16, s2n_stuffer_raw_write, s2n_stuffer_skip_write,
    s2n_stuffer_reserve_space, s2n_stuffer_resize, mem_extend, mem_malloc,
    memcpy_check_array, s2n_pkey_encrypt in *;
  unfold_prims.

Section StufferWrite.
Context {W : Type}.
Variable malloc : W -> Z -> bool.
Implicit Types st : state W.

Lemma stuffer_valid_inv st s :
  stuffer_valid st s = true ->
  stuffer_typed s
  /\ ((data (blob s) = NULL /\ size (blob s) = 0 /\ stuffer_region st s = [])
      \/ exists a bs, data (blob s) = Ptr (R_heap a) 0
                      /\ heap st !! a = Some (Live bs)
                      /\ zlen bs = size (blob s)
                      /\ stuffer_region st s = bs).
Proof.
  unfold stuffer_valid, stuffer_region. intros H.
  apply andb_prop in H as [Ht H]. apply bool_decide_eq_true in Ht.
  split; [exact Ht|].
  destruct (data (blob s)) as [|[|a] off]; [|discriminate|].
  - left. apply bool_decide_eq_true in H. done.
  - right. cbn. destruct (heap st !! a) as [[bs|]|] eqn:E; try discriminate.
    apply bool_decide_eq_true in H as [-> H]. eauto 10.
Qed.

Lemma stuffer_valid_cell st s a bs :
  stuffer_typed s ->
  data (blob s) = Ptr (R_heap a) 0 ->
  heap st !! a = Some (Live bs) ->
  zlen bs = size (blob s) ->
  stuffer_valid st s = true /\ stuffer_region st s = bs.
Proof.
  intros Ht Hd Hh Hz. unfold stuffer_valid, stuffer_region. rewrite Hd. cbn.
  rewrite Hh. cbn. rewrite !bool_decide_eq_true_2 by done. done.
Qed.

Lemma skip_write_io_inv n st st' :
  stuffer_valid st (handshake_io (conn st)) = true ->
  0 <= n <= UINT32_MAX ->
  s2n_stuffer_skip_write malloc S_handshake_io n st = (Ok tt, st') ->
  stuffer_valid st' (handshake_io (conn st')) = true
  /\ write_cursor (handshake_io (conn st')) = write_cursor (handshake_io (conn st)) + n
  /\ (exists pad, stuffer_region st' (handshake_io (conn st'))
                  = stuffer_region st (handshake_io (conn st)) ++ pad)
  /\ rsa_premaster_secret (conn st') = rsa_premaster_secret (conn st)
  /\ actual_protocol_version (conn st') = actual_protocol_version (conn st)
  /\ world st' = world st
  /\ (forall p, get_blob st' p = get_blob st p).
Proof.
  intros Hv Hn H.
  destruct (stuffer_valid_inv _ _ Hv) as (((Hr0 & Hrw) & Hws & Hsz) & Hcell).
  unfold UINT32_MAX in *.
  destruct st as [c h bl sl w]. cbn [conn] in *.
  assert (space_remaining (handshake_io c)
          = size (blob (handshake_io c)) - write_cursor (handshake_io c)) as Hsp
    by (unfold space_remaining, uint32; apply Z.mod_small; lia).
  unfold_write_prims. cbn [conn] in *. rewrite Hsp in *.
  repeat (case_match; simplify_eq; cbn [negb] in * ).
  all: proj_simpl.
  all: repeat match goal with
       | H : (_ <? _) = true |- _ => apply Z.ltb_lt in H
       | H : (_ <? _) = false |- _ => apply Z.ltb_ge in H
       end.
  all: unfold UINT32_MAX, S2N_MIN_STUFFER_GROWTH_IN_BYTES in *.
  all: assert (uint32 (write_cursor (handshake_io c) + n)
               = write_cursor (handshake_io c) + n) as Hwc;
    [ unfold uint32 in *; apply Z.mod_small;
      try rewrite (Z.mod_small (n - _)) in * by lia; lia | rewrite Hwc ].
  - (* the stuffer had no storage *)
    destruct Hcell as [(Hd & Hs0 & Hreg) | (a & bs & Hd & _)]; [|congruence].
    rewrite Hreg.
    match goal with |- stuffer_valid ?st ?s = true /\ _ =>
      match st with context [Live ?bs'] =>
        destruct (stuffer_valid_cell st s (length h) bs') as [Hc1 Hc2]
      end
    end.
    + unfold stuffer_typed, uint32, UINT32_MAX in *. proj_simpl.
      rewrite (Z.mod_small (n - _)) in * by lia. lia.
    + reflexivity.
    + proj_simpl. rewrite lookup_app_r by lia. now rewrite Nat.sub_diag.
    + proj_simpl. unfold zlen. rewrite length_replicate. lia.
    + split; [exact Hc1|]. split; [reflexivity|].
      split; [eexists; rewrite Hc2; reflexivity|].
      split; [reflexivity|]. split; [reflexivity|]. split; [reflexivity|].
      intros []; reflexivity.
  - (* the storage is extended *)
    destruct Hcell as [(Hd & _) | (a & bs & Hd & Hh & Hz & Hreg)]; [congruence|].
    rewrite Hreg.
    match goal with H : data _ = Ptr ?r ?off |- _ =>
      rewrite Hd in H; injection H as <- <- end.
    match goal with H : load _ _ _ = Some _ |- _ =>
      rewrite <- Hz, (load_whole_cell (mk_state c h bl sl w) a bs Hh) in H;
      injection H as <- end.
    match goal with |- stuffer_valid ?st ?s = true /\ _ =>
      match st with context [set_region_bytes _ ?bs' _] =>
        destruct (stuffer_valid_cell st s a bs') as [Hc1 Hc2]
      end
    end.
    + unfold stuffer_typed, uint32, UINT32_MAX in *. proj_simpl.
      rewrite (Z.mod_small (n - _)) in * by lia. lia.
    + reflexivity.
    + proj_simpl. apply list_lookup_insert_eq. now apply lookup_lt_Some in Hh.
    + proj_simpl. unfold zlen in *. rewrite length_app, length_replicate. lia.
    + split; [exact Hc1|]. split; [reflexivity|].
      split; [eexists; rewrite Hc2; reflexivity|].
      split; [reflexivity|]. split; [reflexivity|]. split; [reflexivity|].
      intros []; reflexivity.
  - (* there is room *)
    split.
    { unfold stuffer_valid in *. proj_simpl.
      apply andb_prop in Hv as [_ Hv2]. rewrite Hv2, andb_true_r.
      apply bool_decide_eq_true_2. unfold stuffer_typed, UINT32_MAX. proj_simpl. lia. }
    split; [reflexivity|].
    split; [exists []; now rewrite app_nil_r|].
    split; [reflexivity|]. split; [reflexivity|]. split; [reflexivity|].
    intros []; reflexivity.
Qed.

Lemma mem_write_io_inv off new st st' :
  stuffer_valid st (handshake_io (conn st)) = true ->
  mem_write (ptr_add (data (blob (handshake_io (conn st)))) off) new st = (Ok tt, st') ->
  handshake_io (conn st') = handshake_io (conn st)
  /\ stuffer_valid st' (handshake_io (conn st')) = true
  /\ stuffer_region st' (handshake_io (conn st'))
     = splice (stuffer_region st (handshake_io (conn st))) (Z.to_nat off) new
  /\ 0 <= off
  /\ off + zlen new <= zlen (stuffer_region st (handshake_io (conn st)))
  /\ rsa_premaster_secret (conn st') = rsa_premaster_secret (conn st)
  /\ actual_protocol_version (conn st') = actual_protocol_version (conn st)
  /\ world st' = world st
  /\ (forall p, get_blob st' p = get_blob st p).
Proof.
  intros Hv H.
  destruct (stuffer_valid_inv _ _ Hv) as (Hty & Hcell).
  destruct st as [c h bl sl w]. proj_simpl.
  destruct Hcell as [(Hd & _) | (a & bs & Hd & Hh & Hz & Hreg)].
  { rewrite Hd in H. discriminate H. }
  rewrite Hd in H. unfold mem_write, store in H. cbn [ptr_add] in H. proj_simpl.
  rewrite Hh in H.
  case_bool_decide as Hb; [|discriminate]. injection H as <-. proj_simpl.
  rewrite Hreg. rewrite Z.add_0_l in *.
  destruct (stuffer_valid_cell
              (set_heap (<[a:=Live (splice bs (Z.to_nat off) new)]> h) (mk_state c h bl sl w))
              (handshake_io c) a (splice bs (Z.to_nat off) new)) as [Hc1 Hc2];
    [exact Hty | exact Hd | | | ].
  - proj_simpl. apply list_lookup_insert_eq. now apply lookup_lt_Some in Hh.
  - unfold zlen in *. rewrite length_splice; lia.
  - repeat split; try assumption; try reflexivity; try lia.
Qed.

Lemma stuffer_content_grow st st' (s s' : s2n_stuffer) pad :
  stuffer_region st' s' = stuffer_region st s ++ pad ->
  0 <= write_cursor s <= zlen (stuffer_region st s) ->
  take (Z.to_nat (write_cursor s)) (stuffer_region st' s') = stuffer_content st s.
Proof.
  intros -> H. unfold stuffer_content. apply take_app_le. unfold zlen in H. lia.
Qed.

Lemma stuffer_valid_length st s :
  stuffer_valid st s = true -> zlen (stuffer_region st s) = size (blob s).
Proof.
  intros Hv. destruct (stuffer_valid_inv _ _ Hv) as (_ & [(_ & -> & ->)|(a & bs & _ & _ & Hz & ->)]).
  - reflexivity.
  - exact Hz.
Qed.

Lemma write_uint16_io_inv u st st' :
  stuffer_valid st (handshake_io (conn st)) = true ->
  s2n_stuffer_write_uint16 malloc S_handshake_io u st = (Ok tt, st') ->
  stuffer_valid st' (handshake_io (conn st')) = true
  /\ write_cursor (handshake_io (conn st')) = write_cursor (handshake_io (conn st)) + 2
  /\ stuffer_content st' (handshake_io (conn st'))
     = stuffer_content st (handshake_io (conn st)) ++ [uint8 (Z.shiftr u 8); uint8 u]
  /\ rsa_premaster_secret (conn st') = rsa_premaster_secret (conn st)
  /\ actual_protocol_version (conn st') = actual_protocol_version (conn st)
  /\ world st' = world st
  /\ (forall p, get_blob st' p = get_blob st p).
Proof.
  intros Hv H. unfold s2n_stuffer_write_uint16 in H.
  apply bind_ok_inv in H as ([] & s1 & Hskip & H).
  apply (skip_write_io_inv 2 _ _ Hv) in Hskip
    as (Hv1 & Hwc1 & (pad & Hreg1) & Hpm1 & Hver1 & Hw1 & Hb1); [|unfold UINT32_MAX; lia].
  apply bind_ok_inv in H as (s & s1' & Hd & H).
  unfold deref_stuffer, access in Hd. cbn in Hd. injection Hd as <- <-.
  unfold memcpy_check_array in H. rewrite bool_decide_eq_false_2 in H by done.
  apply bind_ok_inv in H as ([] & s2 & Hnn & H).
  unfold notnull_check, S2N_ERROR_IF in Hnn. case_bool_decide; [discriminate|].
  injection Hnn as <-.
  replace (write_cursor (handshake_io (conn s1)) - 2)
    with (write_cursor (handshake_io (conn st))) in H by lia.
  apply (mem_write_io_inv _ _ _ _ Hv1) in H
    as (Hio2 & Hv2 & Hreg2 & Hoff & Hfit & Hpm2 & Hver2 & Hw2 & Hb2).
  pose proof (stuffer_valid_length _ _ Hv) as Hlen.
  destruct (stuffer_valid_inv _ _ Hv) as (((Hr0 & Hrw) & Hws & Hsz) & _).
  split; [exact Hv2|]. split; [rewrite Hio2; exact Hwc1|].
  split.
  { unfold stuffer_content. rewrite Hreg2, Hio2, Hwc1.
    replace (Z.to_nat (write_cursor (handshake_io (conn st)) + 2))
      with (Z.to_nat (write_cursor (handshake_io (conn st)))
            + length [uint8 (Z.shiftr u 8); uint8 u])%nat
      by (cbn [length]; lia).
    rewrite take_splice by (rewrite Hreg1, length_app; unfold zlen in Hlen; lia).
    f_equal. rewrite Hreg1. apply take_app_le. unfold zlen in Hlen. lia. }
  split; [congruence|]. split; [congruence|]. split; [congruence|].
  intros p. now rewrite Hb2, Hb1.
Qed.

Lemma raw_write_io_inv n d st st' :
  stuffer_valid st (handshake_io (conn st)) = true ->
  0 <= n <= UINT32_MAX ->
  s2n_stuffer_raw_write malloc S_handshake_io n st = (Ok d, st') ->
  d <> NULL ->
  stuffer_valid st' (handshake_io (conn st')) = true
  /\ write_cursor (handshake_io (conn st')) = write_cursor (handshake_io (conn st)) + n
  /\ d = ptr_add (data (blob (handshake_io (conn st'))))
            (write_cursor (handshake_io (conn st)))
  /\ (exists pad, stuffer_region st' (handshake_io (conn st'))
                  = stuffer_region st (handshake_io (conn st)) ++ pad)
  /\ rsa_premaster_secret (conn st') = rsa_premaster_secret (conn st)
  /\ actual_protocol_version (conn st') = actual_protocol_version (conn st)
  /\ world st' = world st
  /\ (forall p, get_blob st' p = get_blob st p).
Proof.
  intros Hv Hn H Hd. unfold s2n_stuffer_raw_write, GUARD_PTR in H.
  destruct (s2n_stuffer_skip_write malloc S_handshake_io n st) as [[[]| |] s1] eqn:Hskip;
    [|injection H as <- _; done|discriminate].
  apply (skip_write_io_inv n _ _ Hv Hn) in Hskip
    as (Hv1 & Hwc1 & Hreg1 & Hpm1 & Hver1 & Hw1 & Hb1).
  unfold_prims. injection H as <- <-. proj_simpl.
  split; [exact Hv1|]. split; [exact Hwc1|].
  split; [f_equal; lia|].
  split; [exact Hreg1|]. split; [exact Hpm1|]. split; [exact Hver1|].
  split; [exact Hw1|]. intros p. rewrite <- Hb1. now destruct p.
Qed.

Lemma pkey_encrypt_io_inv (enc : list Z -> Z -> state W -> result (list Z) * W)
    sk off n st st' :
  stuffer_valid st (handshake_io (conn st)) = true ->
  s2n_pkey_encrypt enc sk
    {| data := ptr_add (data (blob (handshake_io (conn st)))) off; size := n;
       allocated := 0; growable := false |} st = (Ok tt, st') ->
  exists ct,
    zlen ct = n
    /\ handshake_io (conn st') = handshake_io (conn st)
    /\ stuffer_valid st' (handshake_io (conn st')) = true
    /\ stuffer_region st' (handshake_io (conn st'))
       = splice (stuffer_region st (handshake_io (conn st))) (Z.to_nat off) ct
    /\ 0 <= off
    /\ off + n <= zlen (stuffer_region st (handshake_io (conn st)))
    /\ rsa_premaster_secret (conn st') = rsa_premaster_secret (conn st).
Proof.
  intros Hv H. unfold s2n_pkey_encrypt in H.
  apply bind_ok_inv in H as (b & s1 & Hb & H).
  unfold deref, access in Hb. destruct (get_blob st sk) as [b0|]; [|discriminate].
  injection Hb as <- <-.
  apply bind_ok_inv in H as (pt & s1 & Hpt & H).
  unfold mem_read, access in Hpt.
  destruct (load st (data b0) (size b0)) as [pt0|]; [|discriminate].
  injection Hpt as <- <-.
  apply bind_ok_inv in H as (ct & s2 & Hct & H).
  unfold extern in Hct. proj_simpl.
  destruct (enc pt0 n st) as [[ct'| |] w'] eqn:Henc; try discriminate.
  injection Hct as <- <-.
  apply bind_ok_inv in H as ([] & s3 & Hsz & H).
  unfold S2N_ERROR_IF in Hsz. case_bool_decide as Hz; [discriminate|].
  injection Hsz as <-.
  apply (mem_write_io_inv off ct' (set_world w' st) st' Hv) in H
    as (Hio2 & Hv2 & Hreg2 & Hoff & Hfit & Hpm2 & Hver2 & Hw2 & Hb2).
  assert (forall s, stuffer_region (set_world w' st) s = stuffer_region st s) as Hsr
    by reflexivity.
  rewrite Hsr in *. proj_simpl.
  exists ct'. repeat split; try assumption. lia.
Qed.

End StufferWrite.

Section RsaSend.
Context {W : Type}.
Variable malloc : W -> Z -> bool.
Variable rnd : state W -> result (nat -> Z) * W.
Variable pkey_size : state W -> result Z * W.
Variable enc : list Z -> Z -> state W -> result (list Z) * W.
Variable pfree : state W -> result unit * W.
Implicit Types st : state W.

(** The handler is its first part, the size check and its second part. *)
Lemma rsa_send_decompose sk st :
  s2n_rsa_client_key_send malloc rnd pkey_size enc pfree sk st =
  match rsa_send_until_size rnd sk st with
  | (Ok _, st1) =>
      match pkey_size st1 with
      | (Ok n0, w) =>
          if 65535 <? uint32 n0
          then (Err S2N_ERR_SIZE_MISMATCH, set_world w st1)
          else rsa_send_from_size malloc enc pfree sk (uint32 n0) (set_world w st1)
      | (Err e, w) => (Err e, set_world w st1)
      | (Crash, w) => (Crash, set_world w st1)
      end
  | (Err e, st1) => (Err e, st1)
  | (Crash, st1) => (Crash, st1)
  end.
Proof.
  transitivity
    ((rsa_send_until_size rnd sk ≫= fun _ =>
        encrypted_size ← extern pkey_size;
        S2N_ERROR_IF (65535 <? uint32 encrypted_size) S2N_ERR_SIZE_MISMATCH;;
        rsa_send_from_size malloc enc pfree sk (uint32 encrypted_size)) st).
  - unfold s2n_rsa_client_key_send, rsa_send_until_size.
    repeat (rewrite run_bind_assoc; apply run_bind_ext; intros; cbv beta).
    reflexivity.
  - rewrite run_bind.
    destruct (rsa_send_until_size rnd sk st) as [[[]| |] st1]; try reflexivity.
    rewrite run_bind. unfold extern.
    destruct (pkey_size st1) as [[n0| |] w]; try reflexivity.
    rewrite run_bind. unfold S2N_ERROR_IF.
    destruct (65535 <? uint32 n0); reflexivity.
Qed.

Lemma store_premaster_frame st off new st' :
  store st (Ptr R_rsa_premaster_secret off) new = Some st' ->
  handshake_io (conn st') = handshake_io (conn st)
  /\ heap st' = heap st
  /\ actual_protocol_version (conn st') = actual_protocol_version (conn st)
  /\ world st' = world st
  /\ (forall p, get_blob st' p = get_blob st p).
Proof.
  unfold store. proj_simpl. case_bool_decide; [|discriminate].
  intros [= <-]. repeat split.
Qed.

Lemma rsa_send_until_size_frame sk st st1 :
  rsa_send_until_size rnd sk st = (Ok tt, st1) ->
  handshake_io (conn st1) = handshake_io (conn st)
  /\ heap st1 = heap st
  /\ actual_protocol_version (conn st1) = actual_protocol_version (conn st).
Proof.
  intros H. unfold rsa_send_until_size, memcpy_check_array in H. unfold_prims.
  repeat (case_match; simplify_eq).
  all: match goal with Hput : put_blob _ _ _ = Some _ |- _ =>
         pose proof (put_blob_frame _ _ _ _ Hput)
           as (Hh & Hw & Hs & Hio & Hpm & Hv & Hcp & Hch & Has & Hg) end.
  all: repeat match goal with Hget : get_blob _ _ = Some _ |- _ =>
         progress rewrite ?get_blob_io_frame, ?get_blob_world_frame in Hget end.
  all: simplify_eq.
  all: proj_simpl.
  all: repeat match goal with Hst : store _ (Ptr R_rsa_premaster_secret _) _ = Some _ |- _ =>
         apply store_premaster_frame in Hst as (? & ? & ? & ? & ?) end.
  all: proj_simpl.
  all: repeat split; congruence.
Qed.

Lemma rsa_send_until_size_inv sk st st1 :
  zlen (rsa_premaster_secret (conn st)) = S2N_TLS_SECRET_LEN ->
  rsa_send_until_size rnd sk st = (Ok tt, st1) ->
  exists st_r f,
    world st_r = world st
    /\ rnd st_r = (Ok f, world st1)
    /\ rsa_premaster_secret (conn st1)
       = wire_version (uint8 (get_client_hello_protocol_version (conn st)))
         ++ drop 2 ((fun i => uint8 (f i)) <$> seq 0 48).
Proof.
  intros Ht H. unfold rsa_send_until_size, memcpy_check_array in H. unfold_prims.
  repeat (case_match; simplify_eq).
  all: match goal with Hput : put_blob _ _ _ = Some _ |- _ =>
         pose proof (put_blob_frame _ _ _ _ Hput)
           as (Hh & Hw & Hs & Hio & Hpm & Hv & Hcp & Hch & Has & Hg) end.
  all: repeat match goal with Hget : get_blob _ _ = Some _ |- _ =>
         progress rewrite ?get_blob_io_frame, ?get_blob_world_frame in Hget end.
  all: simplify_eq.
  all: proj_simpl.
  match goal with Hst : store (set_world ?w ?s1) _ ?new = Some _ |- _ =>
    assert (zlen new = zlen (rsa_premaster_secret (conn (set_world w s1)))) as Hz
      by (cbn [conn set_world rsa_premaster_secret]; rewrite Hpm, Ht; unfold zlen;
          now rewrite length_fmap, length_seq);
    rewrite (store_premaster _ _ Hz) in Hst;
    injection Hst as <- end.
  match goal with Hst : store _ _ _ = Some _ |- _ =>
    unfold store in Hst; proj_simpl;
    destruct (bool_decide _) in Hst; [|discriminate Hst];
    injection Hst as <- end.
  do 2 eexists. split; [|split; [eassumption|]]; [proj_simpl; congruence|].
  reflexivity.
Qed.

Lemma uint16_big_endian n :
  0 <= n <= 65535 ->
  [uint8 (Z.shiftr (uint16 n) 8); uint8 (uint16 n)] = [n / 256; n mod 256].
Proof.
  intros H. unfold uint16. rewrite (Z.mod_small n 65536) by lia.
  rewrite Z.shiftr_div_pow2 by lia. change (2 ^ 8) with 256.
  unfold uint8. f_equal. apply Z.mod_small.
  split; [apply Z.div_pos; lia | apply Z.div_lt_upper_bound; lia].
Qed.

Lemma rsa_send_from_size_inv sk n st st' :
  stuffer_valid st (handshake_io (conn st)) = true ->
  0 <= n <= 65535 ->
  rsa_send_from_size malloc enc pfree sk n st = (Ok tt, st') ->
  rsa_premaster_secret (conn st') = rsa_premaster_secret (conn st)
  /\ exists ct,
       zlen ct = n
       /\ stuffer_content st' (handshake_io (conn st'))
          = stuffer_content st (handshake_io (conn st))
            ++ (if S2N_SSLv3 <? actual_protocol_version (conn st)
                then [n / 256; n mod 256] else [])
            ++ ct.
Proof.
  intros Hv Hn H. unfold rsa_send_from_size in H.
  apply bind_ok_inv in H as (v & s0 & Hg & H).
  unfold gets in Hg. injection Hg as <- <-.
  apply bind_ok_inv in H as ([] & s1 & Hpre & H).
  assert (stuffer_valid s1 (handshake_io (conn s1)) = true
          /\ stuffer_content s1 (handshake_io (conn s1))
             = stuffer_content st (handshake_io (conn st))
               ++ (if S2N_SSLv3 <? actual_protocol_version (conn st)
                   then [n / 256; n mod 256] else [])
          /\ rsa_premaster_secret (conn s1) = rsa_premaster_secret (conn st))
    as (Hv1 & Hc1 & Hpm1).
  { destruct (S2N_SSLv3 <? actual_protocol_version (conn st)).
    - apply (write_uint16_io_inv malloc _ _ _ Hv) in Hpre
        as (Hv1 & _ & Hc1 & Hpm1 & _).
      rewrite uint16_big_endian in Hc1 by exact Hn. done.
    - injection Hpre as <-. rewrite app_nil_r. done. }
  clear Hpre.
  apply bind_ok_inv in H as (d & s2 & Hraw & H).
  apply bind_ok_inv in H as ([] & s2' & Hnn & H).
  unfold notnull_check, S2N_ERROR_IF in Hnn. proj_simpl.
  case_bool_decide as Hd; [discriminate|]. injection Hnn as <-.
  apply (raw_write_io_inv malloc n d _ _ Hv1) in Hraw
    as (Hv2 & Hwc2 & Hdp & (pad & Hreg2) & Hpm2 & _); [|unfold UINT32_MAX; lia|exact Hd].
  apply bind_ok_inv in H as ([] & s3 & Henc & H).
  rewrite Hdp in Henc.
  apply (pkey_encrypt_io_inv enc sk _ n _ _ Hv2) in Henc
    as (ct & Hct & Hio3 & Hv3 & Hreg3 & Hoff & Hfit & Hpm3).
  apply bind_ok_inv in H as ([] & s4 & Hfree & H).
  unfold extern in Hfree. destruct (pfree s3) as [[[]| |] w']; try discriminate.
  injection Hfree as <-. injection H as <-.
  split; [proj_simpl; congruence|].
  exists ct. split; [exact Hct|].
  change (stuffer_content (set_world w' s3) (handshake_io (conn (set_world w' s3))))
    with (stuffer_content s3 (handshake_io (conn s3))).
  rewrite app_assoc, <- Hc1.
  unfold stuffer_content. rewrite Hreg3, Hio3, Hwc2.
  pose proof (stuffer_valid_length _ _ Hv1) as Hlen1.
  destruct (stuffer_valid_inv _ _ Hv1) as (((Hr0 & Hrw) & Hws & Hsz) & _).
  replace (Z.to_nat (write_cursor (handshake_io (conn s1)) + n))
    with (Z.to_nat (write_cursor (handshake_io (conn s1))) + length ct)%nat
    by (unfold zlen in Hct; lia).
  rewrite take_splice by (rewrite Hreg2, length_app; unfold zlen in Hlen1; lia).
  f_equal. rewrite Hreg2. apply take_app_le. unfold zlen in Hlen1. lia.
Qed.

End RsaSend.

Section Transport.
Context {W : Type}.
Implicit Types st : state W.

Lemma stuffer_valid_ext st st' s :
  heap st' = heap st -> stuffer_valid st' s = stuffer_valid st s.
Proof. intros H. unfold stuffer_valid. now rewrite H. Qed.

Lemma stuffer_content_ext st st' s :
  heap st' = heap st ->
  stuffer_valid st s = true ->
  stuffer_content st' s = stuffer_content st s.
Proof.
  intros H Hv. unfold stuffer_content, stuffer_region.
  destruct (stuffer_valid_inv _ _ Hv) as (_ & [(-> & _)|(a & bs & -> & _)]); [done|].
  cbn. now rewrite H.
Qed.

End Transport.

(** C8: once s2n_rsa_client_key_send has prepared the premaster secret and
    the public key of the peer has reported the size of its ciphertexts,
    the handler fails with a size-mismatch error, the handshake buffer
    untouched, whenever that size exceeds 0xffff; otherwise, if it
    succeeds, what it has appended to the handshake buffer is the
    ciphertext, preceded by the two bytes of its length (most significant
    first) exactly when the protocol version is newer than SSLv3. *)
Theorem rsa_client_key_send_length_prefix {W}
    (malloc : W -> Z -> bool) (rnd : state W -> result (nat -> Z) * W)
    (pkey_size : state W -> result Z * W)
    (enc : list Z -> Z -> state W -> result (list Z) * W)
    (pfree : state W -> result unit * W) sk st st1 n0 w :
  stuffer_valid st (handshake_io (conn st)) = true ->
  rsa_send_until_size rnd sk st = (Ok tt, st1) ->
  pkey_size st1 = (Ok n0, w) ->
  if 65535 <? uint32 n0
  then s2n_rsa_client_key_send malloc rnd pkey_size enc pfree sk st
       = (Err S2N_ERR_SIZE_MISMATCH, set_world w st1)
       /\ handshake_io (conn st1) = handshake_io (conn st)
       /\ heap st1 = heap st
  else forall st',
       s2n_rsa_client_key_send malloc rnd pkey_size enc pfree sk st = (Ok tt, st') ->
       exists ciphertext,
         zlen ciphertext = uint32 n0
         /\ stuffer_content st' (handshake_io (conn st'))
            = stuffer_content st (handshake_io (conn st))
              ++ (if S2N_SSLv3 <? actual_protocol_version (conn st)
                  then [uint32 n0 / 256; uint32 n0 mod 256] else [])
              ++ ciphertext.
Proof.
  intros Hv Hu Hsz.
  destruct (rsa_send_until_size_frame rnd _ _ _ Hu) as (Hio & Hh & Hver).
  rewrite rsa_send_decompose, Hu, Hsz.
  destruct (65535 <? uint32 n0) eqn:Hn.
  - done.
  - intros st' H. apply Z.ltb_ge in Hn.
    assert (0 <= uint32 n0) by (unfold uint32; apply Z.mod_pos_bound; lia).
    apply rsa_send_from_size_inv in H as (_ & ct & Hct & Hc); [| |lia].
    + exists ct. split; [exact Hct|].
      rewrite Hc. proj_simpl. rewrite Hio, Hver. f_equal.
      change (stuffer_content (set_world w st1) (handshake_io (conn st)))
        with (stuffer_content st1 (handshake_io (conn st))).
      now apply stuffer_content_ext.
    + proj_simpl. rewrite Hio.
      change (stuffer_valid (set_world w st1) (handshake_io (conn st)))
        with (stuffer_valid st1 (handshake_io (conn st))).
      now rewrite (stuffer_valid_ext _ _ _ Hh).
Qed.

(** A TLS 1.2 handshake and a key of size 3: the handler appends the
    length 0, 3 and the three bytes of the ciphertext. *)
Lemma rsa_client_key_send_length_prefix_witness :
  exists ciphertext,
    zlen ciphertext = 3
    /\ stuffer_content Examples.st_tls12_sent (handshake_io (conn Examples.st_tls12_sent))
       = [0; 3; 9; 8; 7] ++ [0; 3] ++ ciphertext.
Proof.
  assert (stuffer_valid Examples.st_tls12 (handshake_io (conn Examples.st_tls12)) = true)
    as Hv by (vm_compute; reflexivity).
  assert (rsa_send_until_size Examples.example_random (B_local 0) Examples.st_tls12
          = (Ok tt, Examples.st_tls12_at_size)) as Hu by (vm_compute; reflexivity).
  assert (Examples.example_pkey_size Examples.st_tls12_at_size = (Ok 3, 1%nat))
    as Hsz by (vm_compute; reflexivity).
  assert (s2n_rsa_client_key_send Examples.example_malloc Examples.example_random
            Examples.example_pkey_size Examples.example_pkey_encrypt
            Examples.example_pkey_free (B_local 0) Examples.st_tls12
          = (Ok tt, Examples.st_tls12_sent)) as Hs by (vm_compute; reflexivity).
  pose proof (rsa_client_key_send_length_prefix Examples.example_malloc
                Examples.example_random Examples.example_pkey_size
                Examples.example_pkey_encrypt Examples.example_pkey_free
                (B_local 0) Examples.st_tls12 Examples.st_tls12_at_size 3 1%nat
                Hv Hu Hsz) as H.
  change (65535 <? uint32 3) with false in H. cbv iota in H.
  destruct (H _ Hs) as (ct & Hct & Hc).
  exists ct. split; [exact Hct|].
  rewrite Hc. reflexivity.
Defined.

(** C9: the version whose two wire bytes head the premaster secret, both
    where s2n_rsa_client_key_recv hands the secret to the decrypt
    operation and where s2n_rsa_client_key_send has finished, is the
    client hello version, unless that is SSLv2, in which case it is the
    client protocol version. *)
Theorem advertised_client_version {W}
    (malloc : W -> Z -> bool) (rnd : state W -> result (nat -> Z) * W)
    (pkey_size : state W -> result Z * W)
    (enc : list Z -> Z -> state W -> result (list Z) * W)
    (pfree : state W -> result unit * W)
    sk_r st_r encrypted st_r1 sk_s st_s st_s1 :
  conn_typed (conn st_r) ->
  (forall decrypt,
     s2n_rsa_client_key_recv rnd decrypt sk_r st_r
     = decrypt encrypted sk_r s2n_rsa_client_key_recv_complete st_r1) ->
  conn_typed (conn st_s) ->
  stuffer_valid st_s (handshake_io (conn st_s)) = true ->
  s2n_rsa_client_key_send malloc rnd pkey_size enc pfree sk_s st_s = (Ok tt, st_s1) ->
  let advertised (c : s2n_connection) :=
    if decide (client_hello_version c = S2N_SSLv2)
    then client_protocol_version c
    else client_hello_version c in
  take 2 (rsa_premaster_secret (conn st_r1))
    = [advertised (conn st_r) / 10; advertised (conn st_r) mod 10]
  /\ take 2 (rsa_premaster_secret (conn st_s1))
    = [advertised (conn st_s) / 10; advertised (conn st_s) mod 10].
Proof.
  intros Htr Hreach Hts Hv Hsend. cbn zeta.
  change (fun c => if decide (client_hello_version c = S2N_SSLv2)
                   then client_protocol_version c else client_hello_version c)
    with get_client_hello_protocol_version.
  fold (get_client_hello_protocol_version (conn st_r)).
  fold (get_client_hello_protocol_version (conn st_s)).
  split.
  - destruct (reaches_decrypt _ _ _ _ _ Hreach) as [enc' Hu].
    destruct (until_decrypt_inv _ _ _ _ _ (proj1 Htr) Hu)
      as (b & s_r & f & _ & _ & _ & _ & Hpm & _).
    destruct (wire_version_typed _ Htr) as (E1 & E2 & E3).
    rewrite E1, E2, E3 in Hpm. rewrite Hpm. reflexivity.
  - rewrite rsa_send_decompose in Hsend.
    destruct (rsa_send_until_size rnd sk_s st_s) as [[[]| |] st1] eqn:Hu; try discriminate.
    destruct (rsa_send_until_size_frame rnd _ _ _ Hu) as (Hio & Hh & Hver).
    destruct (rsa_send_until_size_inv rnd _ _ _ (proj1 Hts) Hu) as (s_r & f & _ & _ & Hpm).
    destruct (pkey_size st1) as [[n0| |] w]; try discriminate.
    destruct (65535 <? uint32 n0) eqn:Hn; [discriminate|]. apply Z.ltb_ge in Hn.
    assert (0 <= uint32 n0) by (unfold uint32; apply Z.mod_pos_bound; lia).
    apply rsa_send_from_size_inv in Hsend as (Hpm' & _); [| |lia].
    + rewrite Hpm'. proj_simpl. rewrite Hpm.
      destruct (wire_version_typed _ Hts) as (E1 & E2 & E3).
      unfold wire_version. rewrite E1, E2, E3. reflexivity.
    + proj_simpl. rewrite Hio.
      change (stuffer_valid (set_world w st1) (handshake_io (conn st_s)))
        with (stuffer_valid st1 (handshake_io (conn st_s))).
      now rewrite (stuffer_valid_ext _ _ _ Hh).
Qed.

(** An SSLv2-format hello from a client that supports TLS 1.2: the bytes
    are 3, 3 on both paths. *)
Lemma advertised_client_version_witness :
  take 2 (rsa_premaster_secret (conn Examples.st_sslv2_hello_at_decrypt)) = [3; 3]
  /\ take 2 (rsa_premaster_secret (conn Examples.st_sslv2_hello_sent)) = [3; 3].
Proof.
  assert (conn_typed (conn Examples.st_sslv2_hello)) as Ht
    by (refine (bool_decide_unpack _ _); vm_compute; exact I).
  assert (stuffer_valid Examples.st_sslv2_hello
            (handshake_io (conn Examples.st_sslv2_hello)) = true)
    as Hv by (vm_compute; reflexivity).
  assert (s2n_rsa_client_key_send Examples.example_malloc Examples.example_random
            Examples.example_pkey_size Examples.example_pkey_encrypt
            Examples.example_pkey_free (B_local 0) Examples.st_sslv2_hello
          = (Ok tt, Examples.st_sslv2_hello_sent)) as Hs by (vm_compute; reflexivity).
  exact (advertised_client_version Examples.example_malloc Examples.example_random
           Examples.example_pkey_size Examples.example_pkey_encrypt
           Examples.example_pkey_free
           (B_local 0) Examples.st_sslv2_hello Examples.st_tls12_encrypted
           Examples.st_sslv2_hello_at_decrypt
           (B_local 0) Examples.st_sslv2_hello Examples.st_sslv2_hello_sent
           Ht (fun decrypt => eq_refl) Ht Hv Hs).
Defined.

(** ** Blobs: zeroing and releasing *)

Section BlobOps.
Context {W : Type}.
Implicit Types st : state W.

Lemma blob_valid_inv st b :
  blob_valid st b = true ->
  (data b = NULL /\ size b = 0 /\ allocated b = 0)
  \/ (growable b = false /\ allocated b = 0
      /\ exists r off bs, data b = Ptr r off /\ load st (data b) (size b) = Some bs)
  \/ (growable b = true
      /\ exists a bs, data b = Ptr (R_heap a) 0 /\ heap st !! a = Some (Live bs)
                      /\ allocated b = zlen bs /\ 0 <= size b <= allocated b
                      /\ 0 < allocated b).
Proof.
  unfold blob_valid. destruct (data b) as [|r off] eqn:Hd.
  - intros H. apply bool_decide_eq_true in H. left. tauto.
  - destruct (growable b).
    + destruct r as [|a]; [discriminate|].
      destruct (heap st !! a) as [[bs|]|] eqn:Hh; try discriminate.
      intros H. apply bool_decide_eq_true in H as (-> & ? & ? & ?).
      right. right. split; [done|]. exists a, bs. done.
    + intros H. apply bool_decide_eq_true in H as (? & [bs Hl]).
      right. left. split; [done|]. split; [done|]. exists r, off, bs. done.
Qed.

(** Writing where one can read. *)
Lemma store_after_load st p n bs new :
  load st p n = Some bs -> zlen new = n ->
  exists st1,
    store st p new = Some st1
    /\ load st1 p n = Some new
    /\ world st1 = world st
    /\ live_cells (heap st1) = live_cells (heap st)
    /\ blobs st1 = blobs st
    /\ stuffers st1 = stuffers st
    /\ (forall q, get_blob st1 q = get_blob st q).
Proof.
  unfold load, store. destruct p as [|r off]; [discriminate|].
  destruct (region_bytes st r) as [cs|] eqn:Hr; [|discriminate].
  case_bool_decide as Hb; [|discriminate]. intros _ Hn.
  rewrite bool_decide_eq_true_2 by lia.
  eexists. split; [reflexivity|].
  assert (length (splice cs (Z.to_nat off) new) = length cs) as Hlen
    by (apply length_splice; unfold zlen in *; lia).
  assert (take (Z.to_nat n) (drop (Z.to_nat off) (splice cs (Z.to_nat off) new)) = new)
    as Htake.
  { unfold splice. rewrite drop_app_length' by (rewrite length_take; unfold zlen in *; lia).
    apply take_app_length'. unfold zlen in *. lia. }
  destruct r as [|a]; proj_simpl.
  - rewrite bool_decide_eq_true_2 by (unfold zlen in *; lia).
    rewrite Htake. repeat split.
  - destruct (heap st !! a) as [[cs'|]|] eqn:Hh; try discriminate.
    injection Hr as ->.
    rewrite list_lookup_insert_eq by (now apply lookup_lt_Some in Hh).
    rewrite bool_decide_eq_true_2 by (unfold zlen in *; lia).
    rewrite Htake. repeat split.
    unfold live_cells. rewrite list_fmap_insert. apply list_insert_id.
    now rewrite list_lookup_fmap, Hh.
Qed.

Lemma blob_zero_empty p b st :
  get_blob st p = Some b -> size b = 0 -> allocated b = 0 ->
  s2n_blob_zero p st = (Ok tt, st).
Proof.
  intros Hp Hs Ha. unfold s2n_blob_zero.
  rewrite (run_bind_ok _ _ st b st) by (unfold deref; now rewrite Hp).
  rewrite Hs, Ha. reflexivity.
Qed.

Lemma blob_zero_view p b bs st :
  get_blob st p = Some b -> allocated b = 0 ->
  load st (data b) (size b) = Some bs ->
  exists st1,
    s2n_blob_zero p st = (Ok tt, st1)
    /\ load st1 (data b) (size b) = Some (replicate (Z.to_nat (size b)) 0)
    /\ world st1 = world st
    /\ live_cells (heap st1) = live_cells (heap st)
    /\ (forall q, get_blob st1 q = get_blob st q).
Proof.
  intros Hp Ha Hl. pose proof (load_length _ _ _ _ Hl) as Hlen.
  assert (0 <= size b) as Hs0 by (unfold zlen in Hlen; lia).
  destruct (decide (size b = 0)) as [Hs|Hs].
  - exists st. rewrite (blob_zero_empty p b st Hp Hs Ha).
    repeat split. rewrite Hl, Hs. f_equal.
    destruct bs; [done|]. unfold zlen in Hlen. cbn in Hlen. lia.
  - destruct (store_after_load st (data b) (size b) bs (replicate (Z.to_nat (size b)) 0) Hl)
      as (st1 & Hst & Hl1 & Hw & Hlive & _ & _ & Hg).
    { unfold zlen. rewrite length_replicate. lia. }
    exists st1. split; [|done].
    unfold s2n_blob_zero.
    rewrite (run_bind_ok _ _ st b st) by (unfold deref; now rewrite Hp).
    rewrite Ha, Z.max_r by lia. rewrite bool_decide_eq_false_2 by done.
    assert (data b <> NULL) as Hnn by (intros E; rewrite E in Hl; discriminate Hl).
    rewrite (run_bind_ok _ _ st tt st)
      by (unfold notnull_check; now rewrite bool_decide_eq_false_2).
    unfold mem_write. now rewrite Hst.
Qed.

Lemma blob_zero_owned p b a bs st :
  get_blob st p = Some b ->
  data b = Ptr (R_heap a) 0 -> heap st !! a = Some (Live bs) ->
  allocated b = zlen bs -> 0 <= size b <= allocated b -> 0 < allocated b ->
  s2n_blob_zero p st
  = (Ok tt, set_heap (<[a := Live (replicate (length bs) 0)]> (heap st)) st).
Proof.
  intros Hp Hd Hh Ha Hs Hpos. unfold s2n_blob_zero.
  rewrite (run_bind_ok _ _ st b st) by (unfold deref; now rewrite Hp).
  rewrite Z.max_l by lia. rewrite bool_decide_eq_false_2 by lia.
  rewrite (run_bind_ok _ _ st tt st)
    by (unfold notnull_check; rewrite Hd; now rewrite bool_decide_eq_false_2).
  unfold mem_write, store. rewrite Hd. proj_simpl. rewrite Hh.
  rewrite Ha. unfold zlen. rewrite Nat2Z.id.
  rewrite bool_decide_eq_true_2 by (rewrite length_replicate; lia).
  proj_simpl. rewrite splice_all by apply length_replicate. reflexivity.
Qed.

Lemma put_blob_heap p b st st1 :
  put_blob p b st = Some st1 -> heap st1 = heap st.
Proof. intros H. now destruct (put_blob_frame _ _ _ _ H) as (-> & _). Qed.

Lemma put_blob_other p q b st st1 :
  put_blob p b st = Some st1 -> q <> p -> get_blob st1 q = get_blob st q.
Proof.
  destruct p; cbn; try discriminate.
  1-3: intros [= <-] Hq; destruct q; try reflexivity; congruence.
  case_bool_decide; [|discriminate]. intros [= <-] Hq.
  destruct q as [| | | |j]; try reflexivity. cbn.
  apply list_lookup_insert_ne. congruence.
Qed.

(** Releasing a blob that owns a cell. *)
Lemma s2n_free_owned p b a bs st :
  get_blob st p = Some b -> growable b = true ->
  data b = Ptr (R_heap a) 0 -> heap st !! a = Some (Live bs) ->
  allocated b = zlen bs -> 0 <= size b <= allocated b -> 0 < allocated b ->
  exists st1,
    s2n_free p st = (Ok tt, st1)
    /\ put_blob p blob_zero
         (set_heap (<[a := Freed (replicate (length bs) 0)]> (heap st)) st) = Some st1.
Proof.
  intros Hp Hg Hd Hh Ha Hs Hpos.
  pose proof (lookup_lt_Some _ _ _ Hh) as Hlt.
  destruct (get_blob_put_blob p b blob_zero
              (set_heap (<[a := Freed (replicate (length bs) 0)]> (heap st)) st))
    as [st1 Hput].
  { destruct p; exact Hp. }
  exists st1. split; [|exact Hput].
  unfold s2n_free.
  rewrite (run_bind_ok _ _ st b st) by (unfold deref; now rewrite Hp).
  rewrite (run_bind_ok _ _ st (Ok tt)
             (set_heap (<[a := Live (replicate (length bs) 0)]> (heap st)) st))
    by (unfold returned; now rewrite (blob_zero_owned p b a bs st)).
  unfold s2n_blob_is_growable. rewrite Hg. cbn [orb negb S2N_ERROR_IF].
  rewrite (run_bind_ok _ _ _ tt
             (set_heap (<[a := Live (replicate (length bs) 0)]> (heap st)) st))
    by reflexivity.
  rewrite (run_bind_ok _ _ _ tt
             (set_heap (<[a := Freed (replicate (length bs) 0)]> (heap st)) st)).
  2:{ unfold mem_free. rewrite Hd. proj_simpl.
      rewrite list_lookup_insert_eq by exact Hlt.
      proj_simpl. unfold set_heap at 1. proj_simpl.
      now rewrite list_insert_insert_eq. }
  rewrite (run_bind_ok _ _ _ tt st1) by (unfold assign; now rewrite Hput).
  reflexivity.
Qed.

(** Releasing the blob [{0}]. *)
Lemma s2n_free_empty p b st :
  get_blob st p = Some b -> data b = NULL -> size b = 0 -> allocated b = 0 ->
  exists st1, s2n_free p st = (Ok tt, st1) /\ put_blob p blob_zero st = Some st1.
Proof.
  intros Hp Hd Hs Ha.
  destruct (get_blob_put_blob p b blob_zero st Hp) as [st1 Hput].
  exists st1. split; [|exact Hput].
  unfold s2n_free.
  rewrite (run_bind_ok _ _ st b st) by (unfold deref; now rewrite Hp).
  rewrite (run_bind_ok _ _ st (Ok tt) st)
    by (unfold returned; now rewrite (blob_zero_empty p b st Hp Hs Ha)).
  unfold s2n_blob_is_growable. rewrite Hd, Hs, Ha.
  rewrite !bool_decide_eq_true_2 by done. rewrite orb_true_r. cbn [negb S2N_ERROR_IF].
  rewrite (run_bind_ok _ _ _ tt st) by reflexivity.
  rewrite (run_bind_ok _ _ _ tt st) by reflexivity.
  rewrite (run_bind_ok _ _ _ tt st1) by (unfold assign; now rewrite Hput).
  reflexivity.
Qed.

End BlobOps.

(** ** Master-secret finalisation *)

Section CalculateKeys.
Context {W : Type}.
Variable prf : s2n_kex -> blob_ptr -> state W -> result unit * W.
Variable expansion : state W -> result unit * W.
Variable allowed : state W -> bool.
Variable cache : state W -> result unit * W.
Implicit Types st : state W.

(** What follows the erasure touches nothing in the store. *)
Lemma calculate_keys_tail st r st' :
  (extern expansion ≫= fun _ =>
     gets allowed ≫= fun a : bool =>
       (if a then extern cache else ret tt) ≫= fun _ => ret tt) st = (r, st') ->
  exists w, st' = set_world w st.
Proof.
  rewrite run_bind. unfold extern at 1.
  destruct (expansion st) as [[[]| |] w1]; try (intros [= <- <-]; eauto; fail).
  rewrite run_bind. unfold gets. 
  destruct (allowed (set_world w1 st)).
  - rewrite run_bind. unfold extern.
    destruct (cache (set_world w1 st)) as [[[]| |] w2]; intros [= <- <-]; eauto.
  - intros [= <- <-]. eauto.
Qed.

End CalculateKeys.

(** C6: once the pseudo-random function has derived the master secret,
    s2n_calculate_keys leaves the shared secret erased whatever the later
    steps return. A blob that owns no storage ([allocated] is 0, as for the
    premaster secret inside the connection) keeps its bytes, all of them 0,
    and no cell of the heap is released; a blob that owns its storage has
    that cell, and no other, released with every byte of it set to 0, and
    the blob itself is reset. *)
Theorem calculate_keys_erases_shared_key {W}
    (prf : s2n_kex -> blob_ptr -> state W -> result unit * W)
    (expansion : state W -> result unit * W) (allowed : state W -> bool)
    (cache : state W -> result unit * W) sk b w1 r st st' :
  get_blob st sk = Some b ->
  blob_valid st b = true ->
  prf (key_exchange_alg (conn st)) sk st = (Ok tt, w1) ->
  s2n_calculate_keys prf expansion allowed cache sk st = (r, st') ->
  if bool_decide (allocated b = 0)
  then get_blob st' sk = Some b
       /\ blob_bytes st' b = Some (replicate (Z.to_nat (size b)) 0)
       /\ live_cells (heap st') = live_cells (heap st)
  else exists a,
       data b = Ptr (R_heap a) 0
       /\ heap st' !! a = Some (Freed (replicate (Z.to_nat (allocated b)) 0))
       /\ get_blob st' sk = Some blob_zero
       /\ live_cells (heap st') = <[a := false]> (live_cells (heap st)).
Proof.
  intros Hp Hval Hprf Hrun.
  unfold s2n_calculate_keys in Hrun.
  rewrite (run_bind_ok _ _ st (key_exchange_alg (conn st)) st) in Hrun by reflexivity.
  rewrite (run_bind_ok _ _ st tt (set_world w1 st)) in Hrun
    by (unfold extern; now rewrite Hprf).
  assert (get_blob (set_world w1 st) sk = Some b) as Hp0
    by (rewrite get_blob_world_frame; exact Hp).
  destruct (blob_valid_inv _ _ Hval)
    as [(Hd & Hs & Ha) | [(Hg & Ha & rg & off & bs & Hd & Hl)
                         | (Hg & a & bs & Hd & Hh & Ha & Hs & Hpos)]].
  - (* the empty blob *)
    rewrite (bool_decide_eq_true_2 _ Ha).
    rewrite (run_bind_ok _ _ _ tt (set_world w1 st)) in Hrun
      by (now apply (blob_zero_empty sk b)).
    rewrite (run_bind_ok _ _ _ b (set_world w1 st)) in Hrun
      by (unfold deref; now rewrite Hp0).
    rewrite (bool_decide_eq_false_2 (allocated b <> 0)) in Hrun by (intros H; exact (H Ha)).
    rewrite (run_bind_ok _ _ _ tt (set_world w1 st)) in Hrun by reflexivity.
    apply calculate_keys_tail in Hrun as [w ->].
    split; [now rewrite !get_blob_world_frame|].
    split; [|reflexivity].
    unfold blob_bytes. rewrite Hd, Hs. reflexivity.
  - (* a view of bytes owned elsewhere *)
    rewrite (bool_decide_eq_true_2 _ Ha).
    destruct (blob_zero_view sk b bs (set_world w1 st) Hp0 Ha Hl)
      as (st1 & Hz & Hl1 & Hw1 & Hlive1 & Hg1).
    rewrite (run_bind_ok _ _ _ tt st1) in Hrun by exact Hz.
    rewrite (run_bind_ok _ _ _ b st1) in Hrun
      by (unfold deref; now rewrite Hg1, Hp0).
    rewrite (bool_decide_eq_false_2 (allocated b <> 0)) in Hrun by (intros H; exact (H Ha)).
    rewrite (run_bind_ok _ _ _ tt st1) in Hrun by reflexivity.
    apply calculate_keys_tail in Hrun as [w ->].
    split; [now rewrite get_blob_world_frame, Hg1|].
    split; [|exact Hlive1].
    unfold blob_bytes. rewrite Hd. rewrite <- Hd. exact Hl1.
  - (* a blob that owns its cell *)
    rewrite bool_decide_eq_false_2 by lia.
    pose proof (lookup_lt_Some _ _ _ Hh) as Hlt.
    rewrite (run_bind_ok _ _ _ tt
               (set_heap (<[a := Live (replicate (length bs) 0)]> (heap st))
                  (set_world w1 st))) in Hrun
      by (exact (blob_zero_owned sk b a bs (set_world w1 st) Hp0 Hd Hh Ha Hs Hpos)).
    set (st1 := set_heap (<[a := Live (replicate (length bs) 0)]> (heap st))
                  (set_world w1 st)) in *.
    assert (get_blob st1 sk = Some b) as Hp1 by (destruct sk; exact Hp).
    rewrite (run_bind_ok _ _ _ b st1) in Hrun by (unfold deref; now rewrite Hp1).
    rewrite (bool_decide_eq_true_2 (allocated b <> 0)) in Hrun by lia.
    destruct (s2n_free_owned sk b a (replicate (length bs) 0) st1 Hp1 Hg Hd)
      as (st2 & Hfree & Hput).
    { subst st1. proj_simpl. now apply list_lookup_insert_eq. }
    { unfold zlen in *. now rewrite length_replicate. }
    { exact Hs. }
    { exact Hpos. }
    rewrite (run_bind_ok _ _ _ tt st2) in Hrun by exact Hfree.
    apply calculate_keys_tail in Hrun as [w ->].
    pose proof (put_blob_frame _ _ _ _ Hput) as (Hh2 & _ & _ & _ & _ & _ & _ & _ & _ & Hg2).
    subst st1. proj_simpl. rewrite length_replicate, list_insert_insert_eq in Hh2.
    exists a. split; [exact Hd|].
    split.
    { rewrite Hh2, list_lookup_insert_eq by exact Hlt.
      do 3 f_equal. unfold zlen in Ha. lia. }
    split; [now rewrite get_blob_world_frame|].
    rewrite Hh2. unfold live_cells. now rewrite list_fmap_insert.
Qed.

(** A Diffie-Hellman secret in its own cell: the cell is released, with
    its four bytes set to 0. *)
Lemma calculate_keys_erases_shared_key_witness :
  exists a,
    Ptr (R_heap 1) 0 = Ptr (R_heap a) 0
    /\ heap Examples.st_dhe_secret_done !! a = Some (Freed [0; 0; 0; 0])
    /\ get_blob Examples.st_dhe_secret_done (B_local 0) = Some blob_zero
    /\ live_cells (heap Examples.st_dhe_secret_done) = <[a := false]> [true; true].
Proof.
  exact (calculate_keys_erases_shared_key Examples.example_prf
           Examples.example_key_expansion Examples.example_allowed_to_cache
           Examples.example_store_to_cache (B_local 0)
           {| data := Ptr (R_heap 1) 0; size := 4; allocated := 4; growable := true |}
           1%nat (Ok tt) Examples.st_dhe_secret Examples.st_dhe_secret_done
           eq_refl eq_refl eq_refl eq_refl).
Defined.

(** ** What the utilities leave alone *)

Create HintDb keeps discriminated.

Section Keeps.
Context {W : Type}.
Variable malloc : W -> Z -> bool.

Local Abbreviation K := (keeps (W := W) captured_message).

Lemma keeps_bind {A B} (m : M W A) (k : A -> M W B) :
  K m -> (forall a, K (k a)) -> K (m ≫= k).
Proof.
  intros Hm Hk st r st'. rewrite run_bind.
  destruct (m st) as [[a| |] s1] eqn:E.
  - intros H. rewrite (Hk a _ _ _ H). exact (Hm _ _ _ E).
  - intros [= <- <-]. exact (Hm _ _ _ E).
  - intros [= <- <-]. exact (Hm _ _ _ E).
Qed.

Lemma keeps_ret {A} (a : A) : K (ret a).
Proof. intros st r st' [= <- <-]. reflexivity. Qed.

Lemma keeps_error {A} e : K (S2N_ERROR (A := A) e).
Proof. intros st r st' [= <- <-]. reflexivity. Qed.

Lemma keeps_crash {A} : K (crash (A := A)).
Proof. intros st r st' [= <- <-]. reflexivity. Qed.

Lemma keeps_gets {A} (g : state W -> A) : K (gets g).
Proof. intros st r st' [= <- <-]. reflexivity. Qed.

Lemma keeps_if {A} (c : bool) (m1 m2 : M W A) : K m1 -> K m2 -> K (if c then m1 else m2).
Proof. destruct c; auto. Qed.

Lemma keeps_access {A} (o : option A) : K (access o).
Proof. destruct o; [apply keeps_ret | apply keeps_crash]. Qed.

Lemma keeps_error_if c e : K (S2N_ERROR_IF c e).
Proof. destruct c; [apply keeps_error | apply keeps_ret]. Qed.

Lemma keeps_deref p : K (deref p).
Proof. intros st r st'. unfold deref. apply keeps_access. Qed.

Lemma keeps_deref_stuffer p : K (deref_stuffer p).
Proof. intros st r st'. unfold deref_stuffer. apply keeps_access. Qed.

Lemma keeps_assign p b : K (assign p b).
Proof.
  intros st r st'. unfold assign.
  destruct (put_blob p b st) as [s1|] eqn:E; intros [= <- <-]; [|reflexivity].
  destruct p; cbn in E; try discriminate; try (injection E as <-; reflexivity).
  case_bool_decide; [|discriminate]. injection E as <-. reflexivity.
Qed.

Lemma keeps_assign_stuffer p s : K (assign_stuffer p s).
Proof.
  intros st r st'. unfold assign_stuffer.
  destruct (put_stuffer p s st) as [s1|] eqn:E; intros [= <- <-]; [|reflexivity].
  destruct p; cbn in E; try (injection E as <-; reflexivity).
  case_bool_decide; [|discriminate]. injection E as <-. reflexivity.
Qed.

Lemma keeps_local_stuffer s : K (local_stuffer s).
Proof. intros st r st' [= <- <-]. reflexivity. Qed.

Lemma keeps_mem_read p n : K (mem_read p n).
Proof. intros st r st'. unfold mem_read. apply keeps_access. Qed.

Lemma keeps_mem_write p new : K (mem_write p new).
Proof.
  intros st r st'. unfold mem_write.
  destruct (store st p new) as [s1|] eqn:E; intros [= <- <-]; [|reflexivity].
  unfold store in E. destruct p as [|rg off]; [discriminate|].
  destruct (region_bytes st rg); [|discriminate].
  case_bool_decide; [|discriminate]. injection E as <-. now destruct rg.
Qed.

Lemma keeps_mem_malloc n : K (mem_malloc malloc n).
Proof.
  intros st r st'. unfold mem_malloc.
  destruct (malloc (world st) n); intros [= <- <-]; reflexivity.
Qed.

Lemma keeps_mem_extend rg old more : K (mem_extend malloc rg old more).
Proof.
  intros st r st'. unfold mem_extend.
  destruct (malloc (world st) (zlen old + more)); intros [= <- <-]; [|reflexivity].
  now destruct rg.
Qed.

Lemma keeps_mem_free p : K (mem_free p).
Proof.
  intros st r st'. unfold mem_free.
  repeat case_match; intros [= <- <-]; reflexivity.
Qed.

Lemma keeps_returned {A} (m : M W A) : K m -> K (returned m).
Proof.
  intros Hm st r st'. unfold returned.
  destruct (m st) as [[a| |] s1] eqn:E; intros [= <- <-]; exact (Hm _ _ _ E).
Qed.

Lemma keeps_GUARD {A} (r : result A) : K (GUARD r).
Proof. intros st r' st' [= <- <-]. reflexivity. Qed.

Lemma keeps_notnull_check p : K (notnull_check p).
Proof. apply keeps_error_if. Qed.

Lemma keeps_notnull_check_blob p : K (notnull_check_blob p).
Proof. apply keeps_error_if. Qed.

Lemma keeps_DEFER_CLEANUP {A} (cleanup : M W unit) (body : M W A) :
  K cleanup -> K body -> K (DEFER_CLEANUP cleanup body).
Proof.
  intros Hc Hb st r st'. unfold DEFER_CLEANUP.
  destruct (body st) as [r1 s1] eqn:E1.
  destruct (cleanup s1) as [r2 s2] eqn:E2.
  intros H.
  assert (st' = s2) as -> by (destruct r2; now injection H).
  rewrite (Hc _ _ _ E2). exact (Hb _ _ _ E1).
Qed.

End Keeps.

#[global] Hint Resolve keeps_bind keeps_ret keeps_error keeps_crash keeps_gets keeps_if
  keeps_access keeps_error_if keeps_deref keeps_deref_stuffer keeps_assign
  keeps_assign_stuffer keeps_local_stuffer keeps_mem_read keeps_mem_write
  keeps_mem_malloc keeps_mem_extend keeps_mem_free keeps_returned keeps_GUARD
  keeps_notnull_check keeps_notnull_check_blob : keeps.

Section KeepsUtilities.
Context {W : Type}.
Variable malloc : W -> Z -> bool.

Local Abbreviation K := (keeps (W := W) captured_message).

Ltac keeps_step :=
  repeat first
    [ solve [auto with keeps]
    | apply keeps_if
    | apply keeps_bind; [|intros ?] ].

Lemma keeps_memcpy_check d s n : K (memcpy_check d s n).
Proof. unfold memcpy_check. keeps_step. Qed.

Lemma keeps_blob_zero p : K (s2n_blob_zero p).
Proof. unfold s2n_blob_zero. keeps_step. Qed.

Lemma keeps_free p : K (s2n_free p).
Proof. unfold s2n_free. pose proof keeps_blob_zero. keeps_step. Qed.

Lemma keeps_alloc p n : K (s2n_alloc malloc p n).
Proof. unfold s2n_alloc. pose proof keeps_free. keeps_step. Qed.

Lemma keeps_stuffer_init s b : K (s2n_stuffer_init s b).
Proof. unfold s2n_stuffer_init. keeps_step. Qed.

Lemma keeps_stuffer_resize p n : K (s2n_stuffer_resize malloc p n).
Proof.
  unfold s2n_stuffer_resize. apply keeps_bind; [auto with keeps|]. intros s.
  apply keeps_bind; [auto with keeps|]. intros _.
  destruct (data (blob s)); keeps_step.
Qed.

Lemma keeps_stuffer_skip_write p n : K (s2n_stuffer_skip_write malloc p n).
Proof.
  unfold s2n_stuffer_skip_write, s2n_stuffer_reserve_space.
  pose proof keeps_stuffer_resize. keeps_step.
Qed.

Lemma keeps_stuffer_write p b : K (s2n_stuffer_write malloc p b).
Proof.
  unfold s2n_stuffer_write, s2n_stuffer_write_bytes.
  pose proof keeps_stuffer_skip_write. pose proof keeps_memcpy_check. keeps_step.
Qed.

Lemma keeps_kem_free : K s2n_kem_free.
Proof. unfold s2n_kem_free. pose proof keeps_free. keeps_step. Qed.

Lemma keeps_hybrid_combine c p0 p1 : K (hybrid_combine malloc c p0 p1).
Proof.
  unfold hybrid_combine.
  pose proof keeps_alloc. pose proof keeps_stuffer_init.
  pose proof keeps_stuffer_write. pose proof keeps_kem_free. keeps_step.
Qed.

End KeepsUtilities.

(** ** The hybrid combiner *)

Section Hybrid.
Context {W : Type}.
Variable malloc : W -> Z -> bool.
Implicit Types st : state W.

Lemma defer_bind_ok {A B} (cleanup : M W unit) (m : M W A) (k : A -> M W B) st a st1 :
  m st = (Ok a, st1) ->
  DEFER_CLEANUP cleanup (m ≫= k) st = DEFER_CLEANUP cleanup (k a) st1.
Proof. intros H. unfold DEFER_CLEANUP. now rewrite (run_bind_ok _ _ _ _ _ H). Qed.

(** From the entry of s2n_hybrid_client_action to the end of the two
    sub-operations. *)
Lemma hybrid_action_decompose combined km cursor sa st d st_a st_b st_c :
  sa S_handshake_io 0 st = (Ok d, st_a) ->
  d <> NULL ->
  km (fst (hybrid (key_exchange_alg (conn st)))) (B_local (length (blobs st_a)))
    (hybrid_enter d st_a) = (Ok tt, st_b) ->
  km (snd (hybrid (key_exchange_alg (conn st)))) B_kem_shared_secret st_b = (Ok tt, st_c) ->
  s2n_hybrid_client_action malloc combined (Some km) cursor (Some sa) st
  = DEFER_CLEANUP (s2n_free (B_local (length (blobs st_a))))
      (hybrid_after_kex malloc combined (B_local (length (blobs st_a))) cursor
         (cursor_of cursor st_a)) st_c.
Proof.
  intros Hsa Hd Hk0 Hk1. unfold s2n_hybrid_client_action.
  rewrite (run_bind_ok _ _ st km st) by reflexivity.
  rewrite (run_bind_ok _ _ st sa st) by reflexivity.
  rewrite (run_bind_ok _ _ st (fst (hybrid (key_exchange_alg (conn st)))) st) by reflexivity.
  rewrite (run_bind_ok _ _ st (snd (hybrid (key_exchange_alg (conn st)))) st) by reflexivity.
  rewrite (run_bind_ok _ _ st d st_a) by exact Hsa.
  rewrite (run_bind_ok _ _ st_a tt
             (set_conn (fun c => set_client_key_exchange_message
                                   (set_data d (client_key_exchange_message c)) c) st_a))
    by reflexivity.
  rewrite (run_bind_ok _ _ _ tt
             (set_conn (fun c => set_client_key_exchange_message
                                   (set_data d (client_key_exchange_message c)) c) st_a))
    by (unfold notnull_check; now rewrite bool_decide_eq_false_2).
  rewrite (run_bind_ok _ _ _ (cursor_of cursor st_a)
             (set_conn (fun c => set_client_key_exchange_message
                                   (set_data d (client_key_exchange_message c)) c) st_a))
    by (now destruct cursor).
  rewrite (run_bind_ok _ _ _ (B_local (length (blobs st_a))) (hybrid_enter d st_a))
    by reflexivity.
  rewrite (defer_bind_ok _ _ _ _ tt st_b) by exact Hk0.
  rewrite (defer_bind_ok _ _ _ _ tt st_c) by exact Hk1.
  reflexivity.
Qed.

Lemma s2n_free_no_crash p b st :
  get_blob st p = Some b -> blob_valid st b = true ->
  fst (s2n_free p st) <> Crash.
Proof.
  intros Hp Hv.
  destruct (blob_valid_inv _ _ Hv)
    as [(Hd & Hs & Ha) | [(Hg & Ha & rg & off & bs & Hd & Hl)
                         | (Hg & a & bs & Hd & Hh & Ha & Hs & Hpos)]].
  - destruct (s2n_free_empty p b st Hp Hd Hs Ha) as (st1 & -> & _). discriminate.
  - destruct (blob_zero_view p b bs st Hp Ha Hl) as (st1 & Hz & _).
    unfold s2n_free.
    rewrite (run_bind_ok _ _ st b st) by (unfold deref; now rewrite Hp).
    rewrite (run_bind_ok _ _ st (Ok tt) st1) by (unfold returned; now rewrite Hz).
    unfold s2n_blob_is_growable. rewrite Hg, Hd. cbn. discriminate.
  - destruct (s2n_free_owned p b a bs st Hp Hg Hd Hh Ha Hs Hpos) as (st1 & -> & _).
    discriminate.
Qed.

End Hybrid.


(** ** The hybrid combiner *)

Section Combine.
Context {W : Type}.
Variable malloc : W -> Z -> bool.
Implicit Types st : state W.

(** Writing a blob into a stuffer of the running frame that cannot grow. *)
Lemma stuffer_write_local k s p b st :
  get_stuffer st (S_local k) = Some s -> stuffer_growable s = false ->
  get_blob st p = Some b ->
  0 <= write_cursor s <= size (blob s) -> size (blob s) <= UINT32_MAX ->
  0 <= size b ->
  s2n_stuffer_write malloc (S_local k) p st
  = if size (blob s) - write_cursor s <? size b
    then (Err S2N_ERR_STUFFER_IS_FULL, st)
    else
      let st1 :=
        set_stuffers (<[k := set_write_cursor (write_cursor s + size b) s]> (stuffers st)) st in
      if bool_decide (ptr_add (data (blob s)) (write_cursor s) = data b)
      then (Ok tt, st1)
      else memcpy_check (ptr_add (data (blob s)) (write_cursor s)) (data b) (size b) st1.
Proof.
  intros Hs Hg Hp Hwc Hmax Hb.
  pose proof (lookup_lt_Some _ _ _ Hs) as Hk.
  assert (deref_stuffer (S_local k) st = (Ok s, st)) as Hds
    by (unfold deref_stuffer; now rewrite Hs).
  unfold s2n_stuffer_write.
  rewrite (run_bind_ok _ _ st b st) by (unfold deref; now rewrite Hp).
  unfold s2n_stuffer_write_bytes, s2n_stuffer_skip_write, s2n_stuffer_reserve_space.
  rewrite !run_bind_assoc.
  rewrite (run_bind_ok _ _ _ _ _ Hds).
  unfold space_remaining, uint32, UINT32_MAX in *.
  rewrite (Z.mod_small (size (blob s) - write_cursor s)) by lia.
  destruct (size (blob s) - write_cursor s <? size b) eqn:Hlt.
  - rewrite Hg. reflexivity.
  - apply Z.ltb_ge in Hlt.
    rewrite (run_bind_ok (ret tt) _ st tt st eq_refl).
    rewrite run_bind_assoc, (run_bind_ok _ _ _ _ _ Hds).
    rewrite Z.mod_small by lia.
    set (s1 := set_write_cursor (write_cursor s + size b) s).
    set (st1 := set_stuffers (<[k := s1]> (stuffers st)) st).
    assert (assign_stuffer (S_local k) s1 st = (Ok tt, st1)) as Has
      by (unfold assign_stuffer; cbn [put_stuffer];
          now rewrite bool_decide_eq_true_2 by exact Hk).
    assert (deref_stuffer (S_local k) st1 = (Ok s1, st1)) as Hds1
      by (unfold deref_stuffer, st1; cbn [get_stuffer]; proj_simpl;
          now rewrite list_lookup_insert_eq by exact Hk).
    rewrite (run_bind_ok _ _ _ _ _ Has), (run_bind_ok _ _ _ _ _ Hds1).
    subst s1. proj_simpl.
    replace (write_cursor s + size b - size b) with (write_cursor s) by lia.
    cbn zeta. now destruct (bool_decide _).
Qed.


(** Copying into a live cell of the heap. *)
Lemma memcpy_check_cell a off src n bs cs st :
  load st src n = Some bs -> n <> 0 ->
  heap st !! a = Some (Live cs) -> 0 <= off -> off + n <= zlen cs ->
  memcpy_check (Ptr (R_heap a) off) src n st
  = (Ok tt, set_heap (<[a := Live (splice cs (Z.to_nat off) bs)]> (heap st)) st).
Proof.
  intros Hl Hn Hh Hoff Hlen. pose proof (load_length _ _ _ _ Hl) as Hbs.
  unfold memcpy_check. rewrite bool_decide_eq_false_2 by exact Hn.
  rewrite (run_bind_ok _ _ st tt st) by reflexivity.
  assert (src <> NULL) as Hsrc by (intros ->; discriminate Hl).
  rewrite (run_bind_ok _ _ st tt st)
    by (unfold notnull_check; now rewrite bool_decide_eq_false_2).
  rewrite (run_bind_ok _ _ st bs st) by (unfold mem_read; now rewrite Hl).
  unfold mem_write, store. cbn [region_bytes]. rewrite Hh.
  rewrite bool_decide_eq_true_2 by lia. reflexivity.
Qed.


Lemma blob_bytes_size st b bs : blob_bytes st b = Some bs -> size b = zlen bs.
Proof.
  unfold blob_bytes. destruct (data b).
  - case_bool_decide; [|discriminate]. now intros [= <-].
  - intros H. now rewrite (load_length _ _ _ _ H).
Qed.

(** Allocating a blob of the running frame. *)
Lemma s2n_alloc_local j n st :
  (j < length (blobs st))%nat ->
  s2n_alloc malloc (B_local j) n st
  = if bool_decide (n = 0)
    then (Ok tt, set_blobs (<[j := blob_zero]> (blobs st)) st)
    else if malloc (world st) n
    then (Ok tt,
          set_blobs
            (<[j := {| data := Ptr (R_heap (length (heap st))) 0; size := n;
                       allocated := n; growable := true |}]> (blobs st))
            (set_heap (heap st ++ [Live (replicate (Z.to_nat n) 0)]) st))
    else (Err S2N_ERR_ALLOC, set_blobs (<[j := blob_zero]> (blobs st)) st).
Proof.
  intros Hj. unfold s2n_alloc.
  rewrite (run_bind_ok _ _ st tt st) by reflexivity.
  set (st0 := set_blobs (<[j := blob_zero]> (blobs st)) st).
  assert (assign (B_local j) blob_zero st = (Ok tt, st0)) as Ha
    by (unfold assign; cbn [put_blob]; now rewrite bool_decide_eq_true_2 by exact Hj).
  rewrite (run_bind_ok _ _ _ _ _ Ha).
  case_bool_decide as Hn.
  - destruct (s2n_free_empty (B_local j) blob_zero st0) as (st1 & -> & Hput);
      try reflexivity.
    { unfold st0. cbn. now rewrite list_lookup_insert_eq. }
    unfold st0 in Hput. cbn in Hput.
    rewrite bool_decide_eq_true_2 in Hput by (now rewrite length_insert).
    injection Hput as <-. now rewrite list_insert_insert_eq.
  - unfold mem_malloc. rewrite run_bind. unfold st0 at 1. proj_simpl.
    destruct (malloc (world st) n); [|reflexivity].
    unfold assign. cbn [put_blob]. unfold st0. proj_simpl.
    rewrite bool_decide_eq_true_2 by (now rewrite length_insert).
    unfold set_heap, set_blobs. proj_simpl. now rewrite list_insert_insert_eq.
Qed.


(** The bytes of a blob lie in the premaster array or in a cell of the
    heap, and depend on nothing else. *)
Lemma blob_bytes_frame st st' b bs :
  blob_bytes st b = Some bs ->
  rsa_premaster_secret (conn st') = rsa_premaster_secret (conn st) ->
  (forall c off, data b = Ptr (R_heap c) off -> heap st' !! c = heap st !! c) ->
  blob_bytes st' b = Some bs.
Proof.
  unfold blob_bytes, load, region_bytes. intros H Hp Hh.
  destruct (data b) as [|[|c] off]; [exact H| |].
  - now rewrite Hp.
  - now rewrite (Hh c off eq_refl).
Qed.

Lemma blob_bytes_below st b bs c off :
  blob_bytes st b = Some bs -> data b = Ptr (R_heap c) off ->
  (c < length (heap st))%nat.
Proof.
  unfold blob_bytes, load, region_bytes. intros H Hd. rewrite Hd in H.
  destruct (heap st !! c) as [cl|] eqn:Hc; [|discriminate].
  now apply lookup_lt_Some in Hc.
Qed.

Lemma splice_nil (cs : list Z) off : splice cs off [] = cs.
Proof. unfold splice. cbn. rewrite Nat.add_0_r. apply take_drop. Qed.

(** Writing a blob into a stuffer of the running frame whose storage is a
    cell of the heap that the blob does not lie in. *)
Lemma stuffer_write_cell k s p b bs a cs st :
  get_stuffer st (S_local k) = Some s -> stuffer_growable s = false ->
  get_blob st p = Some b -> blob_bytes st b = Some bs ->
  data (blob s) = Ptr (R_heap a) 0 -> heap st !! a = Some (Live cs) ->
  zlen cs = size (blob s) ->
  (forall off, data b <> Ptr (R_heap a) off) ->
  0 <= write_cursor s -> write_cursor s + zlen bs <= size (blob s) ->
  size (blob s) <= UINT32_MAX ->
  s2n_stuffer_write malloc (S_local k) p st
  = (Ok tt,
     set_heap (<[a := Live (splice cs (Z.to_nat (write_cursor s)) bs)]> (heap st))
       (set_stuffers (<[k := set_write_cursor (write_cursor s + zlen bs) s]> (stuffers st))
          st)).
Proof.
  intros Hs Hg Hp Hbs Hd Hh Hcs Hout Hwc Hfit Hmax.
  pose proof (blob_bytes_size _ _ _ Hbs) as Hsz.
  assert (0 <= zlen bs) as Hpos by (unfold zlen; lia).
  rewrite (stuffer_write_local k s p b st Hs Hg Hp) by lia.
  rewrite (proj2 (Z.ltb_ge _ _)) by lia. cbn zeta.
  rewrite Hd. cbn [ptr_add]. rewrite Z.add_0_l.
  rewrite bool_decide_eq_false_2 by (intros E; exact (Hout _ (eq_sym E))).
  rewrite Hsz.
  destruct (decide (zlen bs = 0)) as [Hz|Hz].
  - unfold memcpy_check. rewrite bool_decide_eq_true_2 by exact Hz.
    assert (bs = []) as -> by (destruct bs; [done|unfold zlen in Hz; cbn in Hz; lia]).
    rewrite splice_nil, (list_insert_id _ _ _ Hh). now destruct st.
  - unfold blob_bytes in Hbs. destruct (data b) as [|r off] eqn:Hdb.
    { case_bool_decide; [|discriminate]. injection Hbs as <-. done. }
    rewrite <- Hdb in *. rewrite Hsz in Hbs.
    erewrite memcpy_check_cell; [reflexivity| | |exact Hh| |]; try lia.
    rewrite <- Hbs. now apply load_ext.
Qed.

(** Writing an empty blob into an empty stuffer of the running frame. *)
Lemma stuffer_write_nothing k s p b st :
  get_stuffer st (S_local k) = Some s -> stuffer_growable s = false ->
  get_blob st p = Some b -> size b = 0 ->
  size (blob s) = 0 -> write_cursor s = 0 ->
  s2n_stuffer_write malloc (S_local k) p st
  = (Ok tt, set_stuffers (<[k := set_write_cursor 0 s]> (stuffers st)) st).
Proof.
  intros Hs Hg Hp Hb Hsz Hwc.
  rewrite (stuffer_write_local k s p b st Hs Hg Hp) by (unfold UINT32_MAX; lia).
  rewrite Hsz, Hwc, Hb. cbn [Z.sub Z.ltb Z.compare Z.add]. cbn zeta.
  case_bool_decide; [reflexivity|].
  unfold memcpy_check. now rewrite bool_decide_eq_true_2.
Qed.


Lemma hybrid_combine_concat combined sk0 sk1 st :
  hybrid_combine malloc combined sk0 sk1 st
  = (hybrid_concat malloc combined sk0 sk1 ≫= fun _ => s2n_kem_free ≫= fun _ => ret tt) st.
Proof.
  unfold hybrid_combine, hybrid_concat.
  rewrite run_bind_assoc. apply run_bind_ext. intros b0 s0.
  rewrite run_bind_assoc. apply run_bind_ext. intros b1 s1.
  rewrite run_bind_assoc. apply run_bind_ext. intros [] s2.
  rewrite run_bind_assoc. apply run_bind_ext. intros sc s3.
  rewrite run_bind_assoc. apply run_bind_ext. intros [] s4.
  rewrite run_bind_assoc. reflexivity.
Qed.

Lemma stuffer_init_local k j bc st :
  (k < length (stuffers st))%nat -> get_blob st (B_local j) = Some bc ->
  s2n_stuffer_init (S_local k) (B_local j) st
  = (Ok tt,
     set_stuffers
       (<[k := {| blob := bc; read_cursor := 0; write_cursor := 0; high_water_mark := 0;
                  alloced := false; stuffer_growable := false; tainted := false |}]>
          (stuffers st)) st).
Proof.
  intros Hk Hj. unfold s2n_stuffer_init.
  rewrite (run_bind_ok _ _ st bc st) by (unfold deref; now rewrite Hj).
  unfold assign_stuffer. cbn [put_stuffer].
  now rewrite bool_decide_eq_true_2 by exact Hk.
Qed.

End Combine.

Ltac run_ok H := rewrite (run_bind_ok _ _ _ _ _ H).

Section Concat.
Context {W : Type}.
Variable malloc : W -> Z -> bool.
Implicit Types st : state W.

Lemma zlen_nil_inv (l : list Z) : zlen l = 0 -> l = [].
Proof. destruct l; [done|]. unfold zlen. cbn. lia. Qed.

Lemma uint32_range z : 0 <= uint32 z <= UINT32_MAX.
Proof. unfold uint32, UINT32_MAX. pose proof (Z.mod_pos_bound z 4294967296 ltac:(lia)). lia. Qed.

Lemma uint32_le z : 0 <= z -> uint32 z <= z.
Proof. intros H. unfold uint32. apply Z.mod_le; lia. Qed.

Lemma uint32_small z : 0 <= z <= UINT32_MAX -> uint32 z = z.
Proof. intros H. unfold uint32, UINT32_MAX in *. apply Z.mod_small. lia. Qed.

Lemma splice_concat (A B : list Z) n :
  n = (length A + length B)%nat ->
  splice (splice (replicate n 0) 0 A) (length A) B = A ++ B.
Proof.
  intros ->. unfold splice. rewrite take_0, !app_nil_l, Nat.add_0_l.
  rewrite take_app_length. f_equal.
  rewrite drop_app_ge by lia.
  rewrite drop_drop, drop_ge; [now rewrite app_nil_r|].
  rewrite length_replicate. lia.
Qed.

(** The stuffer that the combiner declares and initialises. *)
Lemma combiner_init j bc st :
  get_blob st (B_local j) = Some bc ->
  forall k : stuffer_ptr -> M W unit,
  (local_stuffer stuffer_zero ≫= fun sc => s2n_stuffer_init sc (B_local j) ≫= fun _ => k sc) st
  = k (S_local (length (stuffers st)))
      (set_stuffers
         (stuffers st ++
          [{| blob := bc; read_cursor := 0; write_cursor := 0; high_water_mark := 0;
              alloced := false; stuffer_growable := false; tainted := false |}]) st).
Proof.
  intros Hj k.
  assert (local_stuffer stuffer_zero st
          = (Ok (S_local (length (stuffers st))),
             set_stuffers (stuffers st ++ [stuffer_zero]) st)) as Hl by reflexivity.
  run_ok Hl.
  rewrite run_bind, stuffer_init_local with (bc := bc).
  - proj_simpl. unfold set_stuffers. proj_simpl.
    rewrite insert_app_r_alt, Nat.sub_diag by lia. reflexivity.
  - proj_simpl. rewrite length_app. cbn. lia.
  - exact Hj.
Qed.

Lemma concat_writes_empty i j b0 st :
  get_blob st (B_local j) = Some blob_zero ->
  get_blob st (B_local i) = Some b0 ->
  0 <= size b0 -> 0 <= size (kem_shared_secret (conn st)) ->
  exists r st1,
    (local_stuffer stuffer_zero ≫= fun sc =>
       s2n_stuffer_init sc (B_local j) ≫= fun _ =>
         s2n_stuffer_write malloc sc (B_local i) ≫= fun _ =>
           s2n_stuffer_write malloc sc B_kem_shared_secret) st = (r, st1)
    /\ (r = Ok tt ->
        size b0 = 0 /\ size (kem_shared_secret (conn st)) = 0
        /\ conn st1 = conn st /\ blobs st1 = blobs st /\ heap st1 = heap st)
    /\ (size b0 = 0 -> size (kem_shared_secret (conn st)) = 0 -> r = Ok tt).
Proof.
  intros Hj Hi H0 H1.
  rewrite (combiner_init j blob_zero st Hj).
  match goal with |- context [set_stuffers (_ ++ [?s]) st] =>
    set (s0 := s); set (st0 := set_stuffers (stuffers st ++ [s0]) st) end.
  assert (get_stuffer st0 (S_local (length (stuffers st))) = Some s0) as Hs0
    by (cbn; apply list_lookup_middle; reflexivity).
  rewrite run_bind.
  destruct (decide (size b0 = 0)) as [Hz0|Hz0].
  - rewrite (stuffer_write_nothing malloc _ s0 (B_local i) b0 st0 Hs0 eq_refl Hi Hz0
               eq_refl eq_refl).
    match goal with |- context [set_stuffers (<[_ := ?s]> _) st0] =>
      set (s1 := s); set (st1 := set_stuffers (<[length (stuffers st) := s1]> (stuffers st0))
                                     st0) end.
    assert (get_stuffer st1 (S_local (length (stuffers st))) = Some s1) as Hs1.
    { cbn. apply list_lookup_insert_eq. rewrite length_app. cbn. lia. }
    destruct (decide (size (kem_shared_secret (conn st)) = 0)) as [Hz1|Hz1].
    + rewrite (stuffer_write_nothing malloc _ s1 B_kem_shared_secret _ st1 Hs1 eq_refl
                 eq_refl Hz1 eq_refl eq_refl).
      do 2 eexists. split; [reflexivity|]. split; [|done]. intros _.
      repeat split; assumption.
    + rewrite (stuffer_write_local malloc _ s1 B_kem_shared_secret _ st1 Hs1 eq_refl eq_refl)
        by (cbn; unfold UINT32_MAX; lia).
      rewrite (proj2 (Z.ltb_lt _ _)) by (cbn; lia).
      do 2 eexists. split; [reflexivity|]. split; [discriminate|]. intros; contradiction.
  - rewrite (stuffer_write_local malloc _ s0 (B_local i) b0 st0 Hs0 eq_refl Hi)
      by (cbn; unfold UINT32_MAX; lia).
    rewrite (proj2 (Z.ltb_lt _ _)) by (cbn; lia).
    do 2 eexists. split; [reflexivity|]. split; [discriminate|]. intros; contradiction.
Qed.

Lemma concat_writes_cell i j b0 bc a A B st :
  get_blob st (B_local j) = Some bc ->
  get_blob st (B_local i) = Some b0 ->
  blob_bytes st b0 = Some A ->
  blob_bytes st (kem_shared_secret (conn st)) = Some B ->
  data bc = Ptr (R_heap a) 0 -> 0 <= size bc <= UINT32_MAX ->
  heap st !! a = Some (Live (replicate (Z.to_nat (size bc)) 0)) ->
  (forall off, data b0 <> Ptr (R_heap a) off) ->
  (forall off, data (kem_shared_secret (conn st)) <> Ptr (R_heap a) off) ->
  exists r st1,
    (local_stuffer stuffer_zero ≫= fun sc =>
       s2n_stuffer_init sc (B_local j) ≫= fun _ =>
         s2n_stuffer_write malloc sc (B_local i) ≫= fun _ =>
           s2n_stuffer_write malloc sc B_kem_shared_secret) st = (r, st1)
    /\ (r = Ok tt ->
        zlen A + zlen B <= size bc
        /\ conn st1 = conn st /\ blobs st1 = blobs st
        /\ heap st1
           = <[a := Live (splice (splice (replicate (Z.to_nat (size bc)) 0) 0 A)
                            (length A) B)]> (heap st))
    /\ (zlen A + zlen B <= size bc -> r = Ok tt).
Proof.
  intros Hj Hi HA HB Hd Hn Hh Hout0 Hout1.
  pose proof (blob_bytes_size _ _ _ HA) as HsA.
  pose proof (blob_bytes_size _ _ _ HB) as HsB.
  assert (0 <= zlen A /\ 0 <= zlen B) as [HA0 HB0] by (unfold zlen; lia).
  pose proof (lookup_lt_Some _ _ _ Hh) as Ha.
  rewrite (combiner_init j bc st Hj).
  match goal with |- context [set_stuffers (_ ++ [?s]) st] =>
    set (s0 := s); set (st0 := set_stuffers (stuffers st ++ [s0]) st) end.
  assert (get_stuffer st0 (S_local (length (stuffers st))) = Some s0) as Hs0
    by (cbn; apply list_lookup_middle; reflexivity).
  rewrite run_bind.
  destruct (decide (zlen A <= size bc)) as [HfA|HfA].
  - rewrite (stuffer_write_cell malloc _ s0 (B_local i) b0 A a _ st0 Hs0 eq_refl Hi HA Hd Hh)
      by (first [ exact Hout0
                | unfold zlen; rewrite length_replicate; cbn; lia
                | cbn; lia ]).
    match goal with |- context [set_stuffers (<[_ := ?s]> _) st0] =>
      set (s1 := s) end.
    match goal with |- context [set_heap ?h (set_stuffers ?l st0)] =>
      set (st1 := set_heap h (set_stuffers l st0)) end.
    assert (get_stuffer st1 (S_local (length (stuffers st))) = Some s1) as Hs1.
    { cbn. apply list_lookup_insert_eq. rewrite length_app. cbn. lia. }
    assert (heap st1 !! a
            = Some (Live (splice (replicate (Z.to_nat (size bc)) 0) 0 A))) as Hh1.
    { cbn. now rewrite list_lookup_insert_eq. }
    assert (blob_bytes st1 (kem_shared_secret (conn st)) = Some B) as HB1.
    { apply (blob_bytes_frame st); [exact HB|reflexivity|].
      intros c off E. cbn. apply list_lookup_insert_ne. intros <-.
      exact (Hout1 _ E). }
    destruct (decide (zlen A + zlen B <= size bc)) as [HfB|HfB].
    + rewrite (stuffer_write_cell malloc _ s1 B_kem_shared_secret _ B a _ st1 Hs1 eq_refl
                 eq_refl HB1 Hd Hh1)
        by (first [ exact Hout1
                  | unfold zlen; rewrite length_splice;
                    rewrite ?length_replicate; unfold zlen in *; cbn; lia
                  | cbn; unfold zlen in *; lia ]).
      do 2 eexists. split; [reflexivity|]. split; [|done]. intros _.
      split; [exact HfB|]. split; [reflexivity|]. split; [reflexivity|].
      cbn. rewrite list_insert_insert_eq. do 3 f_equal.
      rewrite Z.add_0_l. unfold zlen. apply Nat2Z.id.
    + rewrite (stuffer_write_local malloc _ s1 B_kem_shared_secret _ st1 Hs1 eq_refl eq_refl)
        by (cbn; unfold UINT32_MAX in *; lia).
      rewrite (proj2 (Z.ltb_lt _ _)) by (cbn; lia).
      do 2 eexists. split; [reflexivity|]. split; [discriminate|]. intros; contradiction.
  - rewrite (stuffer_write_local malloc _ s0 (B_local i) b0 st0 Hs0 eq_refl Hi)
      by (cbn; unfold UINT32_MAX in *; lia).
    rewrite (proj2 (Z.ltb_lt _ _)) by (cbn; lia).
    do 2 eexists. split; [reflexivity|]. split; [discriminate|]. intros; lia.
Qed.

Lemma hybrid_concat_spec i j b0 A B st :
  i <> j -> (j < length (blobs st))%nat ->
  get_blob st (B_local i) = Some b0 ->
  blob_bytes st b0 = Some A ->
  blob_bytes st (kem_shared_secret (conn st)) = Some B ->
  exists r st1,
    hybrid_concat malloc (B_local j) (B_local i) B_kem_shared_secret st = (r, st1)
    /\ (r = Ok tt ->
        conn st1 = conn st
        /\ exists bc,
             blobs st1 = <[j := bc]> (blobs st)
             /\ size bc = zlen A + zlen B
             /\ ((data bc = NULL /\ A ++ B = [] /\ heap st1 = heap st)
                 \/ (data bc = Ptr (R_heap (length (heap st))) 0
                     /\ heap st1 = heap st ++ [Live (A ++ B)])))
    /\ (zlen A + zlen B <= UINT32_MAX ->
        malloc (world st) (zlen A + zlen B) = true -> r = Ok tt).
Proof.
  intros Hij Hj Hb0 HA HB.
  pose proof (blob_bytes_size _ _ _ HA) as HsA.
  pose proof (blob_bytes_size _ _ _ HB) as HsB.
  assert (0 <= zlen A /\ 0 <= zlen B) as [HA0 HB0] by (unfold zlen; lia).
  pose proof (uint32_range (zlen A + zlen B)) as Hn.
  pose proof (uint32_le (zlen A + zlen B) ltac:(lia)) as Hle.
  unfold hybrid_concat.
  assert (deref (B_local i) st = (Ok b0, st)) as H0 by (unfold deref; now rewrite Hb0).
  run_ok H0.
  assert (deref B_kem_shared_secret st = (Ok (kem_shared_secret (conn st)), st)) as H1
    by reflexivity.
  run_ok H1. rewrite HsA, HsB.
  set (n := uint32 (zlen A + zlen B)) in *.
  rewrite run_bind, (s2n_alloc_local malloc j n st Hj).
  assert (i < length (blobs st))%nat as Hi by (now apply lookup_lt_Some in Hb0).
  case_bool_decide as Hn0.
  - set (st0 := set_blobs (<[j := blob_zero]> (blobs st)) st).
    destruct (concat_writes_empty i j b0 st0) as (r & st1 & Hrun & Hok & Hdone).
    { cbn. now apply list_lookup_insert_eq. }
    { cbn. rewrite list_lookup_insert_ne by done. exact Hb0. }
    { lia. }
    { cbn. lia. }
    exists r, st1. split; [exact Hrun|]. split.
    + intros Hr. destruct (Hok Hr) as (Hz0 & Hz1 & Hc & Hbl & Hh).
      cbn in Hz1. split; [exact Hc|]. exists blob_zero.
      split; [exact Hbl|]. split; [cbn; lia|]. left.
      split; [reflexivity|]. split; [|exact Hh].
      rewrite (zlen_nil_inv A), (zlen_nil_inv B) by lia. reflexivity.
    + intros Hmax _. unfold n in Hn0.
      rewrite (uint32_small (zlen A + zlen B)) in Hn0 by lia.
      apply Hdone; cbn; lia.
  - destruct (malloc (world st) n) eqn:Hm.
    + match goal with |- context [set_blobs (<[j := ?b]> _) (set_heap ?h st)] =>
        set (bc := b); set (st0 := set_blobs (<[j := bc]> (blobs st)) (set_heap h st)) end.
      destruct (concat_writes_cell i j b0 bc (length (heap st)) A B st0)
        as (r & st1 & Hrun & Hok & Hdone).
      { cbn. now apply list_lookup_insert_eq. }
      { cbn. rewrite list_lookup_insert_ne by done. exact Hb0. }
      { apply (blob_bytes_frame st); [exact HA|reflexivity|].
        intros c off E. cbn. apply lookup_app_l.
        exact (blob_bytes_below _ _ _ _ _ HA E). }
      { apply (blob_bytes_frame st); [exact HB|reflexivity|].
        intros c off E. cbn. apply lookup_app_l.
        exact (blob_bytes_below _ _ _ _ _ HB E). }
      { reflexivity. }
      { exact Hn. }
      { cbn. apply list_lookup_middle. reflexivity. }
      { intros off E. pose proof (blob_bytes_below _ _ _ _ _ HA E). lia. }
      { intros off E. pose proof (blob_bytes_below _ _ _ _ _ HB E). lia. }
      exists r, st1. split; [exact Hrun|]. split.
      * intros Hr. destruct (Hok Hr) as (Hfit & Hc & Hbl & Hh).
        cbn in Hfit. assert (n = zlen A + zlen B) as Hsum by lia.
        split; [exact Hc|]. exists bc.
        split; [exact Hbl|]. split; [exact Hsum|]. right.
        split; [reflexivity|]. rewrite Hh. cbn.
        rewrite insert_app_r_alt, Nat.sub_diag by lia. cbn. do 3 f_equal.
        apply splice_concat. unfold zlen in Hsum. lia.
      * intros Hmax _. apply Hdone. cbn.
        unfold n. rewrite uint32_small; lia.
    + do 2 eexists. split; [reflexivity|]. split; [discriminate|].
      intros Hmax Hm'. unfold n in Hm. rewrite uint32_small in Hm by lia. congruence.
Qed.

End Concat.

Section Release.
Context {W : Type}.
Implicit Types st : state W.

Lemma store_frame st p new st1 :
  store st p new = Some st1 ->
  (forall q, get_blob st1 q = get_blob st q)
  /\ (forall c, (forall off, p <> Ptr (R_heap c) off) -> heap st1 !! c = heap st !! c).
Proof.
  unfold store. destruct p as [|r off]; [discriminate|].
  destruct (region_bytes st r); [|discriminate].
  case_bool_decide; [|discriminate]. intros [= <-].
  destruct r as [|a]; cbn.
  - split; [now intros []|done].
  - split; [now intros []|]. intros c Hc.
    apply list_lookup_insert_ne. intros <-. exact (Hc _ eq_refl).
Qed.

Lemma blob_zero_frame p b st r st1 :
  get_blob st p = Some b -> s2n_blob_zero p st = (r, st1) ->
  (forall q, get_blob st1 q = get_blob st q)
  /\ (forall c, (forall off, data b <> Ptr (R_heap c) off) -> heap st1 !! c = heap st !! c).
Proof.
  intros Hp. unfold s2n_blob_zero.
  rewrite (run_bind_ok _ _ st b st) by (unfold deref; now rewrite Hp).
  case_bool_decide; [now intros [= <- <-]|].
  rewrite run_bind. unfold notnull_check, S2N_ERROR_IF.
  case_bool_decide; [now intros [= <- <-]|].
  cbn. unfold mem_write.
  destruct (store st (data b) _) as [s|] eqn:Hst; intros [= <- <-]; [|done].
  exact (store_frame _ _ _ _ Hst).
Qed.

Lemma mem_free_frame p st r st1 :
  mem_free p st = (r, st1) ->
  (forall q, get_blob st1 q = get_blob st q)
  /\ (forall c, (forall off, p <> Ptr (R_heap c) off) -> heap st1 !! c = heap st !! c).
Proof.
  unfold mem_free. intros H.
  repeat case_match; simplify_eq; try done.
  cbn. split; [now intros []|]. intros c Hc.
  apply list_lookup_insert_ne. intros <-. exact (Hc _ eq_refl).
Qed.

(** What releasing a blob leaves alone: the other blobs, and the cells of
    the heap that the blob does not point into. *)
Lemma s2n_free_frame p b st r st1 :
  get_blob st p = Some b -> s2n_free p st = (r, st1) ->
  (forall q, q <> p -> get_blob st1 q = get_blob st q)
  /\ (forall c, (forall off, data b <> Ptr (R_heap c) off) -> heap st1 !! c = heap st !! c).
Proof.
  intros Hp. unfold s2n_free.
  rewrite (run_bind_ok _ _ st b st) by (unfold deref; now rewrite Hp).
  rewrite run_bind. unfold returned.
  destruct (s2n_blob_zero p st) as [rz sz] eqn:Hz.
  destruct (blob_zero_frame _ _ _ _ _ Hp Hz) as [Hzb Hzh].
  assert (forall (rc : result unit),
    (S2N_ERROR_IF (negb (s2n_blob_is_growable b)) S2N_ERR_FREE_STATIC_BLOB ≫= fun _ =>
       mem_free (data b) ≫= fun _ => assign p blob_zero ≫= fun _ => GUARD rc) sz = (r, st1) ->
    (forall q, q <> p -> get_blob st1 q = get_blob st q)
    /\ (forall c, (forall off, data b <> Ptr (R_heap c) off) -> heap st1 !! c = heap st !! c))
    as Hrest.
  { intros rc. rewrite run_bind. unfold S2N_ERROR_IF.
    destruct (negb _).
    { intros [= <- <-]. split; [intros; apply Hzb|exact Hzh]. }
    cbn [ret]. rewrite run_bind.
    destruct (mem_free (data b) sz) as [rf sf] eqn:Hf.
    destruct (mem_free_frame _ _ _ _ Hf) as [Hfb Hfh].
    assert (forall q, get_blob sf q = get_blob st q) as Hb2
      by (intros; now rewrite Hfb, Hzb).
    assert (forall c, (forall off, data b <> Ptr (R_heap c) off) ->
                      heap sf !! c = heap st !! c) as Hh2
      by (intros c Hc; now rewrite Hfh, Hzh).
    destruct rf as [[]| |]; try (intros [= <- <-]; split; [intros; apply Hb2|exact Hh2]).
    rewrite run_bind. unfold assign.
    destruct (put_blob p blob_zero sf) as [sa|] eqn:Hput;
      [|intros [= <- <-]; split; [intros; apply Hb2|exact Hh2]].
    intros Hg. assert (st1 = sa) as -> by (unfold GUARD in Hg; now injection Hg).
    split.
    - intros q Hq. rewrite (put_blob_other _ _ _ _ _ Hput Hq). apply Hb2.
    - intros c Hc. rewrite (put_blob_heap _ _ _ _ Hput). now apply Hh2. }
  destruct rz as [[]| |]; [apply Hrest|apply Hrest|].
  intros [= <- <-]. split; [intros; apply Hzb|exact Hzh].
Qed.

End Release.

Section ReleaseAll.
Context {W : Type}.
Implicit Types st : state W.

Lemma kem_free_release st :
  (s2n_kem_free ≫= fun _ => ret tt) st
  = release [B_kem_private_key; B_kem_public_key; B_kem_shared_secret] st.
Proof.
  unfold s2n_kem_free. cbn [release].
  rewrite run_bind_assoc. apply run_bind_ext. intros [] s0.
  rewrite run_bind_assoc. apply run_bind_ext. intros [] s1.
  reflexivity.
Qed.

Lemma release_frame c ps : forall st r st1,
  release ps st = (r, st1) -> NoDup ps ->
  (forall p, p ∈ ps ->
     exists b, get_blob st p = Some b /\ forall off, data b <> Ptr (R_heap c) off) ->
  heap st1 !! c = heap st !! c
  /\ forall q, q ∉ ps -> get_blob st1 q = get_blob st q.
Proof.
  induction ps as [|p ps IH]; intros st r st1 Hrun Hnd Hps.
  - injection Hrun as <- <-. done.
  - cbn [release] in Hrun. rewrite run_bind in Hrun.
    apply list.NoDup_cons in Hnd as [Hp Hnd].
    destruct (Hps p (list_elem_of_here _ _)) as (b & Hb & Hout).
    destruct (s2n_free p st) as [r0 s0] eqn:Hf.
    destruct (s2n_free_frame _ _ _ _ _ Hb Hf) as [Hfb Hfh].
    assert (heap s0 !! c = heap st !! c
            /\ forall q, q ∉ p :: ps -> get_blob s0 q = get_blob st q) as Hone.
    { split; [now apply Hfh|]. intros q Hq. apply Hfb.
      now apply not_elem_of_cons in Hq as [? _]. }
    destruct r0 as [[]| |]; try (injection Hrun as <- <-; exact Hone).
    destruct (IH _ _ _ Hrun Hnd) as [Hh Hbl].
    { intros p' Hp'. destruct (Hps p' (list_elem_of_further _ _ _ Hp')) as (b' & Hb' & Hout').
      exists b'. split; [|exact Hout']. rewrite Hfb; [exact Hb'|]. now intros ->. }
    split.
    + rewrite Hh. now apply Hfh.
    + intros q Hq. apply not_elem_of_cons in Hq as [Hqp Hq].
      rewrite Hbl by exact Hq. now apply Hfb.
Qed.

Lemma owned_data st b c off :
  blob_owned_or_empty st b = true -> data b = Ptr (R_heap c) off ->
  blob_cell b = Some c /\ (c < length (heap st))%nat.
Proof.
  unfold blob_owned_or_empty. intros H Hd.
  apply andb_prop in H as [Hv Hg].
  destruct (blob_valid_inv _ _ Hv) as [(E & _)|[(Hng & _ & _)|(Hgr & a & bs & E & Hh & _)]].
  - congruence.
  - rewrite Hng in Hg. cbn in Hg. apply bool_decide_eq_true in Hg. congruence.
  - rewrite Hd in E. injection E as -> ->. unfold blob_cell. rewrite Hd, Hgr.
    split; [done|]. now apply lookup_lt_Some in Hh.
Qed.

Lemma blob_owned_frame st st' b :
  blob_owned_or_empty st b = true ->
  (forall c, blob_cell b = Some c -> heap st' !! c = heap st !! c) ->
  blob_owned_or_empty st' b = true.
Proof.
  unfold blob_owned_or_empty, blob_valid, blob_cell. intros H Hh.
  destruct (data b) as [|r off]; [exact H|].
  destruct (growable b).
  - destruct r as [|c]; [exact H|]. now rewrite (Hh c eq_refl).
  - rewrite andb_false_r in H. discriminate.
Qed.

Lemma s2n_free_ok p b st :
  get_blob st p = Some b -> blob_owned_or_empty st b = true ->
  exists st1, s2n_free p st = (Ok tt, st1).
Proof.
  intros Hp H. unfold blob_owned_or_empty in H. apply andb_prop in H as [Hv Hg].
  destruct (blob_valid_inv _ _ Hv)
    as [(E & Hs & Ha)|[(Hng & _ & r & off & bs & E & _)
                      |(Hgr & a & bs & E & Hh & Hal & Hsz & Hpos)]].
  - destruct (s2n_free_empty p b st Hp E Hs Ha) as (st1 & H1 & _). eauto.
  - rewrite Hng in Hg. cbn in Hg. apply bool_decide_eq_true in Hg. congruence.
  - destruct (s2n_free_owned p b a bs st Hp Hgr E Hh Hal Hsz Hpos) as (st1 & H1 & _). eauto.
Qed.

Lemma Forall2_with {A B} (P : A -> B -> Prop) (Q : A -> Prop) (R : B -> Prop) l k :
  Forall2 P l k -> Forall Q l -> Forall R k ->
  Forall2 (fun x y => P x y /\ Q x /\ R y) l k.
Proof.
  induction 1 as [|x y l k Hxy _ IH]; intros HQ HR; [constructor|].
  inversion_clear HQ. inversion_clear HR. constructor; auto.
Qed.

Lemma omap_cell_apart b (bs : list s2n_blob) :
  NoDup (omap blob_cell (b :: bs)) ->
  NoDup (omap blob_cell bs)
  /\ Forall (fun b' => forall c, blob_cell b' = Some c -> blob_cell b <> Some c) bs.
Proof.
  change (omap blob_cell (b :: bs))
    with (match blob_cell b with
          | Some y => y :: omap blob_cell bs
          | None => omap blob_cell bs
          end).
  destruct (blob_cell b) as [c0|] eqn:Hc.
  - intros H. apply list.NoDup_cons in H as [Hnin Hnd]. split; [exact Hnd|].
    apply list.Forall_forall. intros b' Hb' c Hc' [= ->].
    apply Hnin. apply list_elem_of_omap. eauto.
  - intros H. split; [exact H|]. apply list.Forall_forall. intros; discriminate.
Qed.

Lemma release_ok ps : forall bs st,
  Forall2 (fun p b => get_blob st p = Some b /\ blob_owned_or_empty st b = true) ps bs ->
  NoDup ps -> NoDup (omap blob_cell bs) ->
  exists st1, release ps st = (Ok tt, st1).
Proof.
  induction ps as [|p ps IH]; intros bs st Hall Hnd Hcells.
  - eexists. reflexivity.
  - destruct bs as [|b bs]; [inversion Hall|].
    apply list.Forall2_cons in Hall as [[Hp Ho] Hall].
    apply list.NoDup_cons in Hnd as [Hnp Hnd].
    apply omap_cell_apart in Hcells as [Hcells Hapart].
    destruct (s2n_free_ok p b st Hp Ho) as [s0 Hf].
    destruct (s2n_free_frame _ _ _ _ _ Hp Hf) as [Hfb Hfh].
    cbn [release]. rewrite (run_bind_ok _ _ _ _ _ Hf).
    apply (IH bs); [|exact Hnd|exact Hcells].
    assert (Forall (fun p' => p' <> p) ps) as Hne
      by (apply list.Forall_forall; intros p' Hp' ->; contradiction).
    eapply list.Forall2_impl; [exact (Forall2_with _ _ _ _ _ Hall Hne Hapart)|].
    cbn beta. intros p' b' ((Hp' & Ho') & Hpp & Hbb).
    split; [now rewrite Hfb|].
    apply (blob_owned_frame st); [exact Ho'|].
    intros c Hc. apply Hfh. intros off E.
    destruct (owned_data _ _ _ _ Ho E) as [Hcb _]. exact (Hbb c Hc Hcb).
Qed.

End ReleaseAll.

Section Secret.
Context {W : Type}.
Variable malloc : W -> Z -> bool.
Implicit Types st : state W.

Lemma owned_cell_below st b c :
  blob_owned_or_empty st b = true -> blob_cell b = Some c -> (c < length (heap st))%nat.
Proof.
  intros Ho Hc. unfold blob_cell in Hc.
  destruct (data b) as [|[|c'] off] eqn:Hd; try discriminate.
  destruct (growable b); [|discriminate]. injection Hc as ->.
  exact (proj2 (owned_data _ _ _ _ Ho Hd)).
Qed.

Lemma defer_ok_inv {A} (cleanup : M W unit) (body : M W A) st a st' :
  DEFER_CLEANUP cleanup body st = (Ok a, st') ->
  exists s1 rc, body st = (Ok a, s1) /\ cleanup s1 = (rc, st').
Proof.
  unfold DEFER_CLEANUP. destruct (body st) as [r s1].
  destruct (cleanup s1) as [rc s2] eqn:Hc.
  destruct rc as [[]|e|]; [|destruct r|]; intros [= -> ->]; eauto.
Qed.

Lemma hybrid_tail_secret i j cursor start b0 A B st :
  j <> i -> (j < length (blobs st))%nat ->
  get_blob st (B_local i) = Some b0 ->
  blob_bytes st b0 = Some A ->
  blob_bytes st (kem_shared_secret (conn st)) = Some B ->
  blobs_owned st [b0; kem_private_key (conn st); kem_public_key (conn st);
                  kem_shared_secret (conn st)] = true ->
  (forall st',
     DEFER_CLEANUP (s2n_free (B_local i))
       (hybrid_after_kex malloc (B_local j) (B_local i) cursor start) st = (Ok tt, st') ->
     exists bc, get_blob st' (B_local j) = Some bc
                /\ size bc = zlen A + zlen B
                /\ blob_bytes st' bc = Some (A ++ B))
  /\ (start <= cursor_of cursor st ->
      zlen A + zlen B <= UINT32_MAX ->
      malloc (world st) (zlen A + zlen B) = true ->
      exists st',
        DEFER_CLEANUP (s2n_free (B_local i))
          (hybrid_after_kex malloc (B_local j) (B_local i) cursor start) st = (Ok tt, st')).
Proof.
  intros Hji Hj Hb0 HA HB Hown.
  apply andb_prop in Hown as [Hall Hnd]. apply bool_decide_eq_true in Hnd.
  cbn [forallb] in Hall.
  apply andb_prop in Hall as [Ho0 Hall]. apply andb_prop in Hall as [Hopriv Hall].
  apply andb_prop in Hall as [Hopub Hall]. apply andb_prop in Hall as [Ho1 _].
  set (a := length (heap st)).
  set (ps := [B_kem_private_key; B_kem_public_key; B_kem_shared_secret]).
  assert (NoDup ps) as Hps by (refine (bool_decide_unpack _ _); vm_compute; exact I).
  (* the state in which the combiner runs *)
  assert (exists st_m,
    (forall e, (gte_check e start ≫= fun _ =>
        modify (set_conn (fun c =>
          set_client_key_exchange_message
            (set_size (uint32 (e - start)) (client_key_exchange_message c)) c)) ≫= fun _ =>
        hybrid_combine malloc (B_local j) (B_local i) B_kem_shared_secret) st
      = if e <? start then (Err S2N_ERR_SAFETY, st)
        else hybrid_combine malloc (B_local j) (B_local i) B_kem_shared_secret (st_m e))
    /\ forall e, heap (st_m e) = heap st /\ blobs (st_m e) = blobs st
       /\ world (st_m e) = world st
       /\ kem_private_key (conn (st_m e)) = kem_private_key (conn st)
       /\ kem_public_key (conn (st_m e)) = kem_public_key (conn st)
       /\ kem_shared_secret (conn (st_m e)) = kem_shared_secret (conn st)
       /\ rsa_premaster_secret (conn (st_m e)) = rsa_premaster_secret (conn st))
    as (st_m & Hbody & Hm).
  { eexists (fun e => set_conn _ st). split.
    - intros e. unfold gte_check, S2N_ERROR_IF. destruct (e <? start); reflexivity.
    - intros e. cbn. repeat split. }
  set (e := cursor_of cursor st).
  specialize (Hbody e). specialize (Hm e).
  destruct Hm as (Hmh & Hmb & Hmw & Hmpriv & Hmpub & Hmsec & Hmpre).
  set (sm := st_m e) in *.
  assert (hybrid_after_kex malloc (B_local j) (B_local i) cursor start st
          = if e <? start then (Err S2N_ERR_SAFETY, st)
            else hybrid_combine malloc (B_local j) (B_local i) B_kem_shared_secret sm)
    as Hafter.
  { unfold hybrid_after_kex.
    rewrite (run_bind_ok _ _ st e st) by (now destruct cursor). exact Hbody. }
  destruct (hybrid_concat_spec malloc i j b0 A B sm) as (r & s1 & Hrun & Hok & Hdone).
  { congruence. }
  { now rewrite Hmb. }
  { cbn. rewrite Hmb. exact Hb0. }
  { apply (blob_bytes_frame st); [exact HA|exact Hmpre|]. intros. now rewrite Hmh. }
  { rewrite Hmsec. apply (blob_bytes_frame st); [exact HB|exact Hmpre|].
    intros. now rewrite Hmh. }
  rewrite Hmh, Hmb, Hmw in *. fold a in Hok.
  assert (hybrid_combine malloc (B_local j) (B_local i) B_kem_shared_secret sm
          = match r with
            | Ok _ => release ps s1
            | Err e => (Err e, s1)
            | Crash => (Crash, s1)
            end) as Hcomb.
  { rewrite hybrid_combine_concat, run_bind, Hrun.
    destruct r as [[]| |]; try reflexivity. apply kem_free_release. }
  (* what the combiner has built when it succeeds *)
  assert (r = Ok tt ->
    exists bc,
      get_blob s1 (B_local j) = Some bc /\ size bc = zlen A + zlen B
      /\ get_blob s1 (B_local i) = Some b0
      /\ kem_private_key (conn s1) = kem_private_key (conn st)
      /\ kem_public_key (conn s1) = kem_public_key (conn st)
      /\ kem_shared_secret (conn s1) = kem_shared_secret (conn st)
      /\ (forall c, (c < a)%nat -> heap s1 !! c = heap st !! c)
      /\ forall s5 : state W, heap s5 !! a = heap s1 !! a ->
           blob_bytes s5 bc = Some (A ++ B)) as Hbuilt.
  { intros Hr. destruct (Hok Hr) as (Hc & bc & Hbl & Hsz & Halt).
    exists bc. rewrite Hc, Hmpriv, Hmpub, Hmsec. cbn [get_blob]. rewrite Hbl.
    split; [now apply list_lookup_insert_eq|]. split; [exact Hsz|].
    split; [rewrite list_lookup_insert_ne by done; exact Hb0|].
    do 3 (split; [reflexivity|]).
    destruct Halt as [(Hd & Hnil & Hh)|(Hd & Hh)].
    - split; [intros; now rewrite Hh|]. intros s5 _.
      unfold blob_bytes. rewrite Hd, Hnil.
      apply app_eq_nil in Hnil as [-> ->]. cbn in Hsz.
      now rewrite bool_decide_eq_true_2.
    - split; [intros c Hc'; rewrite Hh; now apply lookup_app_l|].
      intros s5 H5. unfold blob_bytes. rewrite Hd, Hsz.
      replace (zlen A + zlen B) with (zlen (A ++ B))
        by (unfold zlen; rewrite length_app; lia).
      apply load_whole_cell. rewrite H5, Hh. now apply list_lookup_middle. }
  (* the blobs that are released do not point into the new cell *)
  assert (forall b c off, blob_owned_or_empty st b = true ->
                          data b = Ptr (R_heap c) off -> (c < a)%nat) as Hbelow
    by (intros b c off Ho E; exact (proj2 (owned_data _ _ _ _ Ho E))).
  split.
  - intros st' Hall. apply defer_ok_inv in Hall as (s4 & rc & Hb & Hfree).
    rewrite Hafter in Hb. destruct (e <? start); [discriminate|].
    rewrite Hcomb in Hb. destruct r as [[]| |]; try discriminate.
    destruct (Hbuilt eq_refl) as (bc & Hbc & Hsz & Hi1 & Hpriv & Hpub & Hsec & _ & Hbytes).
    destruct (release_frame a ps _ _ _ Hb Hps) as [Hh4 Hb4].
    { intros p Hp. unfold ps in Hp.
      rewrite !elem_of_cons, elem_of_nil in Hp.
      destruct Hp as [->|[->|[->|[]]]]; eexists; (split; [reflexivity|]);
        intros off E; rewrite ?Hpriv, ?Hpub, ?Hsec in E.
      - pose proof (Hbelow _ _ _ Hopriv E). lia.
      - pose proof (Hbelow _ _ _ Hopub E). lia.
      - pose proof (Hbelow _ _ _ Ho1 E). lia. }
    assert (forall k, B_local k ∉ ps) as Hloc.
    { intros k Hk. unfold ps in Hk. rewrite !elem_of_cons, elem_of_nil in Hk.
      destruct Hk as [|[|[|[]]]]; discriminate. }
    assert (get_blob s4 (B_local i) = Some b0) as Hi4 by (now rewrite Hb4).
    destruct (s2n_free_frame _ _ _ _ _ Hi4 Hfree) as [Hb5 Hh5].
    exists bc. split; [|split; [exact Hsz|]].
    + rewrite Hb5 by congruence. now rewrite Hb4.
    + apply Hbytes. rewrite Hh5; [exact Hh4|].
      intros off E. pose proof (Hbelow _ _ _ Ho0 E). lia.
  - intros Hcur Hmax Hmalloc.
    assert (r = Ok tt) as -> by (now apply Hdone).
    destruct (Hbuilt eq_refl) as (bc & Hbc & Hsz & Hi1 & Hpriv & Hpub & Hsec & Hlow & _).
    apply omap_cell_apart in Hnd as [Hnd Hapart].
    assert (forall b, blob_owned_or_empty st b = true -> blob_owned_or_empty s1 b = true)
      as Hkeep.
    { intros b Ho. apply (blob_owned_frame st); [exact Ho|].
      intros c Hc. apply Hlow. exact (owned_cell_below _ _ _ Ho Hc). }
    destruct (release_ok ps [kem_private_key (conn st); kem_public_key (conn st);
                             kem_shared_secret (conn st)] s1) as [s4 Hrel];
      [|exact Hps|exact Hnd|].
    { repeat constructor; cbn [get_blob]; try congruence; now apply Hkeep. }
    assert (forall k, B_local k ∉ ps) as Hloc.
    { intros k Hk. unfold ps in Hk. rewrite !elem_of_cons, elem_of_nil in Hk.
      destruct Hk as [|[|[|[]]]]; discriminate. }
    assert (forall c, blob_cell b0 = Some c -> heap s4 !! c = heap s1 !! c) as Hcell.
    { intros c Hc. refine (proj1 (release_frame c ps _ _ _ Hrel Hps _)).
      intros p Hp. unfold ps in Hp.
      rewrite !elem_of_cons, elem_of_nil in Hp.
      rewrite !list.Forall_cons in Hapart. destruct Hapart as (Ha1 & Ha2 & Ha3 & _).
      destruct Hp as [->|[->|[->|[]]]]; eexists; (split; [reflexivity|]);
        intros off E; rewrite ?Hpriv, ?Hpub, ?Hsec in E.
      - exact (Ha1 c (proj1 (owned_data _ _ _ _ Hopriv E)) Hc).
      - exact (Ha2 c (proj1 (owned_data _ _ _ _ Hopub E)) Hc).
      - exact (Ha3 c (proj1 (owned_data _ _ _ _ Ho1 E)) Hc). }
    assert (get_blob s4 (B_local i) = Some b0) as Hi4.
    { rewrite <- Hi1. refine (proj2 (release_frame a ps _ _ _ Hrel Hps _) _ (Hloc i)).
      intros p Hp. unfold ps in Hp.
      rewrite !elem_of_cons, elem_of_nil in Hp.
      destruct Hp as [->|[->|[->|[]]]]; eexists; (split; [reflexivity|]);
        intros off E; rewrite ?Hpriv, ?Hpub, ?Hsec in E.
      - pose proof (Hbelow _ _ _ Hopriv E). lia.
      - pose proof (Hbelow _ _ _ Hopub E). lia.
      - pose proof (Hbelow _ _ _ Ho1 E). lia. }
    destruct (s2n_free_ok (B_local i) b0 s4 Hi4) as [s5 Hfree].
    { apply (blob_owned_frame s1); [now apply Hkeep|exact Hcell]. }
    exists s5. unfold DEFER_CLEANUP. rewrite Hafter.
    rewrite (proj2 (Z.ltb_ge _ _)) by (unfold e; lia).
    rewrite Hcomb, Hrel, Hfree. reflexivity.
Qed.

End Secret.

(** C3: in both directions of the hybrid exchange, with A the bytes of
    the secret of the classical sub-operation and B the bytes of the
    secret of the KEM sub-operation, every successful run of the handler
    leaves in the combined shared key a blob of size len(A) + len(B)
    whose bytes are A followed by B; and the handler does succeed when
    the cursor has not moved backwards, len(A) + len(B) fits a uint32_t
    and the allocator serves the request. *)
Theorem hybrid_combined_secret {W} (malloc : W -> Z -> bool)
    (kex_recv kex_send : s2n_kex_client_key_method (W := W))
    dir j st d st_a st_b st_c b0 A B :
  direction_stuffer_action malloc dir S_handshake_io 0 st = (Ok d, st_a) ->
  d <> NULL ->
  direction_kex_method dir kex_recv kex_send
    (fst (hybrid (key_exchange_alg (conn st)))) (B_local (length (blobs st_a)))
    (hybrid_enter d st_a) = (Ok tt, st_b) ->
  direction_kex_method dir kex_recv kex_send
    (snd (hybrid (key_exchange_alg (conn st)))) B_kem_shared_secret st_b = (Ok tt, st_c) ->
  j <> length (blobs st_a) -> (j < length (blobs st_c))%nat ->
  get_blob st_c (B_local (length (blobs st_a))) = Some b0 ->
  blob_bytes st_c b0 = Some A ->
  blob_bytes st_c (kem_shared_secret (conn st_c)) = Some B ->
  blobs_owned st_c [b0; kem_private_key (conn st_c); kem_public_key (conn st_c);
                    kem_shared_secret (conn st_c)] = true ->
  (forall st',
     s2n_hybrid_client_key malloc dir kex_recv kex_send (B_local j) st = (Ok tt, st') ->
     exists bc, get_blob st' (B_local j) = Some bc
                /\ size bc = zlen A + zlen B
                /\ blob_bytes st' bc = Some (A ++ B))
  /\ (cursor_of (direction_cursor dir) st_a <= cursor_of (direction_cursor dir) st_c ->
      zlen A + zlen B <= UINT32_MAX ->
      malloc (world st_c) (zlen A + zlen B) = true ->
      exists st',
        s2n_hybrid_client_key malloc dir kex_recv kex_send (B_local j) st = (Ok tt, st')).
Proof.
  intros Hsa Hd Hk0 Hk1 Hji Hj Hb0 HA HB Hown.
  assert (s2n_hybrid_client_key malloc dir kex_recv kex_send (B_local j) st
          = DEFER_CLEANUP (s2n_free (B_local (length (blobs st_a))))
              (hybrid_after_kex malloc (B_local j) (B_local (length (blobs st_a)))
                 (direction_cursor dir) (cursor_of (direction_cursor dir) st_a)) st_c)
    as ->.
  { rewrite <- (hybrid_action_decompose malloc (B_local j) _ _ _ st d st_a st_b st_c
                  Hsa Hd Hk0 Hk1).
    now destruct dir. }
  exact (hybrid_tail_secret malloc _ j (direction_cursor dir) _ b0 A B st_c
           Hji Hj Hb0 HA HB Hown).
Qed.

Lemma hybrid_combined_secret_witness :
  exists bc,
    get_blob Examples.st_hybrid_done (B_local 0) = Some bc
    /\ size bc = 96
    /\ blob_bytes Examples.st_hybrid_done bc = Some (replicate 32 21 ++ replicate 64 31).
Proof.
  assert (direction_stuffer_action Examples.example_malloc Receive S_handshake_io 0
            Examples.st_hybrid
          = (Ok (Ptr (R_heap 0) 0), Examples.st_hybrid_a)) as Ha
    by (vm_compute; reflexivity).
  assert (direction_kex_method Receive Examples.example_kex_recv Examples.example_kex_send
            (fst (hybrid (key_exchange_alg (conn Examples.st_hybrid))))
            (B_local (length (blobs Examples.st_hybrid_a)))
            (hybrid_enter (Ptr (R_heap 0) 0) Examples.st_hybrid_a)
          = (Ok tt, Examples.st_hybrid_b)) as Hb
    by (vm_compute; reflexivity).
  assert (direction_kex_method Receive Examples.example_kex_recv Examples.example_kex_send
            (snd (hybrid (key_exchange_alg (conn Examples.st_hybrid))))
            B_kem_shared_secret Examples.st_hybrid_b = (Ok tt, Examples.st_hybrid_c)) as Hc
    by (vm_compute; reflexivity).
  assert (get_blob Examples.st_hybrid_c (B_local (length (blobs Examples.st_hybrid_a)))
          = Some (mk_blob (Ptr (R_heap 1) 0) 32 32 true)) as Hg
    by (vm_compute; reflexivity).
  assert (blob_bytes Examples.st_hybrid_c (mk_blob (Ptr (R_heap 1) 0) 32 32 true)
          = Some (replicate 32 21)) as HA
    by (vm_compute; reflexivity).
  assert (blob_bytes Examples.st_hybrid_c (kem_shared_secret (conn Examples.st_hybrid_c))
          = Some (replicate 64 31)) as HB
    by (vm_compute; reflexivity).
  assert (blobs_owned Examples.st_hybrid_c
            [mk_blob (Ptr (R_heap 1) 0) 32 32 true;
             kem_private_key (conn Examples.st_hybrid_c);
             kem_public_key (conn Examples.st_hybrid_c);
             kem_shared_secret (conn Examples.st_hybrid_c)] = true) as Hown
    by (vm_compute; reflexivity).
  assert (s2n_hybrid_client_key Examples.example_malloc Receive Examples.example_kex_recv
            Examples.example_kex_send (B_local 0) Examples.st_hybrid
          = (Ok tt, Examples.st_hybrid_done)) as Hrun
    by (vm_compute; reflexivity).
  assert (0%nat <> length (blobs Examples.st_hybrid_a)) as Hji
    by (vm_compute; discriminate).
  assert (0 < length (blobs Examples.st_hybrid_c))%nat as Hj
    by (vm_compute; lia).
  destruct (hybrid_combined_secret Examples.example_malloc Examples.example_kex_recv
              Examples.example_kex_send Receive 0%nat Examples.st_hybrid (Ptr (R_heap 0) 0)
              Examples.st_hybrid_a Examples.st_hybrid_b Examples.st_hybrid_c _ _ _
              Ha ltac:(discriminate) Hb Hc Hji Hj Hg HA HB Hown) as [H _].
  exact (H Examples.st_hybrid_done Hrun).
Defined.

(** ** The captured message of the hybrid exchange *)

Section Span.
Context {W : Type}.
Variable malloc : W -> Z -> bool.
Implicit Types st : state W.

(** s2n_free refuses a valid blob that views storage it does not own. *)
Lemma s2n_free_static p b st :
  get_blob st p = Some b -> blob_valid st b = true ->
  growable b || bool_decide (data b = NULL) = false ->
  exists st1, s2n_free p st = (Err S2N_ERR_FREE_STATIC_BLOB, st1).
Proof.
  intros Hp Hv Hs. apply orb_false_elim in Hs as [Hg Hn].
  apply bool_decide_eq_false in Hn.
  destruct (blob_valid_inv _ _ Hv)
    as [(Hd & _) | [(_ & Ha & rg & off & bs & Hd & Hl) | (Hg' & _)]];
    [contradiction| |congruence].
  destruct (blob_zero_view p b bs st Hp Ha Hl) as (st1 & Hz & _).
  exists st1. unfold s2n_free.
  rewrite (run_bind_ok _ _ st b st) by (unfold deref; now rewrite Hp).
  rewrite (run_bind_ok _ _ st (Ok tt) st1) by (unfold returned; now rewrite Hz).
  unfold s2n_blob_is_growable. rewrite Hg, Hd. reflexivity.
Qed.

(** The statements that follow the two sub-operations, under the release
    of shared_key_0: what they return when the cursor has moved back, and
    the captured message they leave. *)
Lemma hybrid_tail_span i combined cursor start b0 st r st' :
  0 <= start -> cursor_of cursor st <= UINT32_MAX ->
  get_blob st (B_local i) = Some b0 ->
  blob_valid st b0 = true ->
  DEFER_CLEANUP (s2n_free (B_local i))
    (hybrid_after_kex malloc combined (B_local i) cursor start) st = (r, st') ->
  if cursor_of cursor st <? start
  then r = Err (if growable b0 || bool_decide (data b0 = NULL)
                then S2N_ERR_SAFETY else S2N_ERR_FREE_STATIC_BLOB)
       /\ captured_message st' = captured_message st
  else captured_message st' = set_size (cursor_of cursor st - start) (captured_message st)
       /\ 0 <= size (captured_message st').
Proof.
  intros Hstart Hend Hb0 Hv0.
  unfold DEFER_CLEANUP, hybrid_after_kex.
  rewrite (run_bind_ok _ _ st (cursor_of cursor st) st) by (now destruct cursor).
  unfold gte_check.
  destruct (cursor_of cursor st <? start) eqn:Hlt.
  - rewrite (run_bind_err _ _ st S2N_ERR_SAFETY st) by reflexivity.
    destruct (growable b0 || bool_decide (data b0 = NULL)) eqn:Hs.
    + destruct (s2n_free_ok (B_local i) b0 st Hb0) as (s2 & Hf).
      { unfold blob_owned_or_empty. now rewrite Hv0, Hs. }
      rewrite Hf. intros [= <- <-]. split; [reflexivity|].
      exact (keeps_free _ _ _ _ Hf).
    + destruct (s2n_free_static _ _ _ Hb0 Hv0 Hs) as (s2 & Hf).
      rewrite Hf. intros [= <- <-]. split; [reflexivity|].
      exact (keeps_free _ _ _ _ Hf).
  - apply Z.ltb_ge in Hlt.
    rewrite (run_bind_ok _ _ st tt st) by reflexivity.
    match goal with |- context [modify ?f] =>
      rewrite (run_bind_ok (modify f) _ st tt (f st)) by reflexivity end.
    match goal with |- context [hybrid_combine _ _ _ _ ?s] =>
      destruct (hybrid_combine malloc combined (B_local i) B_kem_shared_secret s)
        as [r1 s1] eqn:Hc end.
    destruct (s2n_free (B_local i) s1) as [r2 s2] eqn:Hf.
    intros H.
    assert (st' = s2) as -> by (destruct r2; now injection H).
    rewrite (keeps_free _ _ _ _ Hf), (keeps_hybrid_combine _ _ _ _ _ _ _ Hc).
    unfold captured_message, uint32, UINT32_MAX in *. proj_simpl.
    rewrite Z.mod_small by lia. split; [reflexivity|]. proj_simpl. lia.
Qed.

End Span.

(** C7: in both directions of the hybrid exchange, once the start of the
    message has been taken and the two sub-operations have run, the
    handler fails whenever the cursor then lies before the cursor at the
    start, and records no size: the error is the safety error of the
    comparison, unless shared_key_0 is a view that s2n_free refuses, whose
    error is then the last one set. Otherwise the captured client key
    exchange message has the size end cursor - start cursor, which is not
    negative, in the state that the handler leaves, whatever the
    statements after the comparison return. *)
Theorem hybrid_captured_message_span {W} (malloc : W -> Z -> bool)
    (kex_recv kex_send : s2n_kex_client_key_method (W := W))
    dir combined st d st_a st_b st_c b0 r st' :
  direction_stuffer_action malloc dir S_handshake_io 0 st = (Ok d, st_a) ->
  d <> NULL ->
  direction_kex_method dir kex_recv kex_send
    (fst (hybrid (key_exchange_alg (conn st)))) (B_local (length (blobs st_a)))
    (hybrid_enter d st_a) = (Ok tt, st_b) ->
  direction_kex_method dir kex_recv kex_send
    (snd (hybrid (key_exchange_alg (conn st)))) B_kem_shared_secret st_b = (Ok tt, st_c) ->
  0 <= cursor_of (direction_cursor dir) st_a ->
  cursor_of (direction_cursor dir) st_c <= UINT32_MAX ->
  get_blob st_c (B_local (length (blobs st_a))) = Some b0 ->
  blob_valid st_c b0 = true ->
  s2n_hybrid_client_key malloc dir kex_recv kex_send combined st = (r, st') ->
  if cursor_of (direction_cursor dir) st_c <? cursor_of (direction_cursor dir) st_a
  then r = Err (if growable b0 || bool_decide (data b0 = NULL)
                then S2N_ERR_SAFETY else S2N_ERR_FREE_STATIC_BLOB)
       /\ captured_message st' = captured_message st_c
  else captured_message st'
       = set_size (cursor_of (direction_cursor dir) st_c
                   - cursor_of (direction_cursor dir) st_a) (captured_message st_c)
       /\ 0 <= size (captured_message st').
Proof.
  intros Hsa Hd Hk0 Hk1 Hstart Hend Hb0 Hv0.
  assert (s2n_hybrid_client_key malloc dir kex_recv kex_send combined st
          = DEFER_CLEANUP (s2n_free (B_local (length (blobs st_a))))
              (hybrid_after_kex malloc combined (B_local (length (blobs st_a)))
                 (direction_cursor dir) (cursor_of (direction_cursor dir) st_a)) st_c)
    as ->.
  { rewrite <- (hybrid_action_decompose malloc combined _ _ _ st d st_a st_b st_c
                  Hsa Hd Hk0 Hk1).
    now destruct dir. }
  exact (hybrid_tail_span malloc _ combined (direction_cursor dir) _ b0 st_c r st'
           Hstart Hend Hb0 Hv0).
Qed.

(** A message of three bytes, received and sent. *)
Lemma hybrid_captured_message_span_witness :
  (captured_message Examples.st_hybrid_done
   = set_size 3 (captured_message Examples.st_hybrid_c)
   /\ 0 <= size (captured_message Examples.st_hybrid_done))
  /\ (captured_message MoreExamples.st_hybrid_send_done
      = set_size 3 (captured_message MoreExamples.st_hybrid_send_c)
      /\ 0 <= size (captured_message MoreExamples.st_hybrid_send_done)).
Proof.
  split.
  - assert (direction_stuffer_action Examples.example_malloc Receive S_handshake_io 0
              Examples.st_hybrid
            = (Ok (Ptr (R_heap 0) 0), Examples.st_hybrid_a)) as Ha
      by (vm_compute; reflexivity).
    assert (direction_kex_method Receive Examples.example_kex_recv Examples.example_kex_send
              (fst (hybrid (key_exchange_alg (conn Examples.st_hybrid))))
              (B_local (length (blobs Examples.st_hybrid_a)))
              (hybrid_enter (Ptr (R_heap 0) 0) Examples.st_hybrid_a)
            = (Ok tt, Examples.st_hybrid_b)) as Hb
      by (vm_compute; reflexivity).
    assert (direction_kex_method Receive Examples.example_kex_recv Examples.example_kex_send
              (snd (hybrid (key_exchange_alg (conn Examples.st_hybrid))))
              B_kem_shared_secret Examples.st_hybrid_b = (Ok tt, Examples.st_hybrid_c)) as Hc
      by (vm_compute; reflexivity).
    assert (get_blob Examples.st_hybrid_c (B_local (length (blobs Examples.st_hybrid_a)))
            = Some (mk_blob (Ptr (R_heap 1) 0) 32 32 true)) as Hg
      by (vm_compute; reflexivity).
    assert (s2n_hybrid_client_key Examples.example_malloc Receive Examples.example_kex_recv
              Examples.example_kex_send (B_local 0) Examples.st_hybrid
            = (Ok tt, Examples.st_hybrid_done)) as Hrun
      by (vm_compute; reflexivity).
    pose proof (hybrid_captured_message_span Examples.example_malloc
                  Examples.example_kex_recv Examples.example_kex_send
                  Receive (B_local 0) Examples.st_hybrid (Ptr (R_heap 0) 0)
                  Examples.st_hybrid_a Examples.st_hybrid_b Examples.st_hybrid_c _ _ _
                  Ha ltac:(discriminate) Hb Hc ltac:(vm_compute; discriminate)
                  ltac:(vm_compute; discriminate) Hg ltac:(vm_compute; reflexivity) Hrun)
      as H.
    change (cursor_of (direction_cursor Receive) Examples.st_hybrid_c
            <? cursor_of (direction_cursor Receive) Examples.st_hybrid_a) with false in H.
    cbv iota in H. exact H.
  - assert (direction_stuffer_action Examples.example_malloc Send S_handshake_io 0
              MoreExamples.st_hybrid_send
            = (Ok (Ptr (R_heap 0) 0), MoreExamples.st_hybrid_send_a)) as Ha
      by (vm_compute; reflexivity).
    assert (direction_kex_method Send Examples.example_kex_recv Examples.example_kex_send
              (fst (hybrid (key_exchange_alg (conn MoreExamples.st_hybrid_send))))
              (B_local (length (blobs MoreExamples.st_hybrid_send_a)))
              (hybrid_enter (Ptr (R_heap 0) 0) MoreExamples.st_hybrid_send_a)
            = (Ok tt, MoreExamples.st_hybrid_send_b)) as Hb
      by (vm_compute; reflexivity).
    assert (direction_kex_method Send Examples.example_kex_recv Examples.example_kex_send
              (snd (hybrid (key_exchange_alg (conn MoreExamples.st_hybrid_send))))
              B_kem_shared_secret MoreExamples.st_hybrid_send_b
            = (Ok tt, MoreExamples.st_hybrid_send_c)) as Hc
      by (vm_compute; reflexivity).
    assert (get_blob MoreExamples.st_hybrid_send_c
              (B_local (length (blobs MoreExamples.st_hybrid_send_a)))
            = Some (mk_blob (Ptr (R_heap 1) 0) 32 32 true)) as Hg
      by (vm_compute; reflexivity).
    assert (s2n_hybrid_client_key Examples.example_malloc Send Examples.example_kex_recv
              Examples.example_kex_send (B_local 0) MoreExamples.st_hybrid_send
            = (Ok tt, MoreExamples.st_hybrid_send_done)) as Hrun
      by (vm_compute; reflexivity).
    pose proof (hybrid_captured_message_span Examples.example_malloc
                  Examples.example_kex_recv Examples.example_kex_send
                  Send (B_local 0) MoreExamples.st_hybrid_send (Ptr (R_heap 0) 0)
                  MoreExamples.st_hybrid_send_a MoreExamples.st_hybrid_send_b
                  MoreExamples.st_hybrid_send_c _ _ _
                  Ha ltac:(discriminate) Hb Hc ltac:(vm_compute; discriminate)
                  ltac:(vm_compute; discriminate) Hg ltac:(vm_compute; reflexivity) Hrun)
      as H.
    change (cursor_of (direction_cursor Send) MoreExamples.st_hybrid_send_c
            <? cursor_of (direction_cursor Send) MoreExamples.st_hybrid_send_a)
      with false in H.
    cbv iota in H. exact H.
Defined.


(** * Further properties of the handlers *)

(** ** The RSA transport: what is sent and what is read back *)

Section RecvParse.
Context {W : Type}.
Variable rnd : state W -> result (nat -> Z) * W.
Implicit Types st : state W.

Lemma until_decrypt_steps sk st enc st1 :
  rsa_recv_until_decrypt rnd sk st = (Ok (Some enc), st1) ->
  exists b s6 len s7,
    get_blob st sk = Some b
    /\ put_blob sk (set_size S2N_TLS_SECRET_LEN (set_data (Ptr R_rsa_premaster_secret 0) b)) st
       = Some s6
    /\ handshake_async_state (conn st) = S2N_ASYNC_NOT_INVOKED
    /\ read_length S_handshake_io s6 = (Ok len, s7)
    /\ rsa_recv_after_length rnd sk len s7 = (Ok (Some enc), st1).
Proof.
  unfold rsa_recv_until_decrypt. intros H.
  apply bind_ok_inv in H as ([] & s0 & Hnn & H).
  unfold notnull_check_blob, S2N_ERROR_IF in Hnn.
  case_bool_decide; [discriminate|]. injection Hnn as <-.
  apply bind_ok_inv in H as (b & s1 & Hb & H).
  unfold deref, access in Hb. destruct (get_blob st sk) as [b0|] eqn:Hg; [|discriminate].
  injection Hb as <- <-.
  apply bind_ok_inv in H as ([] & s6 & Has & H).
  unfold assign in Has.
  destruct (put_blob sk _ st) as [s6'|] eqn:Hput; [|discriminate]. injection Has as <-.
  pose proof (put_blob_frame _ _ _ _ Hput)
    as (Hh & Hw & Hs & Hio & Hpm & Hv & Hcp & Hch & Hasy & _).
  apply bind_ok_inv in H as (go & s7 & Hguard & H).
  unfold S2N_ASYNC_PKEY_GUARD in Hguard.
  apply bind_ok_inv in Hguard as (a & s8 & Ha & Hguard).
  unfold gets in Ha. injection Ha as <- <-.
  destruct (handshake_async_state (conn s6')) eqn:Hst; try discriminate.
  - injection Hguard as <- <-. cbn [negb] in H.
    apply bind_ok_inv in H as (len & s9 & Hlen & H).
    exists b0, s6', len, s9. rewrite <- Hasy. done.
  - apply bind_ok_inv in Hguard as ([] & s9 & _ & Hguard).
    injection Hguard as <- <-. cbn [negb] in H. discriminate.
Qed.

Lemma raw_read_io_inv len d st s1 :
  stuffer_typed (handshake_io (conn st)) ->
  s2n_stuffer_raw_read S_handshake_io len st = (Ok d, s1) -> d <> NULL ->
  0 <= len ->
  len <= data_available (handshake_io (conn st))
  /\ s1 = set_conn (set_handshake_io
                      (set_tainted true
                         (set_read_cursor (read_cursor (handshake_io (conn st)) + len)
                            (handshake_io (conn st))))) st
  /\ d = ptr_add (data (blob (handshake_io (conn st)))) (read_cursor (handshake_io (conn st))).
Proof.
  intros ((Hrc0 & Hrw) & Hws & Hsz) H Hd Hlen. unfold UINT32_MAX in Hsz.
  destruct st as [c h bl sl w]. cbn [conn] in *.
  assert (data_available (handshake_io c)
          = write_cursor (handshake_io c) - read_cursor (handshake_io c))
    as Hav by (unfold data_available, uint32; apply Z.mod_small; lia).
  unfold s2n_stuffer_raw_read, GUARD_PTR, s2n_stuffer_skip_read in H.
  rewrite (run_bind_ok _ _ _ (handshake_io c) (mk_state c h bl sl w)) in H by reflexivity.
  unfold S2N_ERROR_IF in H.
  destruct (data_available (handshake_io c) <? len) eqn:Hcmp.
  { cbn in H. injection H as <- <-. congruence. }
  apply Z.ltb_ge in Hcmp.
  rewrite (run_bind_ok _ _ _ tt (mk_state c h bl sl w)) in H by reflexivity.
  cbn in H. injection H as <- <-.
  unfold uint32. rewrite Z.mod_small by lia.
  split; [exact Hcmp|]. split; [reflexivity|].
  cbn. f_equal. lia.
Qed.

Lemma after_length_inv sk b len st enc st1 :
  stuffer_typed (handshake_io (conn st)) ->
  get_blob st sk = Some b -> data b = Ptr R_rsa_premaster_secret 0 ->
  rsa_recv_after_length rnd sk len st = (Ok (Some enc), st1) ->
  0 < len <= data_available (handshake_io (conn st))
  /\ enc = {| data := ptr_add (data (blob (handshake_io (conn st))))
                        (read_cursor (handshake_io (conn st)));
              size := len; allocated := 0; growable := false |}
  /\ handshake_io (conn st1)
     = set_tainted true
         (set_read_cursor (read_cursor (handshake_io (conn st)) + len)
            (handshake_io (conn st)))
  /\ heap st1 = heap st.
Proof.
  intros ((Hrc0 & Hrw) & Hws & Hsz) Hg Hdb H. unfold UINT32_MAX in Hsz.
  destruct st as [c h bl sl w]. cbn [conn] in *.
  assert (data_available (handshake_io c)
          = write_cursor (handshake_io c) - read_cursor (handshake_io c))
    as Hav by (unfold data_available, uint32; apply Z.mod_small; lia).
  unfold rsa_recv_after_length in H.
  apply bind_ok_inv in H as (avail & s0 & Ha & H).
  unfold s2n_stuffer_data_available in Ha.
  apply bind_ok_inv in Ha as (s & s0' & Hs & Ha).
  injection Hs as <- <-. injection Ha as <- <-. cbn [conn] in *.
  apply bind_ok_inv in H as ([] & s0 & Hlt & H).
  unfold S2N_ERROR_IF in Hlt.
  destruct (_ <? len) eqn:Hcmp; [discriminate|]. injection Hlt as <-.
  apply Z.ltb_ge in Hcmp.
  apply bind_ok_inv in H as (v & s0 & Hv & H). injection Hv as <- <-.
  apply bind_ok_inv in H as (d & s1 & Hraw & H).
  apply bind_ok_inv in H as ([] & s2 & Hnn & H).
  unfold notnull_check, S2N_ERROR_IF in Hnn. cbn [data] in Hnn.
  case_bool_decide as Hd; [discriminate|]. injection Hnn as <-.
  apply bind_ok_inv in H as ([] & s2 & Hgt & H).
  unfold gt_check, S2N_ERROR_IF in Hgt. cbn [size] in Hgt.
  destruct (len <=? 0) eqn:Hpos; [discriminate|]. injection Hgt as <-.
  apply Z.leb_gt in Hpos.
  apply raw_read_io_inv in Hraw as (_ & -> & ->); [| |exact Hd|lia].
  2:{ cbn [conn]. unfold stuffer_typed, UINT32_MAX. lia. }
  cbn [conn] in *.
  apply bind_ok_inv in H as ([] & s3 & Hrnd & H).
  cbn in H. injection H as <- <-.
  split; [lia|]. split; [reflexivity|].
  unfold s2n_get_private_random_data in Hrnd.
  apply bind_ok_inv in Hrnd as (b' & s4 & Hb & Hrnd).
  unfold deref, access in Hb.
  match type of Hb with context [get_blob ?s sk] =>
    change (get_blob s sk) with (get_blob (mk_state c h bl sl w) sk) in Hb end.
  rewrite Hg in Hb. injection Hb as <- <-.
  apply bind_ok_inv in Hrnd as (f & s5 & Hf & Hrnd).
  unfold extern in Hf. destruct (rnd _) as [[f'| |] w']; try discriminate.
  injection Hf as <- <-.
  unfold mem_write in Hrnd.
  destruct (store _ (data b) _) as [s6|] eqn:Hst; [|discriminate].
  injection Hrnd as <-. rewrite Hdb in Hst.
  destruct (store_premaster_frame _ _ _ _ Hst) as (Hio & Hh & _).
  split; [exact Hio|exact Hh].
Qed.


(** Where the ciphertext lies in the handshake buffer. *)
Lemma until_decrypt_geometry sk st enc st1 :
  stuffer_typed (handshake_io (conn st)) ->
  rsa_recv_until_decrypt rnd sk st = (Ok (Some enc), st1) ->
  let io := handshake_io (conn st) in
  exists skip,
    enc = {| data := ptr_add (data (blob io)) (read_cursor io + skip);
             size := size enc; allocated := 0; growable := false |}
    /\ 0 < size enc
    /\ read_cursor io + skip + size enc <= write_cursor io
    /\ handshake_io (conn st1)
       = set_tainted true (set_read_cursor (read_cursor io + skip + size enc) io)
    /\ heap st1 = heap st
    /\ if bool_decide (actual_protocol_version (conn st) = S2N_SSLv3)
       then skip = 0 /\ size enc = uint16 (write_cursor io - read_cursor io)
       else skip = 2
            /\ exists d0 d1,
                 load st (ptr_add (data (blob io)) (read_cursor io)) 2 = Some [d0; d1]
                 /\ size enc = uint16 (Z.lor (Z.shiftl d0 8) d1).
Proof.
  intros Ht H. cbn zeta.
  apply until_decrypt_steps in H as (b & s6 & len & s7 & Hb & Hput & Hasy & Hlen & H).
  pose proof (put_blob_frame _ _ _ _ Hput)
    as (Hh & Hw & Hs & Hio & Hpm & Hv & Hcp & Hch & _ & Hg6).
  assert (stuffer_typed (handshake_io (conn s6))) as Ht6 by (now rewrite Hio).
  pose proof Ht as ((Hrc0 & Hrw) & Hws & Hsz). unfold UINT32_MAX in Hsz.
  assert (data_available (handshake_io (conn st))
          = write_cursor (handshake_io (conn st)) - read_cursor (handshake_io (conn st)))
    as Hav by (unfold data_available, uint32; apply Z.mod_small; lia).
  unfold read_length in Hlen.
  rewrite (run_bind_ok _ _ s6 (actual_protocol_version (conn s6)) s6) in Hlen by reflexivity.
  rewrite Hv in Hlen.
  case_bool_decide as Hver.
  - (* SSLv3: the whole of what is left *)
    unfold s2n_stuffer_data_available in Hlen. cbn in Hlen.
    injection Hlen as <- <-.
    apply (after_length_inv sk _ _ _ _ _ Ht6 Hg6 eq_refl) in H
      as ((Hpos & Hfit) & -> & Hio1 & Hh1).
    rewrite Hio in *. cbn [size] in *. rewrite Hav in *.
    exists 0. rewrite !Z.add_0_r.
    repeat split; try assumption; try lia. congruence.
  - apply (read_uint16_io_inv _ _ _ Ht6) in Hlen as (Hge & -> & d0 & d1 & Hld & ->).
    rewrite Hio in *.
    rewrite (load_ext st s6) in Hld by assumption.
    apply (after_length_inv sk (set_size S2N_TLS_SECRET_LEN
                                  (set_data (Ptr R_rsa_premaster_secret 0) b))) in H
      as ((Hpos & Hfit) & -> & Hio1 & Hh1);
      [| |now rewrite get_blob_io_frame|reflexivity].
    2:{ cbn. unfold stuffer_typed, UINT32_MAX. cbn. lia. }
    cbn in Hfit, Hio1, Hh1 |- *.
    assert (data_available
              (set_read_cursor (read_cursor (handshake_io (conn st)) + 2)
                 (handshake_io (conn st)))
            = write_cursor (handshake_io (conn st))
              - (read_cursor (handshake_io (conn st)) + 2)) as Hav2
      by (unfold data_available, uint32; cbn; apply Z.mod_small; lia).
    rewrite Hav2 in Hfit.
    exists 2.
    split; [reflexivity|]. split; [exact Hpos|]. split; [lia|].
    split; [exact Hio1|]. split; [congruence|]. split; [reflexivity|]. eauto.
Qed.

Lemma drop_take_split (l : list Z) (a b c : nat) :
  (a <= b <= c)%nat -> (c <= length l)%nat ->
  drop a (take c l) = take (b - a) (drop a l) ++ drop b (take c l).
Proof.
  intros Hab Hc.
  rewrite <- (take_drop b (take c l)) at 1.
  rewrite take_take, Nat.min_l by lia.
  rewrite drop_app_le by (rewrite length_take; lia).
  f_equal. rewrite take_drop_commute. f_equal. f_equal. lia.
Qed.

(** The ciphertext handed to the decrypt operation and what is left in
    the handshake buffer, as bytes. *)
Lemma until_decrypt_parse sk st enc st1 :
  stuffer_valid st (handshake_io (conn st)) = true ->
  rsa_recv_until_decrypt rnd sk st = (Ok (Some enc), st1) ->
  exists ct rest,
    blob_bytes st1 enc = Some ct
    /\ size enc = zlen ct /\ 0 < zlen ct
    /\ stuffer_unread st1 (handshake_io (conn st1)) = rest
    /\ if bool_decide (actual_protocol_version (conn st) = S2N_SSLv3)
       then stuffer_unread st (handshake_io (conn st)) = ct ++ rest
            /\ zlen ct = uint16 (zlen (ct ++ rest))
       else exists d0 d1,
              stuffer_unread st (handshake_io (conn st)) = d0 :: d1 :: ct ++ rest
              /\ zlen ct = uint16 (Z.lor (Z.shiftl d0 8) d1).
Proof.
  intros Hv H.
  destruct (stuffer_valid_inv _ _ Hv) as (Ht & Hcell).
  destruct (until_decrypt_geometry sk st enc st1 Ht H)
    as (skip & Henc & Hpos & Hfit & Hio1 & Hh1 & Hcase).
  pose proof Ht as ((Hrc0 & Hrw) & Hws & Hsz).
  assert (0 <= skip) as Hskip by (destruct (bool_decide _); lia).
  destruct Hcell as [(_ & Hz & _)|(a & bs & Hd & Hh & Hlen & Hreg)]; [lia|].
  set (io := handshake_io (conn st)) in *.
  set (rc := read_cursor io) in *. set (wc := write_cursor io) in *.
  set (len := size enc) in *.
  assert (stuffer_region st1 (handshake_io (conn st1)) = bs) as Hreg1.
  { unfold stuffer_region. rewrite Hio1. cbn. rewrite Hd. cbn. now rewrite Hh1, Hh. }
  assert (stuffer_content st io = take (Z.to_nat wc) bs) as Hc
    by (unfold stuffer_content; now rewrite Hreg).
  assert (stuffer_unread st1 (handshake_io (conn st1))
          = drop (Z.to_nat (rc + skip + len)) (take (Z.to_nat wc) bs)) as Hun1.
  { unfold stuffer_unread, stuffer_content. rewrite Hreg1, Hio1. reflexivity. }
  assert (blob_bytes st1 enc
          = Some (take (Z.to_nat len) (drop (Z.to_nat (rc + skip)) bs))) as Hbytes.
  { rewrite Henc. unfold blob_bytes. cbn [data size]. rewrite Hd. cbn [ptr_add].
    unfold load. cbn [region_bytes]. rewrite Hh1, Hh.
    rewrite bool_decide_eq_true_2 by (fold len; lia).
    fold len. now rewrite Z.add_0_l. }
  assert (zlen (take (Z.to_nat len) (drop (Z.to_nat (rc + skip)) bs)) = len) as Hct.
  { unfold zlen in *. rewrite length_take, length_drop. lia. }
  exists (take (Z.to_nat len) (drop (Z.to_nat (rc + skip)) bs)),
         (drop (Z.to_nat (rc + skip + len)) (take (Z.to_nat wc) bs)).
  split; [exact Hbytes|]. split; [now rewrite Hct|]. split; [now rewrite Hct|].
  split; [exact Hun1|].
  unfold stuffer_unread. rewrite Hc. fold rc.
  destruct (bool_decide _).
  - destruct Hcase as [-> Hl]. rewrite !Z.add_0_r in *.
    assert (drop (Z.to_nat rc) (take (Z.to_nat wc) bs)
            = take (Z.to_nat len) (drop (Z.to_nat rc) bs)
              ++ drop (Z.to_nat (rc + len)) (take (Z.to_nat wc) bs)) as Hsplit.
    { rewrite (drop_take_split bs (Z.to_nat rc) (Z.to_nat (rc + len)) (Z.to_nat wc))
        by (unfold zlen in *; lia).
      do 2 f_equal. lia. }
    split; [exact Hsplit|].
    rewrite <- Hsplit, Hct, Hl. f_equal.
    unfold zlen in *. rewrite length_drop, length_take. lia.
  - destruct Hcase as (-> & d0 & d1 & Hld & Hl).
    exists d0, d1. split; [|now rewrite Hct].
    unfold load in Hld. rewrite Hd in Hld. cbn [ptr_add region_bytes] in Hld.
    rewrite Hh in Hld. fold rc in Hld.
    case_bool_decide; [|discriminate]. injection Hld as Hld.
    rewrite Z.add_0_l in Hld.
    rewrite (drop_take_split bs (Z.to_nat rc) (Z.to_nat (rc + 2)) (Z.to_nat wc))
      by (unfold zlen in *; lia).
    replace (Z.to_nat (rc + 2) - Z.to_nat rc)%nat with (Z.to_nat 2) by lia.
    rewrite Hld. cbn [app]. do 2 f_equal.
    rewrite (drop_take_split bs (Z.to_nat (rc + 2)) (Z.to_nat (rc + 2 + len)) (Z.to_nat wc))
      by (unfold zlen in *; lia).
    do 2 f_equal. lia.
Qed.

End RecvParse.

Section RecvParse2.
Context {W : Type}.
Variable rnd : state W -> result (nat -> Z) * W.
Implicit Types st : state W.

Lemma reaches_decrypt_eq sk st encrypted st1 :
  (forall decrypt,
     s2n_rsa_client_key_recv rnd decrypt sk st
     = decrypt encrypted sk s2n_rsa_client_key_recv_complete st1) ->
  rsa_recv_until_decrypt rnd sk st = (Ok (Some encrypted), st1).
Proof.
  intros H. destruct (reaches_decrypt _ _ _ _ _ H) as [enc' Hu]. rewrite Hu.
  specialize (H (fun e _ _ s =>
                   (Ok tt, set_conn (set_client_key_exchange_message e) s))).
  rewrite rsa_recv_decompose, Hu in H. cbn beta in H.
  injection H as H. now subst.
Qed.

End RecvParse2.

(** X1: whenever s2n_rsa_client_key_recv submits a ciphertext for
    decryption, the ciphertext is the bytes of the handshake buffer that
    follow the two-byte length prefix (from SSLv3 on: that follow the read
    cursor), as many as the length says, it is not empty, and the read
    cursor has moved past it. *)
Theorem rsa_client_key_recv_ciphertext {W} (rnd : state W -> result (nat -> Z) * W)
    sk st encrypted st1 :
  stuffer_valid st (handshake_io (conn st)) = true ->
  (forall decrypt,
     s2n_rsa_client_key_recv rnd decrypt sk st
     = decrypt encrypted sk s2n_rsa_client_key_recv_complete st1) ->
  exists ct rest,
    blob_bytes st1 encrypted = Some ct
    /\ size encrypted = zlen ct /\ 0 < zlen ct
    /\ stuffer_unread st1 (handshake_io (conn st1)) = rest
    /\ if bool_decide (actual_protocol_version (conn st) = S2N_SSLv3)
       then stuffer_unread st (handshake_io (conn st)) = ct ++ rest
            /\ zlen ct = uint16 (zlen (ct ++ rest))
       else exists d0 d1,
              stuffer_unread st (handshake_io (conn st)) = d0 :: d1 :: ct ++ rest
              /\ zlen ct = uint16 (Z.lor (Z.shiftl d0 8) d1).
Proof.
  intros Hv H. apply reaches_decrypt_eq in H.
  exact (until_decrypt_parse rnd sk st encrypted st1 Hv H).
Qed.

Lemma rsa_client_key_recv_ciphertext_witness :
  exists ct rest,
    blob_bytes Examples.st_tls12_at_decrypt Examples.st_tls12_encrypted = Some ct
    /\ size Examples.st_tls12_encrypted = zlen ct /\ 0 < zlen ct
    /\ stuffer_unread Examples.st_tls12_at_decrypt
         (handshake_io (conn Examples.st_tls12_at_decrypt)) = rest
    /\ exists d0 d1,
         stuffer_unread Examples.st_tls12 (handshake_io (conn Examples.st_tls12))
         = d0 :: d1 :: ct ++ rest
         /\ zlen ct = uint16 (Z.lor (Z.shiftl d0 8) d1).
Proof.
  assert (stuffer_valid Examples.st_tls12 (handshake_io (conn Examples.st_tls12)) = true)
    as Hv by (vm_compute; reflexivity).
  assert (forall decrypt,
            s2n_rsa_client_key_recv Examples.example_random decrypt (B_local 0)
              Examples.st_tls12
            = decrypt Examples.st_tls12_encrypted (B_local 0)
                s2n_rsa_client_key_recv_complete Examples.st_tls12_at_decrypt) as Hr
    by (intros decrypt; reflexivity).
  pose proof (rsa_client_key_recv_ciphertext Examples.example_random (B_local 0)
                Examples.st_tls12 Examples.st_tls12_encrypted Examples.st_tls12_at_decrypt
                Hv Hr) as H.
  assert (bool_decide (actual_protocol_version (conn Examples.st_tls12) = S2N_SSLv3) = false)
    as Hver by (vm_compute; reflexivity).
  rewrite Hver in H. exact H.
Defined.

Section SendCiphertext.
Context {W : Type}.
Variable malloc : W -> Z -> bool.
Variable rnd : state W -> result (nat -> Z) * W.
Variable pkey_size : state W -> result Z * W.
Variable enc : list Z -> Z -> state W -> result (list Z) * W.
Variable pfree : state W -> result unit * W.
Implicit Types st : state W.

(** The shared key that the first part of the sending handler leaves. *)
Lemma rsa_send_until_size_blob sk st st1 :
  rsa_send_until_size rnd sk st = (Ok tt, st1) ->
  exists b,
    get_blob st sk = Some b
    /\ get_blob st1 sk
       = Some (set_size S2N_TLS_SECRET_LEN (set_data (Ptr R_rsa_premaster_secret 0) b)).
Proof.
  intros H. unfold rsa_send_until_size in H.
  apply bind_ok_inv in H as (v & s0 & Hv & H). injection Hv as <- <-.
  apply bind_ok_inv in H as (b & s0 & Hb & H).
  unfold deref, access in Hb. destruct (get_blob st sk) as [b0|] eqn:Hg; [|discriminate].
  injection Hb as <- <-.
  apply bind_ok_inv in H as ([] & s1 & Has & H).
  unfold assign in Has. destruct (put_blob sk _ st) as [s1'|] eqn:Hput; [|discriminate].
  injection Has as <-.
  pose proof (put_blob_frame _ _ _ _ Hput) as (_ & _ & _ & _ & _ & _ & _ & _ & _ & Hg1).
  apply bind_ok_inv in H as ([] & s2 & Hrnd & H).
  unfold s2n_get_private_random_data in Hrnd.
  apply bind_ok_inv in Hrnd as (b' & s3 & Hb' & Hrnd).
  unfold deref, access in Hb'. rewrite Hg1 in Hb'. injection Hb' as <- <-.
  apply bind_ok_inv in Hrnd as (f & s4 & Hf & Hrnd).
  unfold extern in Hf. destruct (rnd s1') as [[f'| |] w']; try discriminate.
  injection Hf as <- <-.
  unfold mem_write in Hrnd. cbn [data set_size set_data] in Hrnd.
  destruct (store _ _ _) as [s5|] eqn:Hst; [|discriminate]. injection Hrnd as <-.
  apply store_premaster_frame in Hst as (_ & _ & _ & _ & Hg5).
  unfold memcpy_check_array in H. rewrite bool_decide_eq_false_2 in H by done.
  apply bind_ok_inv in H as ([] & s6 & Hn & H).
  unfold notnull_check, S2N_ERROR_IF in Hn.
  rewrite bool_decide_eq_false_2 in Hn by done. injection Hn as <-.
  unfold mem_write in H.
  destruct (store _ _ _) as [s7|] eqn:Hst2 in H; [|discriminate]. injection H as <-.
  apply store_premaster_frame in Hst2 as (_ & _ & _ & _ & Hg7).
  exists b0. split; [reflexivity|].
  now rewrite Hg7, Hg5, get_blob_world_frame.
Qed.

(** The encryption step: what is encrypted and where the result goes. *)
Lemma pkey_encrypt_ct sk b off n st st' :
  stuffer_valid st (handshake_io (conn st)) = true ->
  get_blob st sk = Some b ->
  s2n_pkey_encrypt enc sk
    {| data := ptr_add (data (blob (handshake_io (conn st)))) off; size := n;
       allocated := 0; growable := false |} st = (Ok tt, st') ->
  exists pt ct w',
    load st (data b) (size b) = Some pt
    /\ enc pt n st = (Ok ct, w')
    /\ zlen ct = n
    /\ handshake_io (conn st') = handshake_io (conn st)
    /\ stuffer_region st' (handshake_io (conn st'))
       = splice (stuffer_region st (handshake_io (conn st))) (Z.to_nat off) ct
    /\ 0 <= off
    /\ off + n <= zlen (stuffer_region st (handshake_io (conn st)))
    /\ rsa_premaster_secret (conn st') = rsa_premaster_secret (conn st)
    /\ (forall p, get_blob st' p = get_blob st p)
    /\ mem_write (ptr_add (data (blob (handshake_io (conn st)))) off) ct (set_world w' st)
       = (Ok tt, st').
Proof.
  intros Hv Hg H. unfold s2n_pkey_encrypt in H.
  apply bind_ok_inv in H as (b' & s1 & Hb & H).
  unfold deref, access in Hb. rewrite Hg in Hb. injection Hb as <- <-.
  apply bind_ok_inv in H as (pt & s1 & Hpt & H).
  unfold mem_read, access in Hpt.
  destruct (load st (data b) (size b)) as [pt0|]; [|discriminate].
  injection Hpt as <- <-.
  apply bind_ok_inv in H as (ct & s2 & Hct & H).
  unfold extern in Hct. proj_simpl.
  destruct (enc pt0 n st) as [[ct'| |] w'] eqn:Henc; try discriminate.
  injection Hct as <- <-.
  apply bind_ok_inv in H as ([] & s3 & Hsz & H).
  unfold S2N_ERROR_IF in Hsz. case_bool_decide as Hz; [discriminate|].
  injection Hsz as <-. pose proof H as Hmw.
  apply (mem_write_io_inv off ct' (set_world w' st) st' Hv) in H
    as (Hio2 & Hv2 & Hreg2 & Hoff & Hfit & Hpm2 & Hver2 & Hw2 & Hb2).
  assert (forall s, stuffer_region (set_world w' st) s = stuffer_region st s) as Hsr
    by reflexivity.
  rewrite Hsr in *. proj_simpl.
  exists pt0, ct', w'. split; [reflexivity|]. split; [exact Henc|].
  split; [lia|]. split; [assumption|]. split; [assumption|]. split; [assumption|].
  split; [lia|]. split; [assumption|].
  split; [|exact Hmw].
  intros p. rewrite Hb2. apply get_blob_world_frame.
Qed.

(** The second part of the sending handler: the bytes it appends are the
    length prefix, if there is one, and the encryption of the premaster
    secret. *)
Lemma rsa_send_from_size_ct sk b n st st' :
  stuffer_valid st (handshake_io (conn st)) = true ->
  0 <= n <= 65535 ->
  get_blob st sk = Some b ->
  data b = Ptr R_rsa_premaster_secret 0 ->
  size b = zlen (rsa_premaster_secret (conn st)) ->
  rsa_send_from_size malloc enc pfree sk n st = (Ok tt, st') ->
  rsa_premaster_secret (conn st') = rsa_premaster_secret (conn st)
  /\ get_blob st' sk = Some b
  /\ exists d ct st_e w st_w,
       (forall enc' pfree',
          rsa_send_from_size malloc enc' pfree' sk n st
          = (s2n_pkey_encrypt enc' sk
               {| data := d; size := n; allocated := 0; growable := false |}
               ≫= fun _ => extern pfree' ≫= fun _ => ret tt) st_e)
       /\ enc (rsa_premaster_secret (conn st)) n st_e = (Ok ct, w)
       /\ zlen ct = n
       /\ mem_write d ct (set_world w st_e) = (Ok tt, st_w)
       /\ pfree st_w = (Ok tt, world st')
       /\ st' = set_world (world st') st_w
       /\ stuffer_content st' (handshake_io (conn st'))
          = stuffer_content st (handshake_io (conn st))
            ++ (if S2N_SSLv3 <? actual_protocol_version (conn st)
                then [n / 256; n mod 256] else [])
            ++ ct.
Proof.
  intros Hv Hn Hg Hdb Hsb H. unfold rsa_send_from_size in H.
  apply bind_ok_inv in H as (v & s0 & Hgv & H).
  unfold gets in Hgv. injection Hgv as <- <-.
  apply bind_ok_inv in H as ([] & s1 & Hpre & H).
  pose proof Hpre as Hpre0.
  assert (stuffer_valid s1 (handshake_io (conn s1)) = true
          /\ stuffer_content s1 (handshake_io (conn s1))
             = stuffer_content st (handshake_io (conn st))
               ++ (if S2N_SSLv3 <? actual_protocol_version (conn st)
                   then [n / 256; n mod 256] else [])
          /\ rsa_premaster_secret (conn s1) = rsa_premaster_secret (conn st)
          /\ (forall p, get_blob s1 p = get_blob st p))
    as (Hv1 & Hc1 & Hpm1 & Hg1).
  { destruct (S2N_SSLv3 <? actual_protocol_version (conn st)).
    - apply (write_uint16_io_inv malloc _ _ _ Hv) in Hpre
        as (Hv1 & _ & Hc1 & Hpm1 & _ & _ & Hg1).
      rewrite uint16_big_endian in Hc1 by exact Hn. done.
    - injection Hpre as <-. rewrite app_nil_r. done. }
  clear Hpre.
  apply bind_ok_inv in H as (d & s2 & Hraw & H).
  pose proof Hraw as Hraw0.
  apply bind_ok_inv in H as ([] & s2' & Hnn & H).
  unfold notnull_check, S2N_ERROR_IF in Hnn. proj_simpl.
  case_bool_decide as Hd; [discriminate|]. injection Hnn as <-.
  assert (forall enc' pfree',
            rsa_send_from_size malloc enc' pfree' sk n st
            = (s2n_pkey_encrypt enc' sk
                 {| data := d; size := n; allocated := 0; growable := false |}
                 ≫= fun _ => extern pfree' ≫= fun _ => ret tt) s2) as Hat.
  { intros enc' pfree'. unfold rsa_send_from_size.
    rewrite (run_bind_ok _ _ st (actual_protocol_version (conn st)) st) by reflexivity.
    rewrite (run_bind_ok _ _ _ _ _ Hpre0).
    rewrite (run_bind_ok _ _ _ _ _ Hraw0).
    rewrite (run_bind_ok _ _ s2 tt s2)
      by (unfold notnull_check, S2N_ERROR_IF; cbn [data];
          now rewrite bool_decide_eq_false_2).
    reflexivity. }
  apply (raw_write_io_inv malloc n d _ _ Hv1) in Hraw
    as (Hv2 & Hwc2 & Hdp & (pad & Hreg2) & Hpm2 & _ & _ & Hg2);
    [|unfold UINT32_MAX; lia|exact Hd].
  apply bind_ok_inv in H as ([] & s3 & Henc & H).
  rewrite Hdp in Henc.
  assert (get_blob s2 sk = Some b) as Hgs2 by (now rewrite Hg2, Hg1).
  apply (pkey_encrypt_ct sk b _ n _ _ Hv2 Hgs2) in Henc
    as (pt & ct & w0 & Hpt & Hencr & Hct & Hio3 & Hreg3 & Hoff & Hfit & Hpm3 & Hg3 & Hmw).
  rewrite <- Hdp in Hmw.
  assert (pt = rsa_premaster_secret (conn st)) as ->.
  { rewrite Hdb, Hsb, <- Hpm1, <- Hpm2 in Hpt. rewrite load_premaster in Hpt.
    injection Hpt as <-. congruence. }
  apply bind_ok_inv in H as ([] & s4 & Hfree & H).
  unfold extern in Hfree. destruct (pfree s3) as [[[]| |] w'] eqn:Hpf; try discriminate.
  injection Hfree as <-. injection H as <-.
  split; [proj_simpl; congruence|].
  split; [now rewrite get_blob_world_frame, Hg3|].
  exists d, ct, s2, w0, s3. split; [exact Hat|]. split; [exact Hencr|]. split; [exact Hct|].
  split; [exact Hmw|]. split; [exact Hpf|]. split; [reflexivity|].
  change (stuffer_content (set_world w' s3) (handshake_io (conn (set_world w' s3))))
    with (stuffer_content s3 (handshake_io (conn s3))).
  rewrite app_assoc, <- Hc1.
  unfold stuffer_content. rewrite Hreg3, Hio3, Hwc2.
  pose proof (stuffer_valid_length _ _ Hv1) as Hlen1.
  destruct (stuffer_valid_inv _ _ Hv1) as (((Hr0 & Hrw) & Hws & Hsz) & _).
  replace (Z.to_nat (write_cursor (handshake_io (conn s1)) + n))
    with (Z.to_nat (write_cursor (handshake_io (conn s1))) + length ct)%nat
    by (unfold zlen in Hct; lia).
  rewrite take_splice by (rewrite Hreg2, length_app; unfold zlen in Hlen1; lia).
  f_equal. rewrite Hreg2. apply take_app_le. unfold zlen in Hlen1. lia.
Qed.

(** A successful run of the sending handler. The state [st_e] in which it
    asks for the encryption does not depend on the encrypt and the release
    operations: whatever they are, the handler reaches the encryption in
    [st_e] and calls the release after it. *)
Lemma rsa_send_ciphertext_at sk st st' :
  zlen (rsa_premaster_secret (conn st)) = S2N_TLS_SECRET_LEN ->
  stuffer_valid st (handshake_io (conn st)) = true ->
  s2n_rsa_client_key_send malloc rnd pkey_size enc pfree sk st = (Ok tt, st') ->
  exists b n d ct st_e w st_w,
    get_blob st sk = Some b
    /\ get_blob st' sk
       = Some (set_size S2N_TLS_SECRET_LEN (set_data (Ptr R_rsa_premaster_secret 0) b))
    /\ zlen (rsa_premaster_secret (conn st')) = S2N_TLS_SECRET_LEN
    /\ 0 <= n <= 65535
    /\ (forall enc' pfree',
          s2n_rsa_client_key_send malloc rnd pkey_size enc' pfree' sk st
          = (s2n_pkey_encrypt enc' sk
               {| data := d; size := n; allocated := 0; growable := false |}
               ≫= fun _ => extern pfree' ≫= fun _ => ret tt) st_e)
    /\ enc (rsa_premaster_secret (conn st')) n st_e = (Ok ct, w)
    /\ mem_write d ct (set_world w st_e) = (Ok tt, st_w)
    /\ pfree st_w = (Ok tt, world st')
    /\ st' = set_world (world st') st_w
    /\ zlen ct = n
    /\ stuffer_content st' (handshake_io (conn st'))
       = stuffer_content st (handshake_io (conn st))
         ++ (if S2N_SSLv3 <? actual_protocol_version (conn st)
             then [n / 256; n mod 256] else [])
         ++ ct.
Proof.
  intros Ht Hv H. rewrite rsa_send_decompose in H.
  destruct (rsa_send_until_size rnd sk st) as [[[]| |] st1] eqn:Hu; try discriminate.
  destruct (pkey_size st1) as [[n0| |] w1] eqn:Hsz; try discriminate.
  destruct (65535 <? uint32 n0) eqn:Hn; [discriminate|].
  pose proof Hn as Hnb. apply Z.ltb_ge in Hn.
  assert (0 <= uint32 n0) as Hn0 by (unfold uint32; apply Z.mod_pos_bound; lia).
  destruct (rsa_send_until_size_frame rnd _ _ _ Hu) as (Hio & Hh & Hver).
  destruct (rsa_send_until_size_blob _ _ _ Hu) as (b & Hb & Hb1).
  destruct (rsa_send_until_size_inv rnd _ _ _ Ht Hu) as (st_r & f & _ & _ & Hpm).
  assert (zlen (rsa_premaster_secret (conn st1)) = S2N_TLS_SECRET_LEN) as Ht1.
  { rewrite Hpm. unfold zlen, wire_version.
    rewrite length_app, length_drop, length_fmap, length_seq. reflexivity. }
  assert (stuffer_valid (set_world w1 st1) (handshake_io (conn (set_world w1 st1))) = true)
    as Hv1.
  { proj_simpl. rewrite Hio.
    change (stuffer_valid (set_world w1 st1) (handshake_io (conn st)))
      with (stuffer_valid st1 (handshake_io (conn st))).
    now rewrite (stuffer_valid_ext _ _ _ Hh). }
  assert (get_blob (set_world w1 st1) sk
          = Some (set_size S2N_TLS_SECRET_LEN (set_data (Ptr R_rsa_premaster_secret 0) b)))
    as Hbw by (rewrite get_blob_world_frame; exact Hb1).
  destruct (rsa_send_from_size_ct sk _ (uint32 n0) _ _ Hv1 (conj Hn0 Hn) Hbw eq_refl
              (eq_sym Ht1) H)
    as (Hpm' & Hg' & d & ct & st_e & w & st_w & Hat & Henc & Hct & Hmw & Hpf & Hst' & Hc).
  proj_simpl.
  exists b, (uint32 n0), d, ct, st_e, w, st_w.
  split; [exact Hb|]. split; [exact Hg'|]. split; [congruence|]. split; [lia|].
  split.
  { intros enc' pfree'.
    rewrite (rsa_send_decompose malloc rnd pkey_size enc' pfree'), Hu, Hsz, Hnb.
    apply Hat. }
  split; [now rewrite Hpm'|].
  split; [exact Hmw|]. split; [exact Hpf|]. split; [exact Hst'|].
  split; [exact Hct|].
  rewrite Hc, Hio, Hver. f_equal.
  change (stuffer_content (set_world w1 st1) (handshake_io (conn st)))
    with (stuffer_content st1 (handshake_io (conn st))).
  now apply stuffer_content_ext.
Qed.

Lemma rsa_send_ciphertext sk st st' :
  zlen (rsa_premaster_secret (conn st)) = S2N_TLS_SECRET_LEN ->
  stuffer_valid st (handshake_io (conn st)) = true ->
  s2n_rsa_client_key_send malloc rnd pkey_size enc pfree sk st = (Ok tt, st') ->
  exists b n ct st_e w,
    get_blob st sk = Some b
    /\ get_blob st' sk
       = Some (set_size S2N_TLS_SECRET_LEN (set_data (Ptr R_rsa_premaster_secret 0) b))
    /\ zlen (rsa_premaster_secret (conn st')) = S2N_TLS_SECRET_LEN
    /\ 0 <= n <= 65535
    /\ enc (rsa_premaster_secret (conn st')) n st_e = (Ok ct, w)
    /\ zlen ct = n
    /\ stuffer_content st' (handshake_io (conn st'))
       = stuffer_content st (handshake_io (conn st))
         ++ (if S2N_SSLv3 <? actual_protocol_version (conn st)
             then [n / 256; n mod 256] else [])
         ++ ct.
Proof.
  intros Ht Hv H.
  destruct (rsa_send_ciphertext_at sk st st' Ht Hv H)
    as (b & n & d & ct & st_e & w & st_w & Hb & Hb' & Ht' & Hn & _ & Henc & _ & _ & _
        & Hct & Hc).
  exists b, n, ct, st_e, w. done.
Qed.

End SendCiphertext.

(** X2: when s2n_rsa_client_key_send succeeds, what it has appended to
    the handshake buffer is the length prefix (after SSLv3) followed by
    the encryption, under the key of the peer, of the 48 bytes that it
    leaves in rsa_premaster_secret; and the shared key of the caller
    describes those 48 bytes. The encryption is the one that the handler
    asks for, before it releases the key: whatever the encrypt and the
    release operations are, the handler reaches the encryption in the same
    state st_e and calls the release after it; the ciphertext is what the
    encrypt operation returns in st_e, it is written to the buffer, and
    the release runs on the state so reached and leaves the final state. *)
Theorem rsa_client_key_send_encrypts_premaster {W}
    (malloc : W -> Z -> bool) (rnd : state W -> result (nat -> Z) * W)
    (pkey_size : state W -> result Z * W)
    (enc : list Z -> Z -> state W -> result (list Z) * W)
    (pfree : state W -> result unit * W) sk st st' :
  zlen (rsa_premaster_secret (conn st)) = S2N_TLS_SECRET_LEN ->
  stuffer_valid st (handshake_io (conn st)) = true ->
  s2n_rsa_client_key_send malloc rnd pkey_size enc pfree sk st = (Ok tt, st') ->
  exists b n d ct st_e w st_w,
    get_blob st' sk = Some b
    /\ data b = Ptr R_rsa_premaster_secret 0 /\ size b = S2N_TLS_SECRET_LEN
    /\ blob_bytes st' b = Some (rsa_premaster_secret (conn st'))
    /\ 0 <= n <= 65535
    /\ (forall enc' pfree',
          s2n_rsa_client_key_send malloc rnd pkey_size enc' pfree' sk st
          = (s2n_pkey_encrypt enc' sk
               {| data := d; size := n; allocated := 0; growable := false |}
               ≫= fun _ => extern pfree' ≫= fun _ => ret tt) st_e)
    /\ enc (rsa_premaster_secret (conn st')) n st_e = (Ok ct, w)
    /\ mem_write d ct (set_world w st_e) = (Ok tt, st_w)
    /\ pfree st_w = (Ok tt, world st')
    /\ st' = set_world (world st') st_w
    /\ zlen ct = n
    /\ stuffer_content st' (handshake_io (conn st'))
       = stuffer_content st (handshake_io (conn st))
         ++ (if S2N_SSLv3 <? actual_protocol_version (conn st)
             then [n / 256; n mod 256] else [])
         ++ ct.
Proof.
  intros Ht Hv H.
  destruct (rsa_send_ciphertext_at malloc rnd pkey_size enc pfree sk st st' Ht Hv H)
    as (b & n & d & ct & st_e & w & st_w & Hb & Hb' & Ht' & Hrest).
  exists (set_size S2N_TLS_SECRET_LEN (set_data (Ptr R_rsa_premaster_secret 0) b)),
         n, d, ct, st_e, w, st_w.
  split; [exact Hb'|]. split; [reflexivity|]. split; [reflexivity|].
  split; [|exact Hrest].
  unfold blob_bytes. cbn [data set_size set_data size]. rewrite <- Ht'.
  apply load_premaster.
Qed.

Lemma rsa_client_key_send_encrypts_premaster_witness :
  exists b n d ct st_e w st_w,
    get_blob Examples.st_tls12_sent (B_local 0) = Some b
    /\ data b = Ptr R_rsa_premaster_secret 0 /\ size b = S2N_TLS_SECRET_LEN
    /\ blob_bytes Examples.st_tls12_sent b
       = Some (rsa_premaster_secret (conn Examples.st_tls12_sent))
    /\ 0 <= n <= 65535
    /\ (forall enc' pfree',
          s2n_rsa_client_key_send Examples.example_malloc Examples.example_random
            Examples.example_pkey_size enc' pfree' (B_local 0) Examples.st_tls12
          = (s2n_pkey_encrypt enc' (B_local 0)
               {| data := d; size := n; allocated := 0; growable := false |}
               ≫= fun _ => extern pfree' ≫= fun _ => ret tt) st_e)
    /\ Examples.example_pkey_encrypt (rsa_premaster_secret (conn Examples.st_tls12_sent))
         n st_e = (Ok ct, w)
    /\ mem_write d ct (set_world w st_e) = (Ok tt, st_w)
    /\ Examples.example_pkey_free st_w = (Ok tt, world Examples.st_tls12_sent)
    /\ Examples.st_tls12_sent = set_world (world Examples.st_tls12_sent) st_w
    /\ zlen ct = n
    /\ stuffer_content Examples.st_tls12_sent (handshake_io (conn Examples.st_tls12_sent))
       = [0; 3; 9; 8; 7] ++ [n / 256; n mod 256] ++ ct.
Proof.
  assert (zlen (rsa_premaster_secret (conn Examples.st_tls12)) = S2N_TLS_SECRET_LEN)
    as Ht by (vm_compute; reflexivity).
  assert (stuffer_valid Examples.st_tls12 (handshake_io (conn Examples.st_tls12)) = true)
    as Hv by (vm_compute; reflexivity).
  assert (s2n_rsa_client_key_send Examples.example_malloc Examples.example_random
            Examples.example_pkey_size Examples.example_pkey_encrypt
            Examples.example_pkey_free (B_local 0) Examples.st_tls12
          = (Ok tt, Examples.st_tls12_sent)) as Hs by (vm_compute; reflexivity).
  exact (rsa_client_key_send_encrypts_premaster Examples.example_malloc
           Examples.example_random Examples.example_pkey_size
           Examples.example_pkey_encrypt Examples.example_pkey_free
           (B_local 0) Examples.st_tls12 Examples.st_tls12_sent Ht Hv Hs).
Defined.

Lemma length_prefix_decode n :
  0 <= n <= 65535 -> uint16 (Z.lor (Z.shiftl (n / 256) 8) (n mod 256)) = n.
Proof.
  intros Hn.
  assert (Z.land (Z.shiftl (n / 256) 8) (n mod 256) = 0) as Hland.
  { apply Z.bits_inj'. intros i Hi. rewrite Z.land_spec, Z.bits_0.
    destruct (Z.lt_ge_cases i 8).
    - rewrite Z.shiftl_spec_low by lia. reflexivity.
    - change 256 with (2 ^ 8). rewrite Z.mod_pow2_bits_high by lia.
      apply andb_false_r. }
  rewrite <- Z.lxor_lor, <- Z.add_nocarry_lxor by exact Hland.
  rewrite Z.shiftl_mul_pow2 by lia. change (2 ^ 8) with 256.
  rewrite Z.mul_comm, <- Z.div_mod by lia.
  unfold uint16. apply Z.mod_small. lia.
Qed.

Section RoundTrip.
Context {W : Type}.
Variable malloc : W -> Z -> bool.
Variables rnd_c rnd_s : state W -> result (nat -> Z) * W.
Variable pkey_size : state W -> result Z * W.
Variable enc : list Z -> Z -> state W -> result (list Z) * W.
Variable pfree : state W -> result unit * W.
Implicit Types st : state W.

Lemma zlen_app_eq (l1 l2 : list Z) : zlen (l1 ++ l2) = zlen l1 + zlen l2.
Proof. unfold zlen. rewrite length_app. lia. Qed.

Lemma app_same_length_nil (l rest : list Z) : zlen l = zlen (l ++ rest) -> rest = [].
Proof.
  rewrite zlen_app_eq. intros H. destruct rest; [done|]. unfold zlen in H. cbn in H. lia.
Qed.

Lemma rsa_round_trip sk_c st_c st_c' sk_s st_s enc_s st_s1 :
  zlen (rsa_premaster_secret (conn st_c)) = S2N_TLS_SECRET_LEN ->
  stuffer_valid st_c (handshake_io (conn st_c)) = true ->
  s2n_rsa_client_key_send malloc rnd_c pkey_size enc pfree sk_c st_c = (Ok tt, st_c') ->
  S2N_SSLv3 <= actual_protocol_version (conn st_c) ->
  actual_protocol_version (conn st_s) = actual_protocol_version (conn st_c) ->
  stuffer_valid st_s (handshake_io (conn st_s)) = true ->
  stuffer_unread st_s (handshake_io (conn st_s))
  = drop (length (stuffer_content st_c (handshake_io (conn st_c))))
      (stuffer_content st_c' (handshake_io (conn st_c'))) ->
  rsa_recv_until_decrypt rnd_s sk_s st_s = (Ok (Some enc_s), st_s1) ->
  exists d ct st_e w st_w,
    (forall enc' pfree',
       s2n_rsa_client_key_send malloc rnd_c pkey_size enc' pfree' sk_c st_c
       = (s2n_pkey_encrypt enc' sk_c
            {| data := d; size := zlen ct; allocated := 0; growable := false |}
            ≫= fun _ => extern pfree' ≫= fun _ => ret tt) st_e)
    /\ enc (rsa_premaster_secret (conn st_c')) (zlen ct) st_e = (Ok ct, w)
    /\ mem_write d ct (set_world w st_e) = (Ok tt, st_w)
    /\ pfree st_w = (Ok tt, world st_c')
    /\ st_c' = set_world (world st_c') st_w
    /\ blob_bytes st_s1 enc_s = Some ct
    /\ stuffer_unread st_s1 (handshake_io (conn st_s1)) = [].
Proof.
  intros Ht Hvc Hsend Hver Hsame Hvs Hmsg Hrecv.
  destruct (rsa_send_ciphertext_at malloc rnd_c pkey_size enc pfree sk_c st_c st_c'
              Ht Hvc Hsend)
    as (b & n & d & ct & st_e & w & st_w & _ & _ & _ & Hn & Hat & Henc & Hmw & Hpf & Hst
        & Hct & Hc).
  rewrite Hc, drop_app_length in Hmsg.
  destruct (until_decrypt_parse rnd_s sk_s st_s enc_s st_s1 Hvs Hrecv)
    as (ct' & rest & Hbytes & _ & _ & Hrest & Hcase).
  rewrite Hsame in Hcase. rewrite Hmsg in Hcase.
  assert (ct' = ct /\ rest = []) as [-> ->].
  { case_bool_decide as Hv3.
    - rewrite Hv3 in Hcase. change (S2N_SSLv3 <? S2N_SSLv3) with false in Hcase.
      cbn [app] in Hcase. destruct Hcase as [Hsplit Hlen].
      rewrite <- Hsplit, Hct in Hlen. unfold uint16 in Hlen.
      rewrite Z.mod_small in Hlen by lia.
      rewrite <- Hct, Hsplit in Hlen. apply app_same_length_nil in Hlen as ->.
      rewrite app_nil_r in Hsplit. done.
    - rewrite (proj2 (Z.ltb_lt _ _)) in Hcase by lia.
      destruct Hcase as (d0 & d1 & Hsplit & Hlen).
      cbn [app] in Hsplit. injection Hsplit as <- <- Hsplit.
      rewrite length_prefix_decode in Hlen by exact Hn.
      rewrite <- Hct, Hsplit in Hlen. apply app_same_length_nil in Hlen as ->.
      rewrite app_nil_r in Hsplit. done. }
  exists d, ct, st_e, w, st_w. rewrite Hct. done.
Qed.

End RoundTrip.

(** X3: the message that s2n_rsa_client_key_send appends to the handshake
    buffer is read back by s2n_rsa_client_key_recv: when the unread part
    of the receiver's buffer is that message, the protocol version is the
    same on both sides and is SSLv3 or later, the ciphertext that the
    receiver submits for decryption is the encryption of the sender's
    premaster secret, and nothing of the message is left unread. That
    encryption is the one the sending handler asks for, before it releases
    the key: whatever the encrypt and the release operations are, the
    sender reaches the encryption in the same state st_e and calls the
    release after it; the ciphertext is what the encrypt operation returns
    in st_e, it is written to the buffer, and the release runs on the state
    so reached and leaves the sender's final state. *)
Theorem rsa_client_key_round_trip {W}
    (malloc : W -> Z -> bool) (rnd_c rnd_s : state W -> result (nat -> Z) * W)
    (pkey_size : state W -> result Z * W)
    (enc : list Z -> Z -> state W -> result (list Z) * W)
    (pfree : state W -> result unit * W)
    sk_c st_c st_c' sk_s st_s encrypted st_s1 :
  zlen (rsa_premaster_secret (conn st_c)) = S2N_TLS_SECRET_LEN ->
  stuffer_valid st_c (handshake_io (conn st_c)) = true ->
  s2n_rsa_client_key_send malloc rnd_c pkey_size enc pfree sk_c st_c = (Ok tt, st_c') ->
  S2N_SSLv3 <= actual_protocol_version (conn st_c) ->
  actual_protocol_version (conn st_s) = actual_protocol_version (conn st_c) ->
  stuffer_valid st_s (handshake_io (conn st_s)) = true ->
  stuffer_unread st_s (handshake_io (conn st_s))
  = drop (length (stuffer_content st_c (handshake_io (conn st_c))))
      (stuffer_content st_c' (handshake_io (conn st_c'))) ->
  (forall decrypt,
     s2n_rsa_client_key_recv rnd_s decrypt sk_s st_s
     = decrypt encrypted sk_s s2n_rsa_client_key_recv_complete st_s1) ->
  exists d ct st_e w st_w,
    (forall enc' pfree',
       s2n_rsa_client_key_send malloc rnd_c pkey_size enc' pfree' sk_c st_c
       = (s2n_pkey_encrypt enc' sk_c
            {| data := d; size := zlen ct; allocated := 0; growable := false |}
            ≫= fun _ => extern pfree' ≫= fun _ => ret tt) st_e)
    /\ enc (rsa_premaster_secret (conn st_c')) (zlen ct) st_e = (Ok ct, w)
    /\ mem_write d ct (set_world w st_e) = (Ok tt, st_w)
    /\ pfree st_w = (Ok tt, world st_c')
    /\ st_c' = set_world (world st_c') st_w
    /\ blob_bytes st_s1 encrypted = Some ct
    /\ stuffer_unread st_s1 (handshake_io (conn st_s1)) = [].
Proof.
  intros Ht Hvc Hsend Hver Hsame Hvs Hmsg Hrecv.
  apply reaches_decrypt_eq in Hrecv.
  exact (rsa_round_trip malloc rnd_c rnd_s pkey_size enc pfree sk_c st_c st_c' sk_s st_s
           encrypted st_s1 Ht Hvc Hsend Hver Hsame Hvs Hmsg Hrecv).
Qed.

Lemma rsa_client_key_round_trip_witness :
  exists d ct st_e w st_w,
    (forall enc' pfree',
       s2n_rsa_client_key_send Examples.example_malloc Examples.example_random
         Examples.example_pkey_size enc' pfree' (B_local 0) Examples.st_tls12
       = (s2n_pkey_encrypt enc' (B_local 0)
            {| data := d; size := zlen ct; allocated := 0; growable := false |}
            ≫= fun _ => extern pfree' ≫= fun _ => ret tt) st_e)
    /\ Examples.example_pkey_encrypt (rsa_premaster_secret (conn Examples.st_tls12_sent))
         (zlen ct) st_e = (Ok ct, w)
    /\ mem_write d ct (set_world w st_e) = (Ok tt, st_w)
    /\ Examples.example_pkey_free st_w = (Ok tt, world Examples.st_tls12_sent)
    /\ Examples.st_tls12_sent = set_world (world Examples.st_tls12_sent) st_w
    /\ blob_bytes MoreExamples.st_server_at_decrypt Examples.st_tls12_encrypted = Some ct
    /\ stuffer_unread MoreExamples.st_server_at_decrypt
         (handshake_io (conn MoreExamples.st_server_at_decrypt)) = [].
Proof.
  assert (zlen (rsa_premaster_secret (conn Examples.st_tls12)) = S2N_TLS_SECRET_LEN)
    as Ht by (vm_compute; reflexivity).
  assert (stuffer_valid Examples.st_tls12 (handshake_io (conn Examples.st_tls12)) = true)
    as Hv by (vm_compute; reflexivity).
  assert (s2n_rsa_client_key_send Examples.example_malloc Examples.example_random
            Examples.example_pkey_size Examples.example_pkey_encrypt
            Examples.example_pkey_free (B_local 0) Examples.st_tls12
          = (Ok tt, Examples.st_tls12_sent)) as Hs by (vm_compute; reflexivity).
  assert (S2N_SSLv3 <= actual_protocol_version (conn Examples.st_tls12)) as Hver
    by (vm_compute; discriminate).
  assert (actual_protocol_version (conn MoreExamples.st_server)
          = actual_protocol_version (conn Examples.st_tls12)) as Hsame
    by (vm_compute; reflexivity).
  assert (stuffer_valid MoreExamples.st_server (handshake_io (conn MoreExamples.st_server))
          = true) as Hvs by (vm_compute; reflexivity).
  assert (stuffer_unread MoreExamples.st_server (handshake_io (conn MoreExamples.st_server))
          = drop (length (stuffer_content Examples.st_tls12
                            (handshake_io (conn Examples.st_tls12))))
              (stuffer_content Examples.st_tls12_sent
                 (handshake_io (conn Examples.st_tls12_sent)))) as Hmsg
    by (vm_compute; reflexivity).
  assert (forall decrypt,
            s2n_rsa_client_key_recv Examples.example_random decrypt (B_local 0)
              MoreExamples.st_server
            = decrypt Examples.st_tls12_encrypted (B_local 0)
                s2n_rsa_client_key_recv_complete MoreExamples.st_server_at_decrypt) as Hr.
  { assert (rsa_recv_until_decrypt Examples.example_random (B_local 0)
              MoreExamples.st_server
            = (Ok (Some Examples.st_tls12_encrypted), MoreExamples.st_server_at_decrypt))
      as Hu by (vm_compute; reflexivity).
    intros decrypt. rewrite rsa_recv_decompose, Hu. reflexivity. }
  exact (rsa_client_key_round_trip Examples.example_malloc Examples.example_random
           Examples.example_random Examples.example_pkey_size
           Examples.example_pkey_encrypt Examples.example_pkey_free
           (B_local 0) Examples.st_tls12 Examples.st_tls12_sent
           (B_local 0) MoreExamples.st_server Examples.st_tls12_encrypted
           MoreExamples.st_server_at_decrypt Ht Hv Hs Hver Hsame Hvs Hmsg Hr).
Defined.

(** ** Re-entry and the version check of the receiving RSA handler *)

(** X4: s2n_rsa_client_key_recv entered while a decryption is deferred or
    has completed does not read the message again, draws no random
    premaster secret and does not call the decrypt operation: it points the
    shared key at the 48 bytes of rsa_premaster_secret and then either
    returns success, resetting the marker of the deferred operation (when
    it has completed), or fails as blocked, leaving the handshake buffer,
    the premaster secret, the heap and everything outside the connection as
    they were. *)
Theorem rsa_client_key_recv_async_reentry {W} sk b (st : state W) :
  get_blob st sk = Some b ->
  handshake_async_state (conn st) <> S2N_ASYNC_NOT_INVOKED ->
  exists r st',
    (forall rnd decrypt, s2n_rsa_client_key_recv rnd decrypt sk st = (r, st'))
    /\ r = match handshake_async_state (conn st) with
           | S2N_ASYNC_INVOKED_COMPLETE => Ok tt
           | _ => Err S2N_ERR_ASYNC_BLOCKED
           end
    /\ get_blob st' sk
       = Some (set_size S2N_TLS_SECRET_LEN (set_data (Ptr R_rsa_premaster_secret 0) b))
    /\ handshake_io (conn st') = handshake_io (conn st)
    /\ rsa_premaster_secret (conn st') = rsa_premaster_secret (conn st)
    /\ heap st' = heap st /\ world st' = world st
    /\ (r = Ok tt -> handshake_async_state (conn st') = S2N_ASYNC_NOT_INVOKED).
Proof.
  intros Hb Hasync.
  destruct (get_blob_put_blob sk b
              (set_size S2N_TLS_SECRET_LEN (set_data (Ptr R_rsa_premaster_secret 0) b))
              st Hb) as [s6 Hput].
  pose proof (put_blob_frame _ _ _ _ Hput)
    as (Hh & Hw & Hs & Hio & Hpm & Hv & Hcp & Hch & Has & Hg).
  assert (sk <> B_NULL) as Hnn by (intros ->; discriminate Hb).
  assert (forall rnd, rsa_recv_until_decrypt rnd sk st
          = match handshake_async_state (conn st) with
            | S2N_ASYNC_INVOKED_COMPLETE =>
                (Ok None, set_conn (set_handshake_async_state S2N_ASYNC_NOT_INVOKED) s6)
            | _ => (Err S2N_ERR_ASYNC_BLOCKED, s6)
            end) as Hu.
  { intros rnd. unfold rsa_recv_until_decrypt.
    rewrite (run_bind_ok _ _ st tt st)
      by (unfold notnull_check_blob; now rewrite bool_decide_eq_false_2).
    rewrite (run_bind_ok _ _ st b st) by (unfold deref; now rewrite Hb).
    rewrite (run_bind_ok _ _ st tt s6) by (unfold assign; now rewrite Hput).
    rewrite run_bind. unfold S2N_ASYNC_PKEY_GUARD.
    rewrite (run_bind_ok _ _ s6 (handshake_async_state (conn s6)) s6) by reflexivity.
    rewrite Has.
    destruct (handshake_async_state (conn st)); try reflexivity. contradiction. }
  destruct (handshake_async_state (conn st)) eqn:Hst; [contradiction| | |].
  1,2: exists (Err S2N_ERR_ASYNC_BLOCKED), s6;
       (split; [intros rnd decrypt; now rewrite rsa_recv_decompose, Hu|]);
       repeat split; try assumption; discriminate.
  exists (Ok tt), (set_conn (set_handshake_async_state S2N_ASYNC_NOT_INVOKED) s6).
  split; [intros rnd decrypt; now rewrite rsa_recv_decompose, Hu|].
  split; [reflexivity|]. split; [destruct sk; exact Hg|].
  repeat split; assumption.
Qed.

Lemma rsa_client_key_recv_async_reentry_witness :
  exists r st',
    (forall rnd decrypt,
       s2n_rsa_client_key_recv rnd decrypt (B_local 0) MoreExamples.st_async_complete
       = (r, st'))
    /\ r = Ok tt
    /\ get_blob st' (B_local 0)
       = Some (set_size S2N_TLS_SECRET_LEN
                 (set_data (Ptr R_rsa_premaster_secret 0) blob_zero))
    /\ handshake_io (conn st') = handshake_io (conn MoreExamples.st_async_complete)
    /\ rsa_premaster_secret (conn st')
       = rsa_premaster_secret (conn MoreExamples.st_async_complete)
    /\ heap st' = heap MoreExamples.st_async_complete
    /\ world st' = world MoreExamples.st_async_complete
    /\ (r = Ok tt -> handshake_async_state (conn st') = S2N_ASYNC_NOT_INVOKED).
Proof.
  exact (rsa_client_key_recv_async_reentry (B_local 0) blob_zero
           MoreExamples.st_async_complete eq_refl ltac:(discriminate)).
Defined.

Section Rollback.
Context {W : Type}.
Implicit Types st : state W.

(** The completion handler on a buffer of the right size. *)
Lemma recv_complete_run rsa_failed decrypted d bytes st :
  get_blob st decrypted = Some d ->
  load st (data d) (size d) = Some bytes ->
  size d = S2N_TLS_SECRET_LEN ->
  zlen (rsa_premaster_secret (conn st)) = S2N_TLS_SECRET_LEN ->
  s2n_rsa_client_key_recv_complete rsa_failed decrypted st
  = (Ok tt,
     set_conn (fun c =>
       set_handshake_rsa_failed
         (rsa_failed
          || negb (s2n_constant_time_equals
                     (wire_version (uint8 (get_client_hello_protocol_version c)))
                     bytes S2N_TLS_PROTOCOL_VERSION_LEN))
         (set_rsa_premaster_secret bytes c)) st).
Proof.
  intros Hp Hl Hsz Hlen.
  unfold s2n_rsa_client_key_recv_complete.
  rewrite (run_bind_ok _ _ st d st) by (unfold deref; now rewrite Hp).
  rewrite (run_bind_ok _ _ st tt st)
    by (rewrite bool_decide_eq_false_2; [reflexivity | intros H; exact (H Hsz)]).
  rewrite Hsz in Hl.
  destruct (decide (Ptr R_rsa_premaster_secret 0 = data d)) as [Hd|Hd].
  - rewrite (run_bind_ok _ _ st tt st)
      by (rewrite bool_decide_eq_false_2; [reflexivity | intros H; exact (H Hd)]).
    rewrite <- Hd, <- Hlen, load_premaster in Hl. injection Hl as <-.
    destruct st as [c h bl sl w]. destruct c. reflexivity.
  - assert (Hnn : data d <> NULL).
    { intros E. rewrite E in Hl. discriminate Hl. }
    pose proof (load_length _ _ _ _ Hl) as Hb.
    rewrite (run_bind_ok _ _ st tt (set_conn (set_rsa_premaster_secret bytes) st)).
    + destruct st as [c h bl sl w]. destruct c. reflexivity.
    + rewrite (bool_decide_eq_true_2 _ Hd).
      unfold memcpy_check. rewrite bool_decide_eq_false_2 by done.
      rewrite (run_bind_ok _ _ st tt st) by reflexivity.
      rewrite (run_bind_ok _ _ st tt st)
        by (unfold notnull_check; now rewrite bool_decide_eq_false_2).
      rewrite (run_bind_ok _ _ st bytes st) by (unfold mem_read; now rewrite Hl).
      unfold mem_write. rewrite store_premaster by lia. reflexivity.
Qed.

(** The two wire bytes determine the version. *)
Lemma wire_version_inj v v' :
  0 <= v <= 255 -> 0 <= v' <= 255 -> wire_version v = wire_version v' -> v = v'.
Proof.
  intros Hv Hv' H. unfold wire_version, uint8 in H.
  assert (0 <= v / 10 < 256 /\ 0 <= v' / 10 < 256) as [H1 H2]
    by (split; split; try (apply Z.div_pos; lia); apply Z.div_lt_upper_bound; lia).
  pose proof (Z.mod_pos_bound v 10 ltac:(lia)).
  pose proof (Z.mod_pos_bound v' 10 ltac:(lia)).
  rewrite (Z.mod_small (v / 10)), (Z.mod_small (v' / 10)), (Z.mod_small (v mod 10)),
    (Z.mod_small (v' mod 10)) in H by lia.
  injection H as Hq Hr.
  pose proof (Z.div_mod v 10 ltac:(lia)). pose proof (Z.div_mod v' 10 ltac:(lia)). lia.
Qed.

End Rollback.

(** X5: the version check of s2n_rsa_client_key_recv_complete compares
    versions: when the first two bytes of a decrypted premaster secret of
    48 bytes are the wire bytes of a version v, the handler succeeds, keeps
    the decrypted bytes as the premaster secret, and sets the failure flag
    exactly when the decrypt operation reported a failure or v is not the
    version the client advertised. *)
Theorem rsa_recv_complete_detects_rollback {W} rsa_failed decrypted d bytes v
    (st : state W) :
  get_blob st decrypted = Some d ->
  load st (data d) (size d) = Some bytes ->
  size d = S2N_TLS_SECRET_LEN ->
  conn_typed (conn st) ->
  0 <= v <= 255 ->
  take 2 bytes = wire_version v ->
  exists st',
    s2n_rsa_client_key_recv_complete rsa_failed decrypted st = (Ok tt, st')
    /\ rsa_premaster_secret (conn st') = bytes
    /\ handshake_rsa_failed (conn st')
       = rsa_failed
         || negb (bool_decide (v = get_client_hello_protocol_version (conn st))).
Proof.
  intros Hp Hl Hsz Ht Hv Hb.
  pose proof Ht as (Hlen & Hch & Hcp).
  rewrite (recv_complete_run rsa_failed decrypted d bytes st Hp Hl Hsz Hlen).
  eexists. split; [reflexivity|]. split; [reflexivity|].
  cbn. f_equal. f_equal.
  destruct (wire_version_typed _ Ht) as (Hu & _). cbn zeta in Hu. rewrite Hu.
  unfold s2n_constant_time_equals. change (Z.to_nat S2N_TLS_PROTOCOL_VERSION_LEN) with 2%nat.
  rewrite Hb. change (take 2 (wire_version ?x)) with (wire_version x).
  assert (0 <= get_client_hello_protocol_version (conn st) <= 255) as Hadv
    by (unfold get_client_hello_protocol_version; destruct (decide _); lia).
  apply bool_decide_ext. split.
  - intros H. symmetry. now apply wire_version_inj.
  - now intros ->.
Qed.

Lemma rsa_recv_complete_detects_rollback_witness :
  exists st',
    s2n_rsa_client_key_recv_complete false (B_local 0) Examples.st_decrypted = (Ok tt, st')
    /\ rsa_premaster_secret (conn st') = 3 :: 3 :: replicate 46 5
    /\ handshake_rsa_failed (conn st')
       = false
         || negb (bool_decide
                    (33 = get_client_hello_protocol_version (conn Examples.st_decrypted))).
Proof.
  assert (get_blob Examples.st_decrypted (B_local 0)
          = Some {| data := Ptr (R_heap 0) 0; size := 48; allocated := 0;
                    growable := false |}) as Hp by (vm_compute; reflexivity).
  assert (load Examples.st_decrypted (Ptr (R_heap 0) 0) 48 = Some (3 :: 3 :: replicate 46 5))
    as Hl by (vm_compute; reflexivity).
  assert (conn_typed (conn Examples.st_decrypted)) as Ht
    by (refine (bool_decide_unpack _ _); vm_compute; exact I).
  exact (rsa_recv_complete_detects_rollback false (B_local 0) _ _ 33
           Examples.st_decrypted Hp Hl eq_refl Ht ltac:(lia) eq_refl).
Defined.

(** ** Finalisation and the two entry points *)

Section Finalise.
Context {W : Type}.
Variable prf : s2n_kex -> blob_ptr -> state W -> result unit * W.
Variable expansion : state W -> result unit * W.
Variable allowed : state W -> bool.
Variable cache : state W -> result unit * W.
Implicit Types st : state W.

(** s2n_calculate_keys, call by call. *)
Lemma calculate_keys_steps sk st :
  s2n_calculate_keys prf expansion allowed cache sk st
  = match prf (key_exchange_alg (conn st)) sk st with
    | (Ok _, w1) =>
        match calculate_keys_erase sk (set_world w1 st) with
        | (Ok _, st2) =>
            match expansion st2 with
            | (Ok _, w2) =>
                if allowed (set_world w2 st2)
                then match cache (set_world w2 st2) with
                     | (Ok _, w3) => (Ok tt, set_world w3 (set_world w2 st2))
                     | (Err e, w3) => (Err e, set_world w3 (set_world w2 st2))
                     | (Crash, w3) => (Crash, set_world w3 (set_world w2 st2))
                     end
                else (Ok tt, set_world w2 st2)
            | (Err e, w2) => (Err e, set_world w2 st2)
            | (Crash, w2) => (Crash, set_world w2 st2)
            end
        | (Err e, st2) => (Err e, st2)
        | (Crash, st2) => (Crash, st2)
        end
    | (Err e, w1) => (Err e, set_world w1 st)
    | (Crash, w1) => (Crash, set_world w1 st)
    end.
Proof.
  unfold s2n_calculate_keys, calculate_keys_erase.
  rewrite (run_bind_ok _ _ st (key_exchange_alg (conn st)) st) by reflexivity.
  rewrite run_bind. unfold extern at 1.
  destruct (prf (key_exchange_alg (conn st)) sk st) as [[[]| |] w1]; try reflexivity.
  rewrite !run_bind.
  destruct (s2n_blob_zero sk (set_world w1 st)) as [[[]| |] s1]; try reflexivity.
  rewrite !run_bind.
  destruct (deref sk s1) as [[b| |] s2]; try reflexivity.
  rewrite run_bind.
  destruct ((if bool_decide (allocated b ≠ 0) then s2n_free sk else ret ()) s2)
    as [[[]| |] s3]; try reflexivity.
  rewrite run_bind. unfold extern at 1.
  destruct (expansion s3) as [[[]| |] w2]; try reflexivity.
  rewrite run_bind. unfold gets.
  destruct (allowed (set_world w2 s3)); [|reflexivity].
  rewrite run_bind. unfold extern.
  destruct (cache (set_world w2 s3)) as [[[]| |] w3]; reflexivity.
Qed.

(** Erasing a valid shared key does not fail. *)
Lemma calculate_keys_erase_ok sk b st :
  get_blob st sk = Some b -> blob_valid st b = true ->
  exists st2,
    calculate_keys_erase sk st = (Ok tt, st2)
    /\ world st2 = world st
    /\ if bool_decide (allocated b = 0)
       then get_blob st2 sk = Some b
            /\ blob_bytes st2 b = Some (replicate (Z.to_nat (size b)) 0)
            /\ live_cells (heap st2) = live_cells (heap st)
       else get_blob st2 sk = Some blob_zero.
Proof.
  intros Hp Hval. unfold calculate_keys_erase.
  destruct (blob_valid_inv _ _ Hval)
    as [(Hd & Hs & Ha) | [(Hg & Ha & rg & off & bs & Hd & Hl)
                         | (Hg & a & bs & Hd & Hh & Ha & Hs & Hpos)]].
  - rewrite (bool_decide_eq_true_2 _ Ha).
    rewrite (run_bind_ok _ _ _ tt st) by (now apply (blob_zero_empty sk b)).
    rewrite (run_bind_ok _ _ _ b st) by (unfold deref; now rewrite Hp).
    rewrite (bool_decide_eq_false_2 (allocated b <> 0)) by (intros H; exact (H Ha)).
    exists st. repeat split; try assumption.
    unfold blob_bytes. rewrite Hd, Hs. reflexivity.
  - rewrite (bool_decide_eq_true_2 _ Ha).
    destruct (blob_zero_view sk b bs st Hp Ha Hl) as (st1 & Hz & Hl1 & Hw1 & Hlive1 & Hg1).
    rewrite (run_bind_ok _ _ _ tt st1) by exact Hz.
    rewrite (run_bind_ok _ _ _ b st1) by (unfold deref; now rewrite Hg1, Hp).
    rewrite (bool_decide_eq_false_2 (allocated b <> 0)) by (intros H; exact (H Ha)).
    exists st1. split; [reflexivity|]. split; [exact Hw1|].
    split; [now rewrite Hg1|]. split; [|exact Hlive1].
    unfold blob_bytes. rewrite Hd. rewrite <- Hd. exact Hl1.
  - rewrite (bool_decide_eq_false_2 (allocated b = 0)) by lia.
    rewrite (run_bind_ok _ _ _ tt
               (set_heap (<[a := Live (replicate (length bs) 0)]> (heap st)) st))
      by (exact (blob_zero_owned sk b a bs st Hp Hd Hh Ha Hs Hpos)).
    set (st1 := set_heap (<[a := Live (replicate (length bs) 0)]> (heap st)) st) in *.
    assert (get_blob st1 sk = Some b) as Hp1 by (destruct sk; exact Hp).
    rewrite (run_bind_ok _ _ _ b st1) by (unfold deref; now rewrite Hp1).
    rewrite (bool_decide_eq_true_2 (allocated b <> 0)) by lia.
    destruct (s2n_free_owned sk b a (replicate (length bs) 0) st1 Hp1 Hg Hd)
      as (st2 & Hfree & Hput).
    { subst st1. proj_simpl. apply list_lookup_insert_eq. now apply lookup_lt_Some in Hh. }
    { unfold zlen in *. now rewrite length_replicate. }
    { exact Hs. }
    { exact Hpos. }
    pose proof (put_blob_frame _ _ _ _ Hput) as (_ & Hw & _ & _ & _ & _ & _ & _ & _ & Hg2).
    exists st2. split; [exact Hfree|]. split; [exact Hw|]. exact Hg2.
Qed.

(** Erasing a shared key that is the premaster secret of the connection. *)
Lemma calculate_keys_erase_premaster sk b st :
  get_blob st sk = Some b ->
  data b = Ptr R_rsa_premaster_secret 0 -> allocated b = 0 ->
  size b = zlen (rsa_premaster_secret (conn st)) -> 0 < size b ->
  calculate_keys_erase sk st
  = (Ok tt, set_conn (set_rsa_premaster_secret (replicate (Z.to_nat (size b)) 0)) st).
Proof.
  intros Hp Hd Ha Hs Hpos. unfold calculate_keys_erase, s2n_blob_zero.
  rewrite !run_bind_assoc.
  rewrite (run_bind_ok _ _ st b st) by (unfold deref; now rewrite Hp).
  rewrite Ha, Z.max_r by lia. rewrite bool_decide_eq_false_2 by lia.
  rewrite run_bind_assoc.
  rewrite (run_bind_ok _ _ st tt st)
    by (unfold notnull_check; rewrite Hd; now rewrite bool_decide_eq_false_2).
  set (st1 := set_conn (set_rsa_premaster_secret (replicate (Z.to_nat (size b)) 0)) st).
  assert (mem_write (data b) (replicate (Z.to_nat (size b)) 0) st = (Ok tt, st1)) as Hw.
  { unfold mem_write. rewrite Hd, store_premaster; [reflexivity|].
    unfold zlen at 1. rewrite length_replicate. lia. }
  rewrite (run_bind_ok _ _ _ _ _ Hw).
  assert (get_blob st1 sk = Some b) as Hp1 by (destruct sk; exact Hp).
  rewrite (run_bind_ok _ _ st1 b st1) by (unfold deref; now rewrite Hp1).
  rewrite Ha. rewrite bool_decide_eq_false_2 by (intros H; now apply H).
  reflexivity.
Qed.

End Finalise.

(** X6: s2n_calculate_keys on a valid shared key fails only where the
    pseudo-random function, the key expansion or the session cache fails,
    and with that failure: erasing the key cannot fail. The key expansion
    runs on the state with the key erased, and the session cache is
    written only if caching is allowed. *)
Theorem calculate_keys_outcome {W}
    (prf : s2n_kex -> blob_ptr -> state W -> result unit * W)
    (expansion : state W -> result unit * W) (allowed : state W -> bool)
    (cache : state W -> result unit * W) sk b st :
  get_blob st sk = Some b ->
  blob_valid st b = true ->
  exists st2,
    (forall w1, prf (key_exchange_alg (conn st)) sk st = (Ok tt, w1) ->
                calculate_keys_erase sk (set_world w1 st) = (Ok tt, st2))
    /\ fst (s2n_calculate_keys prf expansion allowed cache sk st)
       = match prf (key_exchange_alg (conn st)) sk st with
         | (Ok _, _) =>
             match expansion st2 with
             | (Ok _, w2) =>
                 if allowed (set_world w2 st2)
                 then fst (cache (set_world w2 st2))
                 else Ok tt
             | (Err e, _) => Err e
             | (Crash, _) => Crash
             end
         | (Err e, _) => Err e
         | (Crash, _) => Crash
         end.
Proof.
  intros Hp Hv. rewrite calculate_keys_steps.
  destruct (prf (key_exchange_alg (conn st)) sk st) as [[[]| |] w1] eqn:Hprf.
  - destruct (calculate_keys_erase_ok sk b (set_world w1 st)) as (st2 & He & _).
    { now rewrite get_blob_world_frame. }
    { exact Hv. }
    exists st2. split; [intros w [= <-]; exact He|].
    rewrite He.
    destruct (expansion st2) as [[[]| |] w2]; try reflexivity.
    destruct (allowed (set_world w2 st2)); [|reflexivity].
    destruct (cache (set_world w2 st2)) as [[[]| |] w3]; reflexivity.
  - exists st. split; [discriminate|reflexivity].
  - exists st. split; [discriminate|reflexivity].
Qed.

Lemma calculate_keys_outcome_witness :
  exists st2,
    (forall w1,
       Examples.example_prf (key_exchange_alg (conn Examples.st_dhe_secret)) (B_local 0)
         Examples.st_dhe_secret = (Ok tt, w1) ->
       calculate_keys_erase (B_local 0) (set_world w1 Examples.st_dhe_secret) = (Ok tt, st2))
    /\ fst (s2n_calculate_keys Examples.example_prf Examples.example_key_expansion
              Examples.example_allowed_to_cache Examples.example_store_to_cache
              (B_local 0) Examples.st_dhe_secret)
       = Ok tt.
Proof.
  assert (get_blob Examples.st_dhe_secret (B_local 0)
          = Some {| data := Ptr (R_heap 1) 0; size := 4; allocated := 4; growable := true |})
    as Hp by (vm_compute; reflexivity).
  assert (blob_valid Examples.st_dhe_secret
            {| data := Ptr (R_heap 1) 0; size := 4; allocated := 4; growable := true |}
          = true) as Hv by (vm_compute; reflexivity).
  exact (calculate_keys_outcome Examples.example_prf Examples.example_key_expansion
           Examples.example_allowed_to_cache Examples.example_store_to_cache
           (B_local 0) _ Examples.st_dhe_secret Hp Hv).
Defined.

(** X7: s2n_client_key_send over the RSA method: once the RSA handler has
    written the message and the pseudo-random function has derived the
    master secret, the premaster secret in the connection is 48 zero
    bytes whatever the later steps return, while the handshake buffer and
    the heap, and so the encrypted message, are left as the handler
    wrote them. *)
Theorem client_key_send_rsa_erases_premaster {W}
    (malloc : W -> Z -> bool) (rnd : state W -> result (nat -> Z) * W)
    (pkey_size : state W -> result Z * W)
    (enc : list Z -> Z -> state W -> result (list Z) * W)
    (pfree : state W -> result unit * W)
    (prf : s2n_kex -> blob_ptr -> state W -> result unit * W)
    (expansion : state W -> result unit * W) (allowed : state W -> bool)
    (cache : state W -> result unit * W)
    (kex_send : s2n_kex_client_key_method (W := W)) st st1 w1 r st' :
  (forall sk, kex_send (Some s2n_rsa) sk
              = s2n_rsa_client_key_send malloc rnd pkey_size enc pfree sk) ->
  key_exchange_alg (conn st) = s2n_rsa ->
  zlen (rsa_premaster_secret (conn st)) = S2N_TLS_SECRET_LEN ->
  stuffer_valid st (handshake_io (conn st)) = true ->
  s2n_rsa_client_key_send malloc rnd pkey_size enc pfree (B_local (length (blobs st)))
    (set_blobs (blobs st ++ [blob_zero]) st) = (Ok tt, st1) ->
  prf (key_exchange_alg (conn st1)) (B_local (length (blobs st))) st1 = (Ok tt, w1) ->
  s2n_client_key_send prf expansion allowed cache kex_send st = (r, st') ->
  rsa_premaster_secret (conn st') = replicate 48 0
  /\ handshake_io (conn st') = handshake_io (conn st1)
  /\ heap st' = heap st1.
Proof.
  intros Hdisp Hkex Ht Hv Hsend Hprf Hrun.
  unfold s2n_client_key_send in Hrun.
  rewrite (run_bind_ok _ _ st (key_exchange_alg (conn st)) st) in Hrun by reflexivity.
  rewrite (run_bind_ok _ _ st (B_local (length (blobs st)))
             (set_blobs (blobs st ++ [blob_zero]) st)) in Hrun by reflexivity.
  rewrite Hkex, Hdisp in Hrun.
  rewrite (run_bind_ok _ _ _ _ _ Hsend) in Hrun.
  rewrite run_unit in Hrun.
  destruct (rsa_send_ciphertext malloc rnd pkey_size enc pfree (B_local (length (blobs st)))
              (set_blobs (blobs st ++ [blob_zero]) st) st1 Ht Hv Hsend)
    as (b & n & ct & st_e & w & Hb & Hb1 & Ht1 & _).
  rewrite calculate_keys_steps, Hprf in Hrun.
  rewrite (calculate_keys_erase_premaster _ _ (set_world w1 st1)
             ltac:(rewrite get_blob_world_frame; exact Hb1) eq_refl) in Hrun.
  2:{ cbn in Hb |- *. rewrite list_lookup_middle in Hb by reflexivity.
      now injection Hb as <-. }
  2:{ cbn. now rewrite Ht1. }
  2:{ cbn. done. }
  cbn [size set_size] in Hrun.
  destruct (expansion _) as [[[]| |] w2] in Hrun; try (injection Hrun as <- <-; done).
  destruct (allowed _) in Hrun; [|injection Hrun as <- <-; done].
  destruct (cache _) as [[[]| |] w3] in Hrun; injection Hrun as <- <-; done.
Qed.

Lemma client_key_send_rsa_erases_premaster_witness :
  rsa_premaster_secret (conn MoreExamples.st_client_done) = replicate 48 0
  /\ handshake_io (conn MoreExamples.st_client_done) = handshake_io (conn MoreExamples.st_client_keyed)
  /\ heap MoreExamples.st_client_done = heap MoreExamples.st_client_keyed.
Proof.
  assert (zlen (rsa_premaster_secret (conn Examples.st_tls12)) = S2N_TLS_SECRET_LEN)
    as Ht by (vm_compute; reflexivity).
  assert (stuffer_valid Examples.st_tls12 (handshake_io (conn Examples.st_tls12)) = true)
    as Hv by (vm_compute; reflexivity).
  assert (s2n_rsa_client_key_send Examples.example_malloc Examples.example_random
            Examples.example_pkey_size Examples.example_pkey_encrypt
            Examples.example_pkey_free (B_local (length (blobs Examples.st_tls12)))
            (set_blobs (blobs Examples.st_tls12 ++ [blob_zero]) Examples.st_tls12)
          = (Ok tt, MoreExamples.st_client_keyed)) as Hs by (vm_compute; reflexivity).
  assert (Examples.example_prf (key_exchange_alg (conn MoreExamples.st_client_keyed))
            (B_local (length (blobs Examples.st_tls12))) MoreExamples.st_client_keyed
          = (Ok tt, 2%nat)) as Hp by (vm_compute; reflexivity).
  assert (s2n_client_key_send Examples.example_prf Examples.example_key_expansion
            Examples.example_allowed_to_cache Examples.example_store_to_cache
            MoreExamples.example_dispatch_send Examples.st_tls12 = (Ok tt, MoreExamples.st_client_done)) as Hr
    by (vm_compute; reflexivity).
  exact (client_key_send_rsa_erases_premaster Examples.example_malloc
           Examples.example_random Examples.example_pkey_size
           Examples.example_pkey_encrypt Examples.example_pkey_free
           Examples.example_prf Examples.example_key_expansion
           Examples.example_allowed_to_cache Examples.example_store_to_cache
           MoreExamples.example_dispatch_send Examples.st_tls12 MoreExamples.st_client_keyed 2%nat (Ok tt)
           MoreExamples.st_client_done (fun sk => eq_refl) eq_refl Ht Hv Hs Hp Hr).
Defined.

(** X8: a connection whose key exchange method is the KEM on its own
    cannot complete s2n_client_key_recv or s2n_client_key_send: the shared
    key that they hand to the KEM handler is a blob of their own frame and
    not the shared secret of the KEM parameters, so both fail with a
    safety error before the KEM primitive and the pseudo-random function
    are called. *)
Theorem client_key_exchange_bare_kem_fails {W}
    (prf : s2n_kex -> blob_ptr -> state W -> result unit * W)
    (expansion : state W -> result unit * W) (allowed : state W -> bool)
    (cache : state W -> result unit * W)
    (kex_recv kex_send : s2n_kex_client_key_method (W := W))
    (recv_primitive send_primitive : M W unit) st :
  key_exchange_alg (conn st) = s2n_kem ->
  (forall sk, kex_recv (Some s2n_kem) sk = s2n_kem_client_key_recv recv_primitive sk) ->
  (forall sk, kex_send (Some s2n_kem) sk = s2n_kem_client_key_send send_primitive sk) ->
  s2n_client_key_recv prf expansion allowed cache kex_recv st
  = (Err S2N_ERR_SAFETY, set_blobs (blobs st ++ [blob_zero]) st)
  /\ s2n_client_key_send prf expansion allowed cache kex_send st
     = (Err S2N_ERR_SAFETY, set_blobs (blobs st ++ [blob_zero]) st).
Proof.
  intros Hkex Hr Hs. unfold s2n_client_key_recv, s2n_client_key_send.
  rewrite !(run_bind_ok _ _ st (key_exchange_alg (conn st)) st) by reflexivity.
  rewrite !(run_bind_ok _ _ st (B_local (length (blobs st)))
              (set_blobs (blobs st ++ [blob_zero]) st)) by reflexivity.
  rewrite Hkex, Hr, Hs. split; reflexivity.
Qed.

Lemma client_key_exchange_bare_kem_fails_witness :
  s2n_client_key_recv Examples.example_prf Examples.example_key_expansion
    Examples.example_allowed_to_cache Examples.example_store_to_cache
    MoreExamples.example_dispatch_kem_recv MoreExamples.st_bare_kem
  = (Err S2N_ERR_SAFETY,
     set_blobs (blobs MoreExamples.st_bare_kem ++ [blob_zero]) MoreExamples.st_bare_kem)
  /\ s2n_client_key_send Examples.example_prf Examples.example_key_expansion
       Examples.example_allowed_to_cache Examples.example_store_to_cache
       MoreExamples.example_dispatch_kem_send MoreExamples.st_bare_kem
     = (Err S2N_ERR_SAFETY,
        set_blobs (blobs MoreExamples.st_bare_kem ++ [blob_zero]) MoreExamples.st_bare_kem).
Proof.
  exact (client_key_exchange_bare_kem_fails Examples.example_prf
           Examples.example_key_expansion Examples.example_allowed_to_cache
           Examples.example_store_to_cache MoreExamples.example_dispatch_kem_recv
           MoreExamples.example_dispatch_kem_send MoreExamples.example_kem_primitive
           MoreExamples.example_kem_primitive MoreExamples.st_bare_kem
           eq_refl (fun sk => eq_refl) (fun sk => eq_refl)).
Defined.

(** ** The hybrid handler: failures, releases and the KEM handler *)

Section HybridRun.
Context {W : Type}.
Variable malloc : W -> Z -> bool.
Implicit Types st : state W.

(** From the entry of s2n_hybrid_client_action to the declaration of
    shared_key_0. *)
Lemma hybrid_action_enter combined km cursor sa st d st_a :
  sa S_handshake_io 0 st = (Ok d, st_a) ->
  d <> NULL ->
  s2n_hybrid_client_action malloc combined (Some km) cursor (Some sa) st
  = DEFER_CLEANUP (s2n_free (B_local (length (blobs st_a))))
      (km (fst (hybrid (key_exchange_alg (conn st)))) (B_local (length (blobs st_a)))
         ≫= fun _ =>
       km (snd (hybrid (key_exchange_alg (conn st)))) B_kem_shared_secret
         ≫= fun _ =>
       hybrid_after_kex malloc combined (B_local (length (blobs st_a))) cursor
         (cursor_of cursor st_a))
      (hybrid_enter d st_a).
Proof.
  intros Hsa Hd. unfold s2n_hybrid_client_action.
  rewrite (run_bind_ok _ _ st km st) by reflexivity.
  rewrite (run_bind_ok _ _ st sa st) by reflexivity.
  rewrite (run_bind_ok _ _ st (fst (hybrid (key_exchange_alg (conn st)))) st) by reflexivity.
  rewrite (run_bind_ok _ _ st (snd (hybrid (key_exchange_alg (conn st)))) st) by reflexivity.
  rewrite (run_bind_ok _ _ st d st_a) by exact Hsa.
  rewrite (run_bind_ok _ _ st_a tt
             (set_conn (fun c => set_client_key_exchange_message
                                   (set_data d (client_key_exchange_message c)) c) st_a))
    by reflexivity.
  rewrite (run_bind_ok _ _ _ tt
             (set_conn (fun c => set_client_key_exchange_message
                                   (set_data d (client_key_exchange_message c)) c) st_a))
    by (unfold notnull_check; now rewrite bool_decide_eq_false_2).
  rewrite (run_bind_ok _ _ _ (cursor_of cursor st_a)
             (set_conn (fun c => set_client_key_exchange_message
                                   (set_data d (client_key_exchange_message c)) c) st_a))
    by (now destruct cursor).
  rewrite (run_bind_ok _ _ _ (B_local (length (blobs st_a))) (hybrid_enter d st_a))
    by reflexivity.
  reflexivity.
Qed.

(** Releasing a blob that s2n_free accepts: the blob is reset and the
    cell it owned is released with its bytes set to 0. *)
Lemma s2n_free_post p b st :
  get_blob st p = Some b -> blob_owned_or_empty st b = true ->
  exists st1,
    s2n_free p st = (Ok tt, st1)
    /\ get_blob st1 p = Some blob_zero
    /\ world st1 = world st
    /\ captured_message st1 = captured_message st
    /\ forall c, blob_cell b = Some c ->
                 exists n, heap st1 !! c = Some (Freed (replicate n 0)).
Proof.
  intros Hp H. pose proof H as Ho.
  unfold blob_owned_or_empty in H. apply andb_prop in H as [Hv Hg].
  destruct (blob_valid_inv _ _ Hv)
    as [(E & Hs & Ha)|[(Hng & _ & r & off & bs & E & _)
                      |(Hgr & a & bs & E & Hh & Hal & Hsz & Hpos)]].
  - destruct (s2n_free_empty p b st Hp E Hs Ha) as (st1 & H1 & Hput).
    pose proof (put_blob_frame _ _ _ _ Hput) as (_ & Hw & _ & _ & _ & _ & _ & _ & _ & Hg1).
    exists st1. split; [exact H1|]. split; [exact Hg1|]. split; [exact Hw|].
    split; [exact (keeps_free _ _ _ _ H1)|].
    intros c Hc. unfold blob_cell in Hc. rewrite E in Hc. discriminate.
  - rewrite Hng in Hg. cbn in Hg. apply bool_decide_eq_true in Hg. congruence.
  - destruct (s2n_free_owned p b a bs st Hp Hgr E Hh Hal Hsz Hpos) as (st1 & H1 & Hput).
    pose proof (put_blob_frame _ _ _ _ Hput) as (Hh1 & Hw & _ & _ & _ & _ & _ & _ & _ & Hg1).
    exists st1. split; [exact H1|]. split; [exact Hg1|]. split; [exact Hw|].
    split; [exact (keeps_free _ _ _ _ H1)|].
    intros c Hc. unfold blob_cell in Hc. rewrite E, Hgr in Hc. injection Hc as <-.
    exists (length bs). rewrite Hh1. cbn.
    apply list_lookup_insert_eq. now apply lookup_lt_Some in Hh.
Qed.

End HybridRun.

(** X9: when one of the two sub-operations of a hybrid exchange fails, the
    handler returns that error, and on its way out still releases
    shared_key_0: the blob is reset and the cell it owned is released with
    its bytes set to 0. Nothing else is touched after the failure: the
    other blobs, among them the combined shared key, the captured message
    and everything outside the connection stay as the failing sub-operation
    left them. *)
Theorem hybrid_sub_operation_failure {W} (malloc : W -> Z -> bool)
    (kex_recv kex_send : s2n_kex_client_key_method (W := W))
    dir combined st d st_a e st_f b0 :
  direction_stuffer_action malloc dir S_handshake_io 0 st = (Ok d, st_a) ->
  d <> NULL ->
  (direction_kex_method dir kex_recv kex_send
     (fst (hybrid (key_exchange_alg (conn st)))) (B_local (length (blobs st_a)))
     (hybrid_enter d st_a) = (Err e, st_f)
   \/ exists st_b,
        direction_kex_method dir kex_recv kex_send
          (fst (hybrid (key_exchange_alg (conn st)))) (B_local (length (blobs st_a)))
          (hybrid_enter d st_a) = (Ok tt, st_b)
        /\ direction_kex_method dir kex_recv kex_send
             (snd (hybrid (key_exchange_alg (conn st)))) B_kem_shared_secret st_b
           = (Err e, st_f)) ->
  get_blob st_f (B_local (length (blobs st_a))) = Some b0 ->
  blob_owned_or_empty st_f b0 = true ->
  exists st',
    s2n_hybrid_client_key malloc dir kex_recv kex_send combined st = (Err e, st')
    /\ get_blob st' (B_local (length (blobs st_a))) = Some blob_zero
    /\ (forall c, blob_cell b0 = Some c ->
                  exists n, heap st' !! c = Some (Freed (replicate n 0)))
    /\ (forall q, q <> B_local (length (blobs st_a)) -> get_blob st' q = get_blob st_f q)
    /\ captured_message st' = captured_message st_f
    /\ world st' = world st_f.
Proof.
  intros Hsa Hd Hfail Hb0 Ho.
  destruct (s2n_free_post _ _ _ Hb0 Ho) as (st' & Hfree & Hz & Hw & Hmsg & Hcell).
  destruct (s2n_free_frame _ _ _ _ _ Hb0 Hfree) as [Hother _].
  exists st'.
  split; [|repeat split; assumption].
  assert (s2n_hybrid_client_key malloc dir kex_recv kex_send combined st
          = s2n_hybrid_client_action malloc combined
              (Some (direction_kex_method dir kex_recv kex_send)) (direction_cursor dir)
              (Some (direction_stuffer_action malloc dir)) st) as ->
    by (now destruct dir).
  rewrite (hybrid_action_enter malloc combined _ _ _ st d st_a Hsa Hd).
  unfold DEFER_CLEANUP.
  destruct Hfail as [H0|(st_b & H0 & H1)].
  - rewrite (run_bind_err _ _ _ _ _ H0), Hfree. reflexivity.
  - rewrite (run_bind_ok _ _ _ _ _ H0), (run_bind_err _ _ _ _ _ H1), Hfree. reflexivity.
Qed.

Lemma hybrid_sub_operation_failure_witness :
  exists st',
    s2n_hybrid_client_key Examples.example_malloc Receive Examples.example_kex_recv
      Examples.example_kex_send (B_local 0) MoreExamples.st_hybrid_short
    = (Err S2N_ERR_STUFFER_OUT_OF_DATA, st')
    /\ get_blob st' (B_local (length (blobs MoreExamples.st_hybrid_short_a)))
       = Some blob_zero
    /\ (forall c,
          blob_cell {| data := Ptr (R_heap 1) 0; size := 32; allocated := 32;
                       growable := true |} = Some c ->
          exists n, heap st' !! c = Some (Freed (replicate n 0)))
    /\ (forall q, q <> B_local (length (blobs MoreExamples.st_hybrid_short_a)) ->
                  get_blob st' q = get_blob MoreExamples.st_hybrid_short_f q)
    /\ captured_message st' = captured_message MoreExamples.st_hybrid_short_f
    /\ world st' = world MoreExamples.st_hybrid_short_f.
Proof.
  assert (direction_stuffer_action Examples.example_malloc Receive S_handshake_io 0
            MoreExamples.st_hybrid_short
          = (Ok (Ptr (R_heap 0) 0), MoreExamples.st_hybrid_short_a)) as Ha
    by (vm_compute; reflexivity).
  assert (direction_kex_method Receive Examples.example_kex_recv Examples.example_kex_send
            (fst (hybrid (key_exchange_alg (conn MoreExamples.st_hybrid_short))))
            (B_local (length (blobs MoreExamples.st_hybrid_short_a)))
            (hybrid_enter (Ptr (R_heap 0) 0) MoreExamples.st_hybrid_short_a)
          = (Ok tt, MoreExamples.st_hybrid_short_b)) as Hb
    by (vm_compute; reflexivity).
  assert (direction_kex_method Receive Examples.example_kex_recv Examples.example_kex_send
            (snd (hybrid (key_exchange_alg (conn MoreExamples.st_hybrid_short))))
            B_kem_shared_secret MoreExamples.st_hybrid_short_b
          = (Err S2N_ERR_STUFFER_OUT_OF_DATA, MoreExamples.st_hybrid_short_f)) as Hf
    by (vm_compute; reflexivity).
  assert (get_blob MoreExamples.st_hybrid_short_f
            (B_local (length (blobs MoreExamples.st_hybrid_short_a)))
          = Some {| data := Ptr (R_heap 1) 0; size := 32; allocated := 32;
                    growable := true |}) as Hg
    by (vm_compute; reflexivity).
  assert (blob_owned_or_empty MoreExamples.st_hybrid_short_f
            {| data := Ptr (R_heap 1) 0; size := 32; allocated := 32; growable := true |}
          = true) as Ho by (vm_compute; reflexivity).
  exact (hybrid_sub_operation_failure Examples.example_malloc Examples.example_kex_recv
           Examples.example_kex_send Receive (B_local 0) MoreExamples.st_hybrid_short
           (Ptr (R_heap 0) 0) MoreExamples.st_hybrid_short_a S2N_ERR_STUFFER_OUT_OF_DATA
           MoreExamples.st_hybrid_short_f _ Ha ltac:(discriminate)
           (or_intror (ex_intro _ MoreExamples.st_hybrid_short_b (conj Hb Hf))) Hg Ho).
Defined.

Section ReleasePost.
Context {W : Type}.
Implicit Types st : state W.

Lemma Forall2_elem_l {A B} (P : A -> B -> Prop) l k x :
  Forall2 P l k -> x ∈ l -> exists y, y ∈ k /\ P x y.
Proof.
  induction 1 as [|a b l k Hab _ IH]; intros Hx.
  - now apply elem_of_nil in Hx.
  - apply elem_of_cons in Hx as [->|Hx].
    + exists b. split; [apply list_elem_of_here|exact Hab].
    + destruct (IH Hx) as (y & Hy & HP). exists y.
      split; [now apply list_elem_of_further|exact HP].
Qed.

(** A blob that s2n_free accepts gives access to bytes. *)
Lemma owned_bytes st b :
  blob_owned_or_empty st b = true -> exists bs, blob_bytes st b = Some bs.
Proof.
  intros H. unfold blob_owned_or_empty in H. apply andb_prop in H as [Hv Hg].
  unfold blob_bytes.
  destruct (blob_valid_inv _ _ Hv)
    as [(E & Hs & Ha)|[(Hng & _ & r & off & bs & E & Hl)
                      |(Hgr & a & bs & E & Hh & Hal & Hsz & Hpos)]].
  - rewrite E, Hs. eauto.
  - rewrite E. rewrite <- E. eauto.
  - rewrite E. unfold load. cbn [region_bytes]. rewrite Hh.
    rewrite bool_decide_eq_true_2 by lia. eauto.
Qed.

(** After a release of blobs that s2n_free accepts and that own different
    cells, every one of them is reset and its cell is released with its
    bytes set to 0. *)
Lemma release_post ps : forall bs st st1,
  Forall2 (fun p b => get_blob st p = Some b /\ blob_owned_or_empty st b = true) ps bs ->
  NoDup ps -> NoDup (omap blob_cell bs) ->
  release ps st = (Ok tt, st1) ->
  Forall2 (fun p b =>
             get_blob st1 p = Some blob_zero
             /\ forall c, blob_cell b = Some c ->
                          exists n, heap st1 !! c = Some (Freed (replicate n 0))) ps bs.
Proof.
  induction ps as [|p ps IH]; intros bs st st1 Hall Hnd Hcells Hrun.
  - inversion Hall. constructor.
  - destruct bs as [|b bs]; [inversion Hall|].
    apply list.Forall2_cons in Hall as [[Hp Ho] Hall].
    apply list.NoDup_cons in Hnd as [Hnp Hnd].
    apply omap_cell_apart in Hcells as [Hcells Hapart].
    destruct (s2n_free_post p b st Hp Ho) as (s0 & Hf & Hz & _ & _ & Hcell).
    destruct (s2n_free_frame _ _ _ _ _ Hp Hf) as [Hfb Hfh].
    cbn [release] in Hrun. rewrite (run_bind_ok _ _ _ _ _ Hf) in Hrun.
    assert (Forall (fun p' => p' <> p) ps) as Hne
      by (apply list.Forall_forall; intros p' Hp' ->; contradiction).
    assert (Forall2 (fun p' b' => get_blob s0 p' = Some b'
                                  /\ blob_owned_or_empty s0 b' = true) ps bs) as Hall0.
    { eapply list.Forall2_impl; [exact (Forall2_with _ _ _ _ _ Hall Hne Hapart)|].
      cbn beta. intros p' b' ((Hp' & Ho') & Hpp & Hbb).
      split; [now rewrite Hfb|].
      apply (blob_owned_frame st); [exact Ho'|].
      intros c Hc. apply Hfh. intros off E.
      destruct (owned_data _ _ _ _ Ho E) as [Hcb _]. exact (Hbb c Hc Hcb). }
    (* what the later releases leave alone *)
    assert (forall c, (forall b', b' ∈ bs -> blob_cell b' <> Some c) ->
                      heap st1 !! c = heap s0 !! c
                      /\ get_blob st1 p = get_blob s0 p) as Hlater.
    { intros c Hc.
      destruct (release_frame c ps s0 (Ok tt) st1 Hrun Hnd) as [Hh Hg].
      - intros p' Hp'. destruct (Forall2_elem_l _ _ _ _ Hall0 Hp') as (b' & Hb' & Hg' & Ho').
        exists b'. split; [exact Hg'|]. intros off E.
        exact (Hc b' Hb' (proj1 (owned_data _ _ _ _ Ho' E))).
      - split; [exact Hh|]. now apply Hg. }
    constructor; [|exact (IH bs s0 st1 Hall0 Hnd Hcells Hrun)].
    split.
    + destruct (Hlater (length (heap s0))) as [_ ->]; [|exact Hz].
      intros b' Hb' Hc.
      destruct (list_elem_of_lookup_1 _ _ Hb') as [k Hk].
      destruct (Forall2_lookup_r _ _ _ _ _ Hall0 Hk) as (p' & _ & Hg' & Ho').
      unfold blob_cell in Hc.
      destruct (data b') as [|[|c'] off] eqn:E; try discriminate.
      destruct (growable b'); [|discriminate]. injection Hc as ->.
      pose proof (proj2 (owned_data _ _ _ _ Ho' E)). lia.
    + intros c Hc. destruct (Hcell c Hc) as [n Hn]. exists n.
      destruct (Hlater c) as [-> _]; [|exact Hn].
      intros b' Hb'. rewrite list.Forall_forall in Hapart.
      intros Hc'. exact (Hapart b' Hb' c Hc' Hc).
Qed.

End ReleasePost.

Section HybridRelease.
Context {W : Type}.
Variable malloc : W -> Z -> bool.
Implicit Types st : state W.

(** A successful run of the statements that follow the two
    sub-operations, call by call. *)
Lemma hybrid_tail_steps i j cursor start st st' :
  DEFER_CLEANUP (s2n_free (B_local i))
    (hybrid_after_kex malloc (B_local j) (B_local i) cursor start) st = (Ok tt, st') ->
  exists sm s1 s4 rc,
    conn sm = set_client_key_exchange_message
                (set_size (uint32 (cursor_of cursor st - start))
                   (client_key_exchange_message (conn st))) (conn st)
    /\ heap sm = heap st /\ blobs sm = blobs st /\ world sm = world st
    /\ start <= cursor_of cursor st
    /\ hybrid_concat malloc (B_local j) (B_local i) B_kem_shared_secret sm = (Ok tt, s1)
    /\ release [B_kem_private_key; B_kem_public_key; B_kem_shared_secret] s1 = (Ok tt, s4)
    /\ s2n_free (B_local i) s4 = (rc, st').
Proof.
  intros H. apply defer_ok_inv in H as (s4 & rc & Hb & Hfree).
  unfold hybrid_after_kex in Hb.
  rewrite (run_bind_ok _ _ st (cursor_of cursor st) st) in Hb by (now destruct cursor).
  apply bind_ok_inv in Hb as ([] & s0 & Hge & Hb).
  unfold gte_check, S2N_ERROR_IF in Hge.
  destruct (cursor_of cursor st <? start) eqn:Hcmp; [discriminate|].
  injection Hge as <-. apply Z.ltb_ge in Hcmp.
  apply bind_ok_inv in Hb as ([] & sm & Hm & Hb).
  unfold modify in Hm. injection Hm as <-.
  rewrite hybrid_combine_concat in Hb.
  apply bind_ok_inv in Hb as ([] & s1 & Hc & Hb).
  rewrite kem_free_release in Hb.
  eexists _, s1, s4, rc.
  split; [|split; [|split; [|split; [|split; [exact Hcmp|split; [exact Hc|]]]]]];
    [reflexivity..|]. split; assumption.
Qed.

Lemma kem_pointers_nodup :
  NoDup [B_kem_private_key; B_kem_public_key; B_kem_shared_secret].
Proof. refine (bool_decide_unpack _ _). vm_compute. exact I. Qed.

Lemma hybrid_tail_release i j cursor start b0 st st' :
  j <> i -> (j < length (blobs st))%nat ->
  get_blob st (B_local i) = Some b0 ->
  blobs_owned st [b0; kem_private_key (conn st); kem_public_key (conn st);
                  kem_shared_secret (conn st)] = true ->
  DEFER_CLEANUP (s2n_free (B_local i))
    (hybrid_after_kex malloc (B_local j) (B_local i) cursor start) st = (Ok tt, st') ->
  get_blob st' (B_local i) = Some blob_zero
  /\ kem_private_key (conn st') = blob_zero
  /\ kem_public_key (conn st') = blob_zero
  /\ kem_shared_secret (conn st') = blob_zero
  /\ forall b, b ∈ [b0; kem_private_key (conn st); kem_public_key (conn st);
                    kem_shared_secret (conn st)] ->
     forall c, blob_cell b = Some c ->
               exists n, heap st' !! c = Some (Freed (replicate n 0)).
Proof.
  intros Hji Hj Hb0 Hown Hrun.
  apply andb_prop in Hown as [Hall Hnd]. apply bool_decide_eq_true in Hnd.
  cbn [forallb] in Hall.
  apply andb_prop in Hall as [Ho0 Hall]. apply andb_prop in Hall as [Hopriv Hall].
  apply andb_prop in Hall as [Hopub Hall]. apply andb_prop in Hall as [Ho1 _].
  apply hybrid_tail_steps in Hrun
    as (sm & s1 & s4 & rc & Hmc & Hmh & Hmb & Hmw & Hcur & Hconcat & Hrel & Hfree).
  set (ps := [B_kem_private_key; B_kem_public_key; B_kem_shared_secret]) in *.
  set (kbs := [kem_private_key (conn st); kem_public_key (conn st);
               kem_shared_secret (conn st)]) in *.
  (* the combiner leaves the four blobs and their cells alone *)
  destruct (owned_bytes _ _ Ho0) as [A HA]. destruct (owned_bytes _ _ Ho1) as [B HB].
  assert (rsa_premaster_secret (conn sm) = rsa_premaster_secret (conn st)) as Hmpre
    by (now rewrite Hmc).
  destruct (hybrid_concat_spec malloc i j b0 A B sm) as (r & s1' & Hrun & Hok & _).
  { congruence. }
  { now rewrite Hmb. }
  { cbn. rewrite Hmb. exact Hb0. }
  { apply (blob_bytes_frame st); [exact HA|exact Hmpre|]. intros. now rewrite Hmh. }
  { rewrite Hmc. cbn. apply (blob_bytes_frame st); [exact HB|exact Hmpre|].
    intros. now rewrite Hmh. }
  rewrite Hconcat in Hrun. injection Hrun as <- <-.
  destruct (Hok eq_refl) as (Hc1 & bc & Hbl1 & _ & Halt).
  rewrite Hmh, Hmb in *.
  assert (forall c, (c < length (heap st))%nat -> heap s1 !! c = heap st !! c) as Hlow.
  { destruct Halt as [(_ & _ & ->)|(_ & ->)]; [done|].
    intros c Hc. now apply lookup_app_l. }
  assert (forall b, blob_owned_or_empty st b = true -> blob_owned_or_empty s1 b = true)
    as Hkeep.
  { intros b Ho. apply (blob_owned_frame st); [exact Ho|].
    intros c Hc. apply Hlow. exact (owned_cell_below _ _ _ Ho Hc). }
  assert (kem_private_key (conn s1) = kem_private_key (conn st)
          /\ kem_public_key (conn s1) = kem_public_key (conn st)
          /\ kem_shared_secret (conn s1) = kem_shared_secret (conn st))
    as (Hpriv & Hpub & Hsec) by (rewrite Hc1, Hmc; done).
  assert (get_blob s1 (B_local i) = Some b0) as Hi1.
  { cbn. rewrite Hbl1, list_lookup_insert_ne by done. exact Hb0. }
  apply omap_cell_apart in Hnd as [Hnd Hapart].
  (* the release of the KEM parameters *)
  assert (Forall2 (fun p b => get_blob s1 p = Some b /\ blob_owned_or_empty s1 b = true)
            ps kbs) as Hall1.
  { repeat constructor; cbn [get_blob]; try congruence; now apply Hkeep. }
  pose proof (release_post ps kbs s1 s4 Hall1 kem_pointers_nodup Hnd Hrel) as Hpost.
  assert (forall k, B_local k ∉ ps) as Hloc.
  { intros k Hk. unfold ps in Hk. rewrite !elem_of_cons, elem_of_nil in Hk.
    destruct Hk as [|[|[|[]]]]; discriminate. }
  assert (forall c, (forall b, b ∈ kbs -> blob_cell b <> Some c) ->
                    heap s4 !! c = heap s1 !! c
                    /\ get_blob s4 (B_local i) = get_blob s1 (B_local i)) as Hkem.
  { intros c Hc.
    destruct (release_frame c ps s1 (Ok tt) s4 Hrel kem_pointers_nodup) as [Hh Hg].
    - intros p Hp. destruct (Forall2_elem_l _ _ _ _ Hall1 Hp) as (b & Hb & Hg & Ho).
      exists b. split; [exact Hg|]. intros off E.
      exact (Hc b Hb (proj1 (owned_data _ _ _ _ Ho E))).
    - split; [exact Hh|]. apply Hg, Hloc. }
  (* the release of shared_key_0 *)
  assert (get_blob s4 (B_local i) = Some b0) as Hi4.
  { destruct (Hkem (length (heap s1))) as [_ ->]; [|exact Hi1].
    intros b Hb Hc.
    assert (blob_owned_or_empty s1 b = true) as Ho.
    { unfold kbs in Hb. rewrite !elem_of_cons, elem_of_nil in Hb.
      destruct Hb as [->|[->|[->|[]]]]; now apply Hkeep. }
    pose proof (owned_cell_below _ _ _ Ho Hc). lia. }
  assert (blob_owned_or_empty s4 b0 = true) as Ho4.
  { apply (blob_owned_frame s1); [now apply Hkeep|].
    intros c Hc. apply Hkem. intros b Hb Hc'.
    rewrite list.Forall_forall in Hapart. exact (Hapart b Hb c Hc' Hc). }
  destruct (s2n_free_post _ _ _ Hi4 Ho4) as (s5 & Hfree' & Hz & _ & _ & Hcell0).
  rewrite Hfree in Hfree'. injection Hfree' as -> ->.
  destruct (s2n_free_frame _ _ _ _ _ Hi4 Hfree) as [Hfb Hfh].
  apply list.Forall2_cons in Hpost as [[Hz1 Hc1'] Hpost].
  apply list.Forall2_cons in Hpost as [[Hz2 Hc2'] Hpost].
  apply list.Forall2_cons in Hpost as [[Hz3 Hc3'] _].
  assert (forall b c, b ∈ kbs -> blob_cell b = Some c ->
                      heap s5 !! c = heap s4 !! c) as Hfr.
  { intros b c Hb Hc. apply Hfh. intros off E.
    rewrite list.Forall_forall in Hapart.
    exact (Hapart b Hb c Hc (proj1 (owned_data _ _ _ _ Ho4 E))). }
  split; [exact Hz|].
  split; [rewrite <- Hfb in Hz1 by discriminate; cbn in Hz1; congruence|].
  split; [rewrite <- Hfb in Hz2 by discriminate; cbn in Hz2; congruence|].
  split; [rewrite <- Hfb in Hz3 by discriminate; cbn in Hz3; congruence|].
  intros b Hb c Hc. unfold kbs in Hb. rewrite !elem_of_cons, elem_of_nil in Hb.
  destruct Hb as [->|[->|[->|[->|[]]]]].
  - exact (Hcell0 c Hc).
  - destruct (Hc1' c Hc) as [n Hn]. exists n.
    rewrite (Hfr (kem_private_key (conn st)) c); [exact Hn| |exact Hc].
    unfold kbs. apply list_elem_of_here.
  - destruct (Hc2' c Hc) as [n Hn]. exists n.
    rewrite (Hfr (kem_public_key (conn st)) c); [exact Hn| |exact Hc].
    unfold kbs. apply list_elem_of_further, list_elem_of_here.
  - destruct (Hc3' c Hc) as [n Hn]. exists n.
    rewrite (Hfr (kem_shared_secret (conn st)) c); [exact Hn| |exact Hc].
    unfold kbs. do 2 apply list_elem_of_further. apply list_elem_of_here.
Qed.

End HybridRelease.

(** X10: a hybrid exchange that succeeds leaves no copy of the two
    component secrets behind: shared_key_0 and the three blobs of the KEM
    parameters are reset, and every cell that one of them owned is
    released with its bytes set to 0. *)
Theorem hybrid_releases_component_secrets {W} (malloc : W -> Z -> bool)
    (kex_recv kex_send : s2n_kex_client_key_method (W := W))
    dir j st d st_a st_b st_c b0 st' :
  direction_stuffer_action malloc dir S_handshake_io 0 st = (Ok d, st_a) ->
  d <> NULL ->
  direction_kex_method dir kex_recv kex_send
    (fst (hybrid (key_exchange_alg (conn st)))) (B_local (length (blobs st_a)))
    (hybrid_enter d st_a) = (Ok tt, st_b) ->
  direction_kex_method dir kex_recv kex_send
    (snd (hybrid (key_exchange_alg (conn st)))) B_kem_shared_secret st_b = (Ok tt, st_c) ->
  j <> length (blobs st_a) -> (j < length (blobs st_c))%nat ->
  get_blob st_c (B_local (length (blobs st_a))) = Some b0 ->
  blobs_owned st_c [b0; kem_private_key (conn st_c); kem_public_key (conn st_c);
                    kem_shared_secret (conn st_c)] = true ->
  s2n_hybrid_client_key malloc dir kex_recv kex_send (B_local j) st = (Ok tt, st') ->
  get_blob st' (B_local (length (blobs st_a))) = Some blob_zero
  /\ kem_private_key (conn st') = blob_zero
  /\ kem_public_key (conn st') = blob_zero
  /\ kem_shared_secret (conn st') = blob_zero
  /\ forall b, b ∈ [b0; kem_private_key (conn st_c); kem_public_key (conn st_c);
                    kem_shared_secret (conn st_c)] ->
     forall c, blob_cell b = Some c ->
               exists n, heap st' !! c = Some (Freed (replicate n 0)).
Proof.
  intros Hsa Hd Hk0 Hk1 Hji Hj Hb0 Hown Hrun.
  assert (s2n_hybrid_client_key malloc dir kex_recv kex_send (B_local j) st
          = DEFER_CLEANUP (s2n_free (B_local (length (blobs st_a))))
              (hybrid_after_kex malloc (B_local j) (B_local (length (blobs st_a)))
                 (direction_cursor dir) (cursor_of (direction_cursor dir) st_a)) st_c)
    as Heq.
  { rewrite <- (hybrid_action_decompose malloc (B_local j) _ _ _ st d st_a st_b st_c
                  Hsa Hd Hk0 Hk1).
    now destruct dir. }
  rewrite Heq in Hrun.
  exact (hybrid_tail_release malloc _ j (direction_cursor dir) _ b0 st_c st'
           Hji Hj Hb0 Hown Hrun).
Qed.

Lemma hybrid_releases_component_secrets_witness :
  get_blob Examples.st_hybrid_done (B_local (length (blobs Examples.st_hybrid_a)))
  = Some blob_zero
  /\ kem_private_key (conn Examples.st_hybrid_done) = blob_zero
  /\ kem_public_key (conn Examples.st_hybrid_done) = blob_zero
  /\ kem_shared_secret (conn Examples.st_hybrid_done) = blob_zero
  /\ forall b, b ∈ [mk_blob (Ptr (R_heap 1) 0) 32 32 true;
                    kem_private_key (conn Examples.st_hybrid_c);
                    kem_public_key (conn Examples.st_hybrid_c);
                    kem_shared_secret (conn Examples.st_hybrid_c)] ->
     forall c, blob_cell b = Some c ->
               exists n, heap Examples.st_hybrid_done !! c = Some (Freed (replicate n 0)).
Proof.
  assert (direction_stuffer_action Examples.example_malloc Receive S_handshake_io 0
            Examples.st_hybrid
          = (Ok (Ptr (R_heap 0) 0), Examples.st_hybrid_a)) as Ha
    by (vm_compute; reflexivity).
  assert (direction_kex_method Receive Examples.example_kex_recv Examples.example_kex_send
            (fst (hybrid (key_exchange_alg (conn Examples.st_hybrid))))
            (B_local (length (blobs Examples.st_hybrid_a)))
            (hybrid_enter (Ptr (R_heap 0) 0) Examples.st_hybrid_a)
          = (Ok tt, Examples.st_hybrid_b)) as Hb
    by (vm_compute; reflexivity).
  assert (direction_kex_method Receive Examples.example_kex_recv Examples.example_kex_send
            (snd (hybrid (key_exchange_alg (conn Examples.st_hybrid))))
            B_kem_shared_secret Examples.st_hybrid_b = (Ok tt, Examples.st_hybrid_c)) as Hc
    by (vm_compute; reflexivity).
  assert (get_blob Examples.st_hybrid_c (B_local (length (blobs Examples.st_hybrid_a)))
          = Some (mk_blob (Ptr (R_heap 1) 0) 32 32 true)) as Hg
    by (vm_compute; reflexivity).
  assert (blobs_owned Examples.st_hybrid_c
            [mk_blob (Ptr (R_heap 1) 0) 32 32 true;
             kem_private_key (conn Examples.st_hybrid_c);
             kem_public_key (conn Examples.st_hybrid_c);
             kem_shared_secret (conn Examples.st_hybrid_c)] = true) as Hown
    by (vm_compute; reflexivity).
  assert (s2n_hybrid_client_key Examples.example_malloc Receive Examples.example_kex_recv
            Examples.example_kex_send (B_local 0) Examples.st_hybrid
          = (Ok tt, Examples.st_hybrid_done)) as Hrun
    by (vm_compute; reflexivity).
  assert (0%nat <> length (blobs Examples.st_hybrid_a)) as Hji
    by (vm_compute; discriminate).
  assert (0 < length (blobs Examples.st_hybrid_c))%nat as Hj
    by (vm_compute; lia).
  exact (hybrid_releases_component_secrets Examples.example_malloc
           Examples.example_kex_recv Examples.example_kex_send Receive 0%nat
           Examples.st_hybrid (Ptr (R_heap 0) 0) Examples.st_hybrid_a Examples.st_hybrid_b
           Examples.st_hybrid_c _ Examples.st_hybrid_done
           Ha ltac:(discriminate) Hb Hc Hji Hj Hg Hown Hrun).
Defined.

(** X11: in a hybrid exchange the KEM handler is given the shared secret
    of the KEM parameters, so its aliasing check passes and never ends the
    exchange: where the method table resolves the second descriptor of
    the pair to s2n_kem_client_key_recv (s2n_kem_client_key_send when
    sending), the handler continues after the first sub-operation exactly
    as the KEM primitive followed by the statements after the two
    sub-operations, under the release of shared_key_0. *)
Theorem hybrid_meets_kem_contract {W} (malloc : W -> Z -> bool)
    (kex_recv kex_send : s2n_kex_client_key_method (W := W))
    (recv_primitive send_primitive : M W unit) dir combined st d st_a st_b :
  snd (hybrid (key_exchange_alg (conn st))) = Some s2n_kem ->
  (forall sk, kex_recv (Some s2n_kem) sk = s2n_kem_client_key_recv recv_primitive sk) ->
  (forall sk, kex_send (Some s2n_kem) sk = s2n_kem_client_key_send send_primitive sk) ->
  direction_stuffer_action malloc dir S_handshake_io 0 st = (Ok d, st_a) ->
  d <> NULL ->
  direction_kex_method dir kex_recv kex_send
    (fst (hybrid (key_exchange_alg (conn st)))) (B_local (length (blobs st_a)))
    (hybrid_enter d st_a) = (Ok tt, st_b) ->
  s2n_hybrid_client_key malloc dir kex_recv kex_send combined st
  = DEFER_CLEANUP (s2n_free (B_local (length (blobs st_a))))
      (match dir with Receive => recv_primitive | Send => send_primitive end
         ≫= fun _ =>
       hybrid_after_kex malloc combined (B_local (length (blobs st_a)))
         (direction_cursor dir) (cursor_of (direction_cursor dir) st_a)) st_b.
Proof.
  intros Hkem Hr Hs Hsa Hd Hk0.
  assert (s2n_hybrid_client_key malloc dir kex_recv kex_send combined st
          = s2n_hybrid_client_action malloc combined
              (Some (direction_kex_method dir kex_recv kex_send)) (direction_cursor dir)
              (Some (direction_stuffer_action malloc dir)) st) as ->
    by (now destruct dir).
  rewrite (hybrid_action_enter malloc combined _ _ _ st d st_a Hsa Hd).
  rewrite (defer_bind_ok _ _ _ _ _ _ Hk0).
  rewrite Hkem. unfold DEFER_CLEANUP. rewrite !run_bind.
  assert (direction_kex_method dir kex_recv kex_send (Some s2n_kem) B_kem_shared_secret st_b
          = match dir with Receive => recv_primitive | Send => send_primitive end st_b)
    as ->; [|reflexivity].
  destruct dir; cbn [direction_kex_method].
  - rewrite Hr. unfold s2n_kem_client_key_recv.
    rewrite (run_bind_ok _ _ st_b tt st_b) by reflexivity.
    rewrite (run_bind_ok _ _ st_b tt st_b) by reflexivity.
    apply run_unit.
  - rewrite Hs. unfold s2n_kem_client_key_send.
    rewrite (run_bind_ok _ _ st_b tt st_b) by reflexivity.
    rewrite (run_bind_ok _ _ st_b tt st_b) by reflexivity.
    apply run_unit.
Qed.

Lemma hybrid_meets_kem_contract_witness :
  s2n_hybrid_client_key Examples.example_malloc Receive
    MoreExamples.example_hybrid_dispatch_recv MoreExamples.example_hybrid_dispatch_send
    (B_local 0) Examples.st_hybrid
  = DEFER_CLEANUP (s2n_free (B_local (length (blobs Examples.st_hybrid_a))))
      (MoreExamples.example_kem_recv_primitive ≫= fun _ =>
       hybrid_after_kex Examples.example_malloc (B_local 0)
         (B_local (length (blobs Examples.st_hybrid_a))) C_io_read_cursor
         (cursor_of C_io_read_cursor Examples.st_hybrid_a)) Examples.st_hybrid_b.
Proof.
  assert (direction_stuffer_action Examples.example_malloc Receive S_handshake_io 0
            Examples.st_hybrid
          = (Ok (Ptr (R_heap 0) 0), Examples.st_hybrid_a)) as Ha
    by (vm_compute; reflexivity).
  assert (direction_kex_method Receive MoreExamples.example_hybrid_dispatch_recv
            MoreExamples.example_hybrid_dispatch_send
            (fst (hybrid (key_exchange_alg (conn Examples.st_hybrid))))
            (B_local (length (blobs Examples.st_hybrid_a)))
            (hybrid_enter (Ptr (R_heap 0) 0) Examples.st_hybrid_a)
          = (Ok tt, Examples.st_hybrid_b)) as Hb
    by (vm_compute; reflexivity).
  exact (hybrid_meets_kem_contract Examples.example_malloc
           MoreExamples.example_hybrid_dispatch_recv
           MoreExamples.example_hybrid_dispatch_send
           MoreExamples.example_kem_recv_primitive
           MoreExamples.example_kem_send_primitive
           Receive (B_local 0) Examples.st_hybrid (Ptr (R_heap 0) 0)
           Examples.st_hybrid_a Examples.st_hybrid_b
           eq_refl (fun sk => eq_refl) (fun sk => eq_refl) Ha ltac:(discriminate) Hb).
Defined.

Section NullStart.
Context {W : Type}.
Variable malloc : W -> Z -> bool.
Implicit Types st : state W.

Lemma uint32_nonneg z : 0 <= uint32 z.
Proof. unfold uint32. apply Z.mod_pos_bound. lia. Qed.

(** Taking zero bytes of a stuffer without storage yields a null pointer. *)
Lemma raw_action_null dir st :
  data (blob (handshake_io (conn st))) = NULL ->
  exists st_a,
    direction_stuffer_action malloc dir S_handshake_io 0 st = (Ok NULL, st_a)
    /\ world st_a = world st /\ heap st_a = heap st /\ blobs st_a = blobs st.
Proof.
  intros Hd. destruct st as [c h bl sl w]. cbn [conn] in Hd.
  destruct dir; cbn [direction_stuffer_action].
  - unfold s2n_stuffer_raw_read, GUARD_PTR, s2n_stuffer_skip_read.
    rewrite (run_bind_ok _ _ _ (handshake_io c) (mk_state c h bl sl w)) by reflexivity.
    unfold S2N_ERROR_IF.
    rewrite (proj2 (Z.ltb_ge _ _)) by apply uint32_nonneg.
    rewrite (run_bind_ok _ _ _ tt (mk_state c h bl sl w)) by reflexivity.
    unfold deref_stuffer, assign_stuffer, access, mbind, M_bind, bind, ret;
    cbn. rewrite Hd. cbn. eauto.
  - unfold s2n_stuffer_raw_write, GUARD_PTR, s2n_stuffer_skip_write,
      s2n_stuffer_reserve_space.
    rewrite !run_bind_assoc.
    rewrite (run_bind_ok _ _ _ (handshake_io c) (mk_state c h bl sl w)) by reflexivity.
    rewrite (proj2 (Z.ltb_ge _ _)) by apply uint32_nonneg.
    rewrite (run_bind_ok _ _ _ tt (mk_state c h bl sl w)) by reflexivity.
    unfold deref_stuffer, assign_stuffer, access, mbind, M_bind, bind, ret;
    cbn. rewrite Hd. cbn. eauto.
Qed.

End NullStart.

(** X12: a hybrid exchange on a handshake buffer that has no storage fails
    with a null error in both directions, before either sub-operation is
    called: the start of the message that the stuffer hands out is a null
    pointer. *)
Theorem hybrid_without_storage {W} (malloc : W -> Z -> bool) dir (st : state W) :
  data (blob (handshake_io (conn st))) = NULL ->
  exists st',
    (forall kex_recv kex_send combined,
       s2n_hybrid_client_key malloc dir kex_recv kex_send combined st
       = (Err S2N_ERR_NULL, st'))
    /\ data (captured_message st') = NULL
    /\ world st' = world st /\ heap st' = heap st /\ blobs st' = blobs st.
Proof.
  intros Hd. destruct (raw_action_null malloc dir st Hd) as (st_a & Ha & Hw & Hh & Hb).
  exists (set_conn (fun c => set_client_key_exchange_message
                               (set_data NULL (client_key_exchange_message c)) c) st_a).
  split; [|repeat split; assumption].
  intros kex_recv kex_send combined.
  assert (s2n_hybrid_client_key malloc dir kex_recv kex_send combined st
          = s2n_hybrid_client_action malloc combined
              (Some (direction_kex_method dir kex_recv kex_send)) (direction_cursor dir)
              (Some (direction_stuffer_action malloc dir)) st) as ->
    by (now destruct dir).
  unfold s2n_hybrid_client_action.
  rewrite (run_bind_ok _ _ st (direction_kex_method dir kex_recv kex_send) st)
    by reflexivity.
  rewrite (run_bind_ok _ _ st (direction_stuffer_action malloc dir) st) by reflexivity.
  rewrite (run_bind_ok _ _ st (fst (hybrid (key_exchange_alg (conn st)))) st) by reflexivity.
  rewrite (run_bind_ok _ _ st (snd (hybrid (key_exchange_alg (conn st)))) st) by reflexivity.
  rewrite (run_bind_ok _ _ st NULL st_a) by exact Ha.
  rewrite (run_bind_ok _ _ st_a tt
             (set_conn (fun c => set_client_key_exchange_message
                                   (set_data NULL (client_key_exchange_message c)) c) st_a))
    by reflexivity.
  reflexivity.
Qed.

Lemma hybrid_without_storage_witness :
  exists st',
    (forall kex_recv kex_send combined,
       s2n_hybrid_client_key Examples.example_malloc Send kex_recv kex_send combined
         MoreExamples.st_hybrid_no_storage
       = (Err S2N_ERR_NULL, st'))
    /\ data (captured_message st') = NULL
    /\ world st' = world MoreExamples.st_hybrid_no_storage
    /\ heap st' = heap MoreExamples.st_hybrid_no_storage
    /\ blobs st' = blobs MoreExamples.st_hybrid_no_storage.
Proof.
  exact (hybrid_without_storage Examples.example_malloc Send
           MoreExamples.st_hybrid_no_storage eq_refl).
Defined.

Section AllocFailure.
Context {W : Type}.
Variable malloc : W -> Z -> bool.
Implicit Types st : state W.

(** The statements after the two sub-operations when the storage of the
    combined key is refused. *)
Lemma hybrid_tail_alloc_failure i j cursor start b0 st :
  j <> i -> (j < length (blobs st))%nat ->
  get_blob st (B_local i) = Some b0 ->
  blob_owned_or_empty st b0 = true ->
  start <= cursor_of cursor st ->
  uint32 (size b0 + size (kem_shared_secret (conn st))) <> 0 ->
  malloc (world st) (uint32 (size b0 + size (kem_shared_secret (conn st)))) = false ->
  exists st',
    DEFER_CLEANUP (s2n_free (B_local i))
      (hybrid_after_kex malloc (B_local j) (B_local i) cursor start) st
    = (Err S2N_ERR_ALLOC, st')
    /\ get_blob st' (B_local j) = Some blob_zero
    /\ get_blob st' (B_local i) = Some blob_zero
    /\ (forall c, blob_cell b0 = Some c ->
                  exists n, heap st' !! c = Some (Freed (replicate n 0)))
    /\ (forall q, q ∈ [B_kem_private_key; B_kem_public_key; B_kem_shared_secret] ->
                  get_blob st' q = get_blob st q)
    /\ (forall c, (forall off, data b0 <> Ptr (R_heap c) off) ->
                  heap st' !! c = heap st !! c)
    /\ world st' = world st.
Proof.
  intros Hji Hj Hb0 Ho Hcur Hn Hm.
  set (sm := set_conn (fun c =>
               set_client_key_exchange_message
                 (set_size (uint32 (cursor_of cursor st - start))
                    (client_key_exchange_message c)) c) st).
  set (sz := set_blobs (<[j := blob_zero]> (blobs sm)) sm).
  assert (i < length (blobs st))%nat as Hi by (now apply lookup_lt_Some in Hb0).
  assert (get_blob sz (B_local i) = Some b0) as Hzi.
  { cbn. rewrite list_lookup_insert_ne by done. exact Hb0. }
  assert (blob_owned_or_empty sz b0 = true) as Hzo
    by (apply (blob_owned_frame st); [exact Ho|reflexivity]).
  destruct (s2n_free_post _ _ _ Hzi Hzo) as (st' & Hfree & Hz & Hw & _ & Hcell).
  destruct (s2n_free_frame _ _ _ _ _ Hzi Hfree) as [Hother Hheap].
  assert (hybrid_after_kex malloc (B_local j) (B_local i) cursor start st
          = (Err S2N_ERR_ALLOC, sz)) as Hbody.
  { unfold hybrid_after_kex.
    rewrite (run_bind_ok _ _ st (cursor_of cursor st) st) by (now destruct cursor).
    rewrite (run_bind_ok _ _ st tt st)
      by (unfold gte_check, S2N_ERROR_IF; now rewrite (proj2 (Z.ltb_ge _ _))).
    rewrite (run_bind_ok _ _ st tt sm) by reflexivity.
    unfold hybrid_combine.
    rewrite (run_bind_ok _ _ sm b0 sm) by (unfold deref; change (get_blob sm (B_local i)) with (get_blob st (B_local i));
          now rewrite Hb0).
    rewrite (run_bind_ok _ _ sm (kem_shared_secret (conn st)) sm) by reflexivity.
    rewrite run_bind, (s2n_alloc_local malloc j _ sm Hj).
    rewrite bool_decide_eq_false_2 by exact Hn.
    change (world sm) with (world st). now rewrite Hm. }
  exists st'. split.
  { unfold DEFER_CLEANUP. now rewrite Hbody, Hfree. }
  split.
  { rewrite Hother by congruence. cbn. apply list_lookup_insert_eq. exact Hj. }
  split; [exact Hz|]. split; [exact Hcell|]. split.
  { intros q Hq. rewrite Hother.
    - rewrite !elem_of_cons in Hq. destruct Hq as [->|[->|[->|Hq]]]; try reflexivity.
      now apply elem_of_nil in Hq.
    - rewrite !elem_of_cons in Hq. destruct Hq as [->|[->|[->|Hq]]]; try discriminate.
      now apply elem_of_nil in Hq. }
  split; [|exact Hw].
  intros c Hc. now rewrite (Hheap c Hc).
Qed.

End AllocFailure.

(** X13: when both sub-operations of a hybrid exchange have succeeded and
    the storage of the combined key is refused, the handler fails with an
    allocation error and the combined key is left empty. shared_key_0 is
    still released with its bytes set to 0, but the KEM parameters are not:
    their three blobs, and every cell that shared_key_0 does not point
    into, stay as the second sub-operation left them. *)
Theorem hybrid_allocation_failure {W} (malloc : W -> Z -> bool)
    (kex_recv kex_send : s2n_kex_client_key_method (W := W))
    dir j st d st_a st_b st_c b0 :
  direction_stuffer_action malloc dir S_handshake_io 0 st = (Ok d, st_a) ->
  d <> NULL ->
  direction_kex_method dir kex_recv kex_send
    (fst (hybrid (key_exchange_alg (conn st)))) (B_local (length (blobs st_a)))
    (hybrid_enter d st_a) = (Ok tt, st_b) ->
  direction_kex_method dir kex_recv kex_send
    (snd (hybrid (key_exchange_alg (conn st)))) B_kem_shared_secret st_b = (Ok tt, st_c) ->
  j <> length (blobs st_a) -> (j < length (blobs st_c))%nat ->
  get_blob st_c (B_local (length (blobs st_a))) = Some b0 ->
  blob_owned_or_empty st_c b0 = true ->
  cursor_of (direction_cursor dir) st_a <= cursor_of (direction_cursor dir) st_c ->
  uint32 (size b0 + size (kem_shared_secret (conn st_c))) <> 0 ->
  malloc (world st_c) (uint32 (size b0 + size (kem_shared_secret (conn st_c)))) = false ->
  exists st',
    s2n_hybrid_client_key malloc dir kex_recv kex_send (B_local j) st
    = (Err S2N_ERR_ALLOC, st')
    /\ get_blob st' (B_local j) = Some blob_zero
    /\ get_blob st' (B_local (length (blobs st_a))) = Some blob_zero
    /\ (forall c, blob_cell b0 = Some c ->
                  exists n, heap st' !! c = Some (Freed (replicate n 0)))
    /\ (forall q, q ∈ [B_kem_private_key; B_kem_public_key; B_kem_shared_secret] ->
                  get_blob st' q = get_blob st_c q)
    /\ (forall c, (forall off, data b0 <> Ptr (R_heap c) off) ->
                  heap st' !! c = heap st_c !! c)
    /\ world st' = world st_c.
Proof.
  intros Hsa Hd Hk0 Hk1 Hji Hj Hb0 Ho Hcur Hn Hm.
  assert (s2n_hybrid_client_key malloc dir kex_recv kex_send (B_local j) st
          = DEFER_CLEANUP (s2n_free (B_local (length (blobs st_a))))
              (hybrid_after_kex malloc (B_local j) (B_local (length (blobs st_a)))
                 (direction_cursor dir) (cursor_of (direction_cursor dir) st_a)) st_c)
    as ->.
  { rewrite <- (hybrid_action_decompose malloc (B_local j) _ _ _ st d st_a st_b st_c
                  Hsa Hd Hk0 Hk1).
    now destruct dir. }
  exact (hybrid_tail_alloc_failure malloc _ j (direction_cursor dir) _ b0 st_c
           Hji Hj Hb0 Ho Hcur Hn Hm).
Qed.

Lemma hybrid_allocation_failure_witness :
  exists st',
    s2n_hybrid_client_key MoreExamples.example_malloc_64 Receive Examples.example_kex_recv
      Examples.example_kex_send (B_local 0) Examples.st_hybrid
    = (Err S2N_ERR_ALLOC, st')
    /\ get_blob st' (B_local 0) = Some blob_zero
    /\ get_blob st' (B_local (length (blobs Examples.st_hybrid_a))) = Some blob_zero
    /\ (forall c, blob_cell (mk_blob (Ptr (R_heap 1) 0) 32 32 true) = Some c ->
                  exists n, heap st' !! c = Some (Freed (replicate n 0)))
    /\ (forall q, q ∈ [B_kem_private_key; B_kem_public_key; B_kem_shared_secret] ->
                  get_blob st' q = get_blob Examples.st_hybrid_c q)
    /\ (forall c, (forall off, data (mk_blob (Ptr (R_heap 1) 0) 32 32 true)
                               <> Ptr (R_heap c) off) ->
                  heap st' !! c = heap Examples.st_hybrid_c !! c)
    /\ world st' = world Examples.st_hybrid_c.
Proof.
  assert (direction_stuffer_action MoreExamples.example_malloc_64 Receive S_handshake_io 0
            Examples.st_hybrid
          = (Ok (Ptr (R_heap 0) 0), Examples.st_hybrid_a)) as Ha
    by (vm_compute; reflexivity).
  assert (direction_kex_method Receive Examples.example_kex_recv Examples.example_kex_send
            (fst (hybrid (key_exchange_alg (conn Examples.st_hybrid))))
            (B_local (length (blobs Examples.st_hybrid_a)))
            (hybrid_enter (Ptr (R_heap 0) 0) Examples.st_hybrid_a)
          = (Ok tt, Examples.st_hybrid_b)) as Hb
    by (vm_compute; reflexivity).
  assert (direction_kex_method Receive Examples.example_kex_recv Examples.example_kex_send
            (snd (hybrid (key_exchange_alg (conn Examples.st_hybrid))))
            B_kem_shared_secret Examples.st_hybrid_b = (Ok tt, Examples.st_hybrid_c)) as Hc
    by (vm_compute; reflexivity).
  assert (get_blob Examples.st_hybrid_c (B_local (length (blobs Examples.st_hybrid_a)))
          = Some (mk_blob (Ptr (R_heap 1) 0) 32 32 true)) as Hg
    by (vm_compute; reflexivity).
  assert (blob_owned_or_empty Examples.st_hybrid_c (mk_blob (Ptr (R_heap 1) 0) 32 32 true)
          = true) as Hown
    by (vm_compute; reflexivity).
  assert (0%nat <> length (blobs Examples.st_hybrid_a)) as Hji
    by (vm_compute; discriminate).
  assert (0 < length (blobs Examples.st_hybrid_c))%nat as Hj
    by (vm_compute; lia).
  assert (cursor_of (direction_cursor Receive) Examples.st_hybrid_a
          <= cursor_of (direction_cursor Receive) Examples.st_hybrid_c) as Hcur
    by (vm_compute; discriminate).
  assert (uint32 (size (mk_blob (Ptr (R_heap 1) 0) 32 32 true)
                  + size (kem_shared_secret (conn Examples.st_hybrid_c))) <> 0) as Hn
    by (vm_compute; discriminate).
  assert (MoreExamples.example_malloc_64 (world Examples.st_hybrid_c)
            (uint32 (size (mk_blob (Ptr (R_heap 1) 0) 32 32 true)
                     + size (kem_shared_secret (conn Examples.st_hybrid_c)))) = false) as Hm
    by (vm_compute; reflexivity).
  exact (hybrid_allocation_failure MoreExamples.example_malloc_64
           Examples.example_kex_recv Examples.example_kex_send Receive 0%nat
           Examples.st_hybrid (Ptr (R_heap 0) 0) Examples.st_hybrid_a Examples.st_hybrid_b
           Examples.st_hybrid_c _ Ha ltac:(discriminate) Hb Hc Hji Hj Hg Hown Hcur Hn Hm).
Defined.
